(** * Verified reading of the DAS crypto-history synchroniser

    The development embeds the Python sources [db_utils.py], [filter1.py],
    [filter2.py] and [filter3.py] as Rocq functions and proves the
    properties that the design document states about them.

    Conventions of the embedding:
    - a Python call that may raise returns a [result]; the exception is a
      value of type [exn];
    - the SQLite connection is an explicit state that is passed around;
    - the network, the wall clock and the thread scheduler are oracles,
      passed as arguments, so every theorem holds for every behaviour of
      the outside world;
    - Python [str] is [string], [int] is [Z], [float] is the primitive
      IEEE-754 binary64 [float], [dict] used as a map is a [gmap], a
      [set] is a [gset]. *)

From Stdlib Require Import ZArith QArith Qminmax Lia List Ascii String Bool.
From Stdlib Require Import Floats Permutation.
From stdpp Require Import gmap strings list.
Import ListNotations.

Close Scope Q_scope.
Open Scope Z_scope.
Set Warnings "-register-all".

(** ** Python runtime: exceptions and results *)

Module Py.

Inductive exn : Type :=
| TypeError
| ValueError
| OverflowError
| AttributeError
| KeyError
| IndexError
| RuntimeError
| ProgrammingError
| UnicodeEncodeError
| OtherError (name : string).

Inductive result (A : Type) : Type :=
| Ok (a : A)
| Raise (e : exn).

Arguments Ok {A} a.
Arguments Raise {A} e.

Definition bind {A B : Type} (r : result A) (f : A -> result B) : result B :=
  match r with
  | Ok a => f a
  | Raise e => Raise e
  end.

Definition is_Ok {A : Type} (r : result A) : bool :=
  match r with Ok _ => true | Raise _ => false end.

Definition exn_eqb (a b : exn) : bool :=
  match a, b with
  | TypeError, TypeError | ValueError, ValueError
  | OverflowError, OverflowError | AttributeError, AttributeError
  | KeyError, KeyError | IndexError, IndexError
  | RuntimeError, RuntimeError | ProgrammingError, ProgrammingError
  | UnicodeEncodeError, UnicodeEncodeError => true
  | OtherError x, OtherError y => String.eqb x y
  | _, _ => false
  end.

End Py.
Export Py.

Notation "x <- c1 ;; c2" := (Py.bind c1 (fun x => c2))
  (at level 100, c1 at next level, right associativity).

(** ** JSON values, as [json.loads] delivers them

    A [JDict] is an association list; [dict_get] returns the first
    binding of a key. [JFloat] carries every binary64 value: Python's
    decoder accepts the literals NaN and Infinity. *)

Inductive json : Type :=
| JNull
| JBool (b : bool)
| JInt (z : Z)
| JFloat (f : float)
| JStr (s : string)
| JList (l : list json)
| JDict (kv : list (string * json)).

Fixpoint dict_get (kv : list (string * json)) (k : string) : option json :=
  match kv with
  | [] => None
  | (k', v) :: kv' => if String.eqb k' k then Some v else dict_get kv' k
  end.

(** Truth value of an object ([bool(v)]). *)
Definition truthy (v : json) : bool :=
  match v with
  | JNull => false
  | JBool b => b
  | JInt z => negb (z =? 0)
  | JFloat f => negb (PrimFloat.eqb f 0%float)
  | JStr s => negb (String.eqb s "")
  | JList l => match l with [] => false | _ => true end
  | JDict kv => match kv with [] => false | _ => true end
  end.

(** [a or b] *)
Definition py_or (a b : json) : json := if truthy a then a else b.

(** [v.get(k, default)]: only a dict has the method. *)
Definition py_get (v : json) (k : string) (dflt : json) : result json :=
  match v with
  | JDict kv => Ok (default dflt (dict_get kv k))
  | _ => Raise AttributeError
  end.

(** [v[0]] *)
Definition py_item0 (v : json) : result json :=
  match v with
  | JList (x :: _) => Ok x
  | JList [] => Raise IndexError
  | JStr (String c _) => Ok (JStr (String c EmptyString))
  | JStr EmptyString => Raise IndexError
  | JDict _ => Raise KeyError
  | _ => Raise TypeError
  end.

(** The conversions of the interpreter that the development does not
    unfold: [float(int)], [float(str)] and [repr] of a non-string object.
    [float_of_int] is [None] when the integer is too large (OverflowError),
    [float_of_str] is [None] when the text is not a float literal
    (ValueError). *)
Class Runtime : Type := {
  float_of_int : Z -> option float;
  float_of_str : string -> option float;
  repr : json -> string
}.

Section Builtins.
Context {rt : Runtime}.

(** [float(v)] *)
Definition py_float (v : json) : result float :=
  match v with
  | JNull => Raise TypeError
  | JBool b => Ok (if b then 1%float else 0%float)
  | JInt z => match float_of_int z with Some f => Ok f | None => Raise OverflowError end
  | JFloat f => Ok f
  | JStr s => match float_of_str s with Some f => Ok f | None => Raise ValueError end
  | JList _ => Raise TypeError
  | JDict _ => Raise TypeError
  end.

(** [str(v)] *)
Definition py_str (v : json) : string :=
  match v with
  | JStr s => s
  | JNull => "None"
  | JBool true => "True"
  | JBool false => "False"
  | _ => repr v
  end.

End Builtins.

(** ** The [datetime] module: proleptic Gregorian dates

    [date] follows the pure-Python reference implementation of the
    standard library ([_pydatetime]): a date is a (year, month, day)
    triple, arithmetic goes through the proleptic ordinal, where
    0001-01-01 is day 1. Python's [//] and [%] are floor division, as
    [Z.div] and [Z.modulo] are. *)

Module Datetime.

Record date : Type := mkdate { year : Z; month : Z; day : Z }.

Definition MINYEAR : Z := 1.
Definition MAXYEAR : Z := 9999.
Definition _MAXORDINAL : Z := 3652059.

Definition _DAYS_IN_MONTH : list Z :=
  [-1; 31; 28; 31; 30; 31; 30; 31; 31; 30; 31; 30; 31].

Definition _DAYS_BEFORE_MONTH : list Z :=
  [-1; 0; 31; 59; 90; 120; 151; 181; 212; 243; 273; 304; 334].

(** [t[i]] for a table of integers *)
Definition tbl (t : list Z) (i : Z) : Z := nth (Z.to_nat i) t 0.

Definition _is_leap (y : Z) : bool :=
  (y mod 4 =? 0) && (negb (y mod 100 =? 0) || (y mod 400 =? 0)).

Definition _days_before_year (y0 : Z) : Z :=
  let y := y0 - 1 in y * 365 + y / 4 - y / 100 + y / 400.

Definition _days_in_month (y m : Z) : Z :=
  if (m =? 2) && _is_leap y then 29 else tbl _DAYS_IN_MONTH m.

Definition _days_before_month (y m : Z) : Z :=
  tbl _DAYS_BEFORE_MONTH m + (if (2 <? m) && _is_leap y then 1 else 0).

Definition _ymd2ord (y m d : Z) : Z :=
  _days_before_year y + _days_before_month y m + d.

Definition _DI400Y : Z := 146097.
Definition _DI100Y : Z := 36524.
Definition _DI4Y : Z := 1461.

Definition _ord2ymd (n0 : Z) : Z * Z * Z :=
  let n := n0 - 1 in
  let n400 := n / _DI400Y in
  let n := n mod _DI400Y in
  let year := n400 * 400 + 1 in
  let n100 := n / _DI100Y in
  let n := n mod _DI100Y in
  let n4 := n / _DI4Y in
  let n := n mod _DI4Y in
  let n1 := n / 365 in
  let n := n mod 365 in
  let year := year + n100 * 100 + n4 * 4 + n1 in
  if (n1 =? 4) || (n100 =? 4) then (year - 1, 12, 31)
  else
    let leapyear := (n1 =? 3) && (negb (n4 =? 24) || (n100 =? 3)) in
    let month := Z.shiftr (n + 50) 5 in
    let preceding :=
      tbl _DAYS_BEFORE_MONTH month + (if (2 <? month) && leapyear then 1 else 0) in
    if n <? preceding then
      let month := month - 1 in
      let preceding :=
        preceding - (tbl _DAYS_IN_MONTH month
                     + (if (month =? 2) && leapyear then 1 else 0)) in
      (year, month, n - preceding + 1)
    else (year, month, n - preceding + 1).

(** [_check_date_fields]: what the constructor [date(y, m, d)] accepts. *)
Definition valid_fields (y m d : Z) : bool :=
  (MINYEAR <=? y) && (y <=? MAXYEAR) && (1 <=? m) && (m <=? 12)
  && (1 <=? d) && (d <=? _days_in_month y m).

(** Every Python [date] object satisfies [valid]. *)
Definition valid (d : date) : bool := valid_fields (year d) (month d) (day d).

Definition toordinal (d : date) : Z := _ymd2ord (year d) (month d) (day d).

Definition fromordinal (n : Z) : date :=
  let '(y, m, d) := _ord2ymd n in mkdate y m d.

(** [timedelta(days=n)] *)
Definition timedelta (days : Z) : result Z :=
  if (-999999999 <=? days) && (days <=? 999999999) then Ok days
  else Raise OverflowError.

(** [d + timedelta(days=n)], [date.__add__] *)
Definition date_add (d : date) (days : Z) : result date :=
  let o := toordinal d + days in
  if (0 <? o) && (o <=? _MAXORDINAL) then Ok (fromordinal o)
  else Raise OverflowError.

(** [d - timedelta(days=n)], which is [d + timedelta(-n)] *)
Definition date_sub (d : date) (days : Z) : result date := date_add d (- days).

(** *** Text form *)

Definition digit_char (n : Z) : ascii := ascii_of_N (48 + Z.to_N n).

(** ["%02d" % n] followed by [k], for [0 <= n < 100] *)
Definition fmt02 (n : Z) (k : string) : string :=
  String (digit_char (n / 10)) (String (digit_char (n mod 10)) k).

(** ["%04d" % n] followed by [k], for [0 <= n < 10000] *)
Definition fmt04 (n : Z) (k : string) : string :=
  String (digit_char (n / 1000))
    (String (digit_char (n / 100 mod 10))
       (String (digit_char (n / 10 mod 10))
          (String (digit_char (n mod 10)) k))).

(** [d.isoformat()], which is ["%04d-%02d-%02d" % (year, month, day)]. *)
Definition isoformat (d : date) : string :=
  fmt04 (year d) (String "-" (fmt02 (month d) (String "-" (fmt02 (day d) "")))).

(** ["%d" % n] followed by [k], for [0 <= n < 1000]: no zero filling *)
Definition fmt_d (n : Z) (k : string) : string :=
  if n <? 10 then String (digit_char n) k
  else if n <? 100 then
    String (digit_char (n / 10)) (String (digit_char (n mod 10)) k)
  else
    String (digit_char (n / 100))
      (String (digit_char (n / 10 mod 10)) (String (digit_char (n mod 10)) k)).

(** [d.strftime("%Y-%m-%d")], which goes through the [strftime] of the C
    library: [%m] and [%d] are filled with zeros to two digits, [%Y] is
    the year in decimal without filling (glibc), so 999-12-31 for the last
    day of the year 999. The result is the ISO form from the year 1000
    on, for which the statements about the requested window are made. *)
Definition strftime_Ymd (d : date) : string :=
  (if year d <? 1000 then fmt_d (year d) else fmt04 (year d))
    (String "-" (fmt02 (month d) (String "-" (fmt02 (day d) "")))).

(** *** [datetime.strptime(s, "%Y-%m-%d")]

    [_strptime] turns the format into the regular expression
    [(?P<Y>\d\d\d\d)-(?P<m>1[0-2]|0[1-9]|[1-9])-(?P<d>3[0-1]|[1-2]\d|0[1-9]|[1-9]| [1-9])],
    matches it at the start of the text, raises ValueError when the match
    does not consume the whole text, and builds the date, which raises
    ValueError for an impossible day. The matcher below tries the
    alternatives in the order of the expression, as backtracking does.
    A [string] is the sequence of the bytes of a text, and [\d] is an
    ASCII digit here. CPython's [\d] also matches the decimal digits of
    other scripts, which take bytes above 127: the matcher is CPython's on
    ASCII text ([is_ascii]). *)

Definition is_ascii (s : string) : bool :=
  forallb (fun c => (N_of_ascii c <? 128)%N) (list_ascii_of_string s).

Definition digit_val (c : ascii) : option Z :=
  let n := N_of_ascii c in
  if ((48 <=? n) && (n <=? 57))%N then Some (Z.of_N n - 48) else None.

Definition digit_in (lo hi : Z) (c : ascii) : option Z :=
  match digit_val c with
  | Some v => if (lo <=? v) && (v <=? hi) then Some v else None
  | None => None
  end.

Definition re_Y (s : string) : option (Z * string) :=
  match s with
  | String c1 (String c2 (String c3 (String c4 r))) =>
      match digit_val c1, digit_val c2, digit_val c3, digit_val c4 with
      | Some a, Some b, Some c, Some d =>
          Some (((a * 10 + b) * 10 + c) * 10 + d, r)
      | _, _, _, _ => None
      end
  | _ => None
  end.

Definition re_lit (l : ascii) (s : string) : option string :=
  match s with
  | String c r => if Ascii.eqb c l then Some r else None
  | EmptyString => None
  end.

(** alternative [lead][lo-hi] *)
Definition alt2 (lead : ascii) (lo hi : Z) (f : Z -> Z) (s : string)
  : list (Z * string) :=
  match s with
  | String c1 (String c2 r) =>
      if Ascii.eqb c1 lead then
        match digit_in lo hi c2 with Some v => [(f v, r)] | None => [] end
      else []
  | _ => []
  end.

(** alternative [lo-hi] *)
Definition alt1 (lo hi : Z) (s : string) : list (Z * string) :=
  match s with
  | String c r => match digit_in lo hi c with Some v => [(v, r)] | None => [] end
  | EmptyString => []
  end.

Definition re_m (s : string) : list (Z * string) :=
  alt2 "1" 0 2 (fun v => 10 + v) s ++ alt2 "0" 1 9 (fun v => v) s ++ alt1 1 9 s.

Definition re_d (s : string) : list (Z * string) :=
  alt2 "3" 0 1 (fun v => 30 + v) s
  ++ alt2 "1" 0 9 (fun v => 10 + v) s ++ alt2 "2" 0 9 (fun v => 20 + v) s
  ++ alt2 "0" 1 9 (fun v => v) s ++ alt1 1 9 s ++ alt2 " " 1 9 (fun v => v) s.

Fixpoint first_match {A B : Type} (f : A -> option B) (l : list A) : option B :=
  match l with
  | [] => None
  | x :: l' => match f x with Some y => Some y | None => first_match f l' end
  end.

Definition re_match_Ymd (s : string) : option (Z * Z * Z * string) :=
  match re_Y s with
  | None => None
  | Some (y, s1) =>
      match re_lit "-" s1 with
      | None => None
      | Some s2 =>
          first_match
            (fun '(m, s3) =>
               match re_lit "-" s3 with
               | None => None
               | Some s4 =>
                   first_match (fun '(d, s5) => Some (y, m, d, s5)) (re_d s4)
               end)
            (re_m s2)
      end
  end.

(** [None] stands for ValueError, the only exception of the call. *)
Definition strptime_Ymd (s : string) : option date :=
  match re_match_Ymd s with
  | Some (y, m, d, EmptyString) =>
      if valid_fields y m d then Some (mkdate y m d) else None
  | _ => None
  end.

(** The tail of [_ord2ymd], from the day of the year to month and day;
    used to state the calendar lemmas. *)
Definition month_day (n : Z) (leapyear : bool) : Z * Z :=
  let month := Z.shiftr (n + 50) 5 in
  let preceding :=
    tbl _DAYS_BEFORE_MONTH month + (if (2 <? month) && leapyear then 1 else 0) in
  if n <? preceding then
    let month := month - 1 in
    let preceding :=
      preceding - (tbl _DAYS_IN_MONTH month
                   + (if (month =? 2) && leapyear then 1 else 0)) in
    (month, n - preceding + 1)
  else (month, n - preceding + 1).

Definition month_day_ok (leap : bool) (n : Z) : bool :=
  let '(m, d) := month_day n leap in
  (1 <=? m) && (m <=? 12) && (1 <=? d)
  && (d <=? tbl _DAYS_IN_MONTH m + (if (m =? 2) && leap then 1 else 0))
  && (tbl _DAYS_BEFORE_MONTH m + (if (2 <? m) && leap then 1 else 0) + d =? n + 1).

(** Lexicographic comparison of (year, month, day). *)
Definition ymd_compare (y1 m1 d1 y2 m2 d2 : Z) : comparison :=
  match y1 ?= y2 with
  | Eq => match m1 ?= m2 with Eq => d1 ?= d2 | c => c end
  | c => c
  end.

End Datetime.
Export Datetime.

(** ** Configuration read from the environment

    Each module reads its constants with [int(os.getenv(NAME, default))];
    [default_settings] holds the defaults. *)

Record Settings : Type := {
  REQUEST_TIMEOUT : Z;
  MAX_WORKERS : Z;
  BULK_BATCH_SIZE : Z;
  BULK_WORKERS : Z;
  BULK_MAX_RETRIES : Z;
  HISTORY_DAYS : Z
}.

Definition default_settings : Settings := {|
  REQUEST_TIMEOUT := 20;
  MAX_WORKERS := 32;
  BULK_BATCH_SIZE := 25;
  BULK_WORKERS := 4;
  BULK_MAX_RETRIES := 3;
  HISTORY_DAYS := 3650
|}.

(** ** Data model *)

(** The dict that [run_filter1] builds for a symbol, with the keys
    "symbol", "name", "market_cap" and "rank". *)
Record coin : Type := mkcoin {
  symbol : string;
  name : json;
  market_cap : float;
  rank : option Z
}.

(** A plan entry, the dict with the keys "symbol", "start_date" and
    "end_date". *)
Record plan_entry : Type := mkplan {
  plan_symbol : string;
  start_date : string;
  end_date : string
}.

(** A row [[sym, date_str, o, h, l, c, v]] of daily history. *)
Record bar : Type := mkbar {
  bar_symbol : string;
  bar_date : string;
  bar_open : float;
  bar_high : float;
  bar_low : float;
  bar_close : float;
  bar_volume : float
}.

(** A row of the table [coins]. *)
Record coin_row : Type := mkcoin_row {
  row_symbol : string;
  row_name : json;
  row_market_cap : float;
  row_rank : Z;
  row_source : string;
  row_last_updated : string
}.

(** ** db_utils.py *)

Module db_utils.

(** A table is the list of its rows in insertion order; the primary key
    of the schema ([coins.symbol], [daily_history.(symbol, date)]) is an
    invariant of the list, kept by [replace_into]. A row holds the Python
    values that were bound to the statement; what SQLite does to a bound
    value when it stores it (a NaN becomes NULL, a number bound to a TEXT
    column becomes its text) is below this model. *)
Record database : Type := mkdb {
  coins : list coin_row;
  daily_history : list bar
}.

(** A connection: the last committed state, the state that the
    connection sees (with its uncommitted changes), and the states that
    earlier commits replaced, most recent first. *)
Record connection : Type := mkconn {
  committed : database;
  working : database;
  journal : list database
}.

(** a data-modifying statement, inside the implicit transaction *)
Definition execute (f : database -> database) (conn : connection) : connection :=
  {| committed := committed conn; working := f (working conn);
     journal := journal conn |}.

Definition commit (conn : connection) : connection :=
  {| committed := working conn; working := working conn;
     journal := committed conn :: journal conn |}.

Definition rollback (conn : connection) : connection :=
  {| committed := committed conn; working := committed conn;
     journal := journal conn |}.

(** [INSERT OR REPLACE]: the rows that conflict on the key are deleted,
    then the new row is inserted. *)
Definition replace_into {R K : Type} `{EqDecision K}
    (key : R -> K) (row : R) (tbl : list R) : list R :=
  filter (fun r => key r <> key row) tbl ++ [row].

(** the rows of a table with key [k] *)
Definition rows_with {R K : Type} `{EqDecision K}
    (key : R -> K) (k : K) (tbl : list R) : list R :=
  filter (fun r => key r = k) tbl.

Definition bar_key (b : bar) : string * string := (bar_symbol b, bar_date b).

Definition set_daily_history (f : list bar -> list bar) (db : database) : database :=
  {| coins := coins db; daily_history := f (daily_history db) |}.

Definition set_coins (f : list coin_row -> list coin_row) (db : database) : database :=
  {| coins := f (coins db); daily_history := daily_history db |}.

(** [SELECT symbol, MAX(date) FROM daily_history GROUP BY symbol]: one
    pass over the table that keeps, per symbol, the greatest date seen. *)
Definition newest (m : gmap string string) (b : bar) : gmap string string :=
  match m !! bar_symbol b with
  | Some d =>
      if String.ltb d (bar_date b)
      then <[bar_symbol b := bar_date b]> m else m
  | None => <[bar_symbol b := bar_date b]> m
  end.

(** The query, then the loop that keeps the non-empty dates. *)
Definition get_last_dates (conn : connection) : gmap string string :=
  let grouped : gmap string string :=
    foldl newest ∅ (daily_history (working conn)) in
  filter (fun kv => kv.2 <> EmptyString) grouped.

(** What the grouped query computes: [m] holds the greatest date of each
    symbol of [l]. *)
Definition newest_of (l : list bar) (m : gmap string string) : Prop :=
  forall s,
    match m !! s with
    | Some d =>
        (exists b, b ∈ l /\ bar_symbol b = s /\ bar_date b = d) /\
        (forall b, b ∈ l -> bar_symbol b = s -> String.le (bar_date b) d)
    | None => forall b, b ∈ l -> bar_symbol b <> s
    end.

Definition insert_daily_history (conn : connection) (rows : list bar) : connection :=
  match rows with
  | [] => conn
  | _ =>
      commit
        (execute
           (set_daily_history
              (fun t => foldl (fun t r => replace_into bar_key r t) t rows))
           conn)
  end.

(** Binding a Python object as a statement parameter: [None], [int]
    within 64 bits, [float] and [str] are supported, and a [str] is bound
    as its UTF-8 encoding. A text with a surrogate code point has no
    UTF-8 encoding; in a [string], which holds the bytes of a text, a
    surrogate stands as the three bytes of its code point, ED A0..BF xx. *)
Definition int64 (z : Z) : bool :=
  (-9223372036854775808 <=? z) && (z <=? 9223372036854775807).

Fixpoint has_surrogate (s : string) : bool :=
  match s with
  | String c ((String c' _) as r) =>
      ((N_of_ascii c =? 237) && (160 <=? N_of_ascii c')
       && (N_of_ascii c' <=? 191))%N
      || has_surrogate r
  | _ => false
  end.

Definition sql_bind (v : json) : result json :=
  match v with
  | JList _ => Raise ProgrammingError
  | JDict _ => Raise ProgrammingError
  | JInt z => if int64 z then Ok v else Raise OverflowError
  | JStr s => if has_surrogate s then Raise UnicodeEncodeError else Ok v
  | _ => Ok v
  end.

(** The parameter tuple of one coin:
    [(c.get("symbol"), c.get("name"), float(c.get("market_cap") or 0.0),
      int(c.get("rank") or 0), source)]. *)
Definition coin_params (source : string) (c : coin)
  : string * json * float * Z * string :=
  (symbol c, name c,
   (if PrimFloat.eqb (market_cap c) 0%float then 0%float else market_cap c),
   match rank c with Some r => r | None => 0 end,
   source).

(** The parameters of a row are bound in their order; the market cap is
    a float, which is always bound, and [source] is the text that the
    caller passes, a literal of the program. *)
Definition bind_coin (now : string) (p : string * json * float * Z * string)
  : result coin_row :=
  let '(sym, nm, cap, rk, src) := p in
  sym' <- sql_bind (JStr sym) ;;
  nm' <- sql_bind nm ;;
  rk' <- sql_bind (JInt rk) ;;
  Ok (mkcoin_row sym nm' cap rk src now).

(** [executemany] of [INSERT OR REPLACE INTO coins]; [now] is the value
    of [datetime('now')]. *)
Fixpoint executemany_coins (now : string)
    (params : list (string * json * float * Z * string)) (db : database)
  : result database :=
  match params with
  | [] => Ok db
  | p :: ps =>
      match bind_coin now p with
      | Raise e => Raise e
      | Ok row =>
          executemany_coins now ps (set_coins (replace_into row_symbol row) db)
      end
  end.

Definition insert_top_coins (now : string) (conn : connection)
    (coins : list coin) (source : string) : result unit * connection :=
  match coins with
  | [] => (Ok tt, conn)
  | _ =>
      let conn1 := execute (set_coins (fun _ => [])) conn in
      match executemany_coins now (map (coin_params source) coins) (working conn1) with
      | Ok db =>
          (Ok tt, commit {| committed := committed conn1; working := db;
                            journal := journal conn1 |})
      | Raise e => (Raise e, rollback conn1)
      end
  end.

(** The row that [insert_top_coins] stores for a coin. *)
Definition coin_row_of (now source : string) (c : coin) : coin_row :=
  let '(sym, nm, cap, rk, src) := coin_params source c in
  mkcoin_row sym nm cap rk src now.

(** The values of the coin can be bound as statement parameters. *)
Definition coin_bindable (c : coin) : bool :=
  negb (has_surrogate (symbol c))
  && is_Ok (sql_bind (name c))
  && int64 (match rank c with Some r => r | None => 0 end).

(** The reading of "replaces the snapshot": after the call the committed
    table [coins] holds the rows of the given records, and nothing else. *)
Definition replaces_snapshot (now : string) (conn : connection)
    (coins_in : list coin) (source : string) : Prop :=
  coins (committed (snd (insert_top_coins now conn coins_in source)))
  = map (coin_row_of now source) coins_in.


(** the committed rows of [coins] with symbol [s] *)
Definition stored_coins (conn : connection) (s : string) : list coin_row :=
  rows_with row_symbol s (coins (committed conn)).

End db_utils.
Export db_utils.

(** ** filter1.py: the universe selector *)

Module filter1.

Definition YF_SCREENER_URLS : list string :=
  ["https://query1.finance.yahoo.com/v1/finance/screener/predefined/saved";
   "https://query2.finance.yahoo.com/v1/finance/screener/predefined/saved"].

Definition target_count : Z := 1000.
Definition page_size : Z := 100.
Definition max_pages : nat := 20.

(** The second [try] block of the mirror loop: [Ok (Some quotes)] is
    [return quotes], [Ok None] is a [continue] that leaves [last_err]
    alone, [Raise e] is caught by [except Exception]. *)
Definition parse_quotes (data : json) : result (option (list json)) :=
  finance <- py_get data "finance" (JDict []) ;;
  results <- py_get finance "result" (JList []) ;;
  if negb (truthy results) then Ok None
  else
    first <- py_item0 results ;;
    quotes <- py_get first "quotes" (JList []) ;;
    match quotes with
    | JList qs => Ok (Some qs)
    | _ => Ok None
    end.

(** What one mirror contributes to a page. *)
Inductive mirror_outcome : Type :=
| Yields (quotes : list json)
| NoData
| Failed (e : exn).

Section Selector.
Context {rt : Runtime}.

(** [requests_get base start count] is the first [try] block:
    [requests.get(base, params, headers, timeout)], [raise_for_status()]
    and [resp.json()]. *)
Variable requests_get : string -> Z -> Z -> result json.

(** [datetime('now')] of the insert statement *)
Variable sql_now : string.

Definition mirror (base : string) (start count : Z) : mirror_outcome :=
  match requests_get base start count with
  | Raise e => Failed e
  | Ok data =>
      match parse_quotes data with
      | Raise e => Failed e
      | Ok None => NoData
      | Ok (Some quotes) => Yields quotes
      end
  end.

(** The mirror gives no quote list: it raised or had no data. *)
Definition yields_nothing (start count : Z) (base : string) : Prop :=
  forall quotes, mirror base start count <> Yields quotes.

(** The loop [for base in YF_SCREENER_URLS] with the variable
    [last_err]; the second component lists the mirrors requested. *)
Fixpoint mirrors_loop (urls : list string) (start count : Z)
    (last_err : option exn) : result (list json) * list string :=
  match urls with
  | [] =>
      match last_err with
      | Some _ => (Raise RuntimeError, [])
      | None => (Ok [], [])
      end
  | base :: urls' =>
      match requests_get base start count with
      | Raise e =>
          let '(r, log) := mirrors_loop urls' start count (Some e) in
          (r, base :: log)
      | Ok data =>
          match parse_quotes data with
          | Raise e =>
              let '(r, log) := mirrors_loop urls' start count (Some e) in
              (r, base :: log)
          | Ok None =>
              let '(r, log) := mirrors_loop urls' start count last_err in
              (r, base :: log)
          | Ok (Some quotes) => (Ok quotes, [base])
          end
      end
  end.

Definition _fetch_page_json (start count : Z) : result (list json) * list string :=
  mirrors_loop YF_SCREENER_URLS start count None.

Definition _extract_market_cap (q : json) : result float :=
  raw_mcap <- py_get q "marketCap" JNull ;;
  raw_mcap <- match raw_mcap with
              | JDict _ => py_get raw_mcap "raw" JNull
              | _ => Ok raw_mcap
              end ;;
  match py_float raw_mcap with
  | Ok f => Ok f
  | Raise TypeError => Ok 0%float
  | Raise ValueError => Ok 0%float
  | Raise e => Raise e
  end.

(** The body of [for q in quotes], on the state
    [(collected, seen_symbols, new_count)]. *)
Definition add_quote (st : list coin * gset string * Z) (q : json)
  : result (list coin * gset string * Z) :=
  let '(collected, seen_symbols, new_count) := st in
  sym <- py_get q "symbol" JNull ;;
  let symbol := py_str sym in
  if String.eqb symbol "" || bool_decide (symbol ∈ seen_symbols) then Ok st
  else
    short <- py_get q "shortName" JNull ;;
    long <- py_get q "longName" JNull ;;
    let name := py_or short (py_or long (JStr symbol)) in
    mcap_val <- _extract_market_cap q ;;
    Ok (collected ++ [mkcoin symbol name mcap_val None],
        {[symbol]} ∪ seen_symbols, new_count + 1).

Fixpoint quotes_loop (st : list coin * gset string * Z) (quotes : list json)
  : result (list coin * gset string * Z) :=
  match quotes with
  | [] => Ok st
  | q :: quotes' =>
      match add_quote st q with
      | Raise e => Raise e
      | Ok st' => quotes_loop st' quotes'
      end
  end.

(** [for page in range(max_pages)], with its four [break]s. *)
Fixpoint pages_loop (pages : nat) (start : Z)
    (collected : list coin) (seen_symbols : gset string)
  : result (list coin) :=
  match pages with
  | O => Ok collected
  | S pages' =>
      match fst (_fetch_page_json start page_size) with
      | Raise _ => Ok collected
      | Ok quotes =>
          match quotes_loop (collected, seen_symbols, 0) quotes with
          | Raise e => Raise e
          | Ok (collected, seen_symbols, new_count) =>
              let start := start + page_size in
              match quotes with
              | [] => Ok collected
              | _ =>
                  if new_count =? 0 then Ok collected
                  else if target_count <=? Z.of_nat (length collected)
                  then Ok collected
                  else pages_loop pages' start collected seen_symbols
              end
          end
      end
  end.

(** [collected.sort(key=lambda c: c["market_cap"], reverse=True)]:
    a stable sort by descending key that compares keys with [<] only.
    Insertion from the right keeps the input order of equal keys, and on
    keys without a NaN it is the list that [list.sort] gives, the only
    stable arrangement in descending order. With a NaN among the keys
    [list.sort] still gives a permutation of the list, in an order that
    depends on its merge strategy and that need not be the order of the
    insertion; the statements about the order are made for keys without a
    NaN. *)
Fixpoint insert_desc (x : coin) (l : list coin) : list coin :=
  match l with
  | [] => [x]
  | y :: l' =>
      if PrimFloat.ltb (market_cap x) (market_cap y)
      then y :: insert_desc x l'
      else x :: l
  end.

Definition sort_desc (l : list coin) : list coin := foldr insert_desc [] l.

(** [for i, c in enumerate(collected, start=1): c["rank"] = i] *)
Definition assign_ranks (l : list coin) : list coin :=
  imap (fun i c => mkcoin (symbol c) (name c) (market_cap c)
                          (Some (1 + Z.of_nat i))) l.

Definition run_filter1 (conn : connection) : result (list coin) * connection :=
  match pages_loop max_pages 0 [] ∅ with
  | Raise e => (Raise e, conn)
  | Ok collected =>
      let collected := sort_desc collected in
      let collected := take (Z.to_nat target_count) collected in
      let collected := assign_ranks collected in
      match insert_top_coins sql_now conn collected "yahoo_screener_api" with
      | (Ok _, conn') => (Ok collected, conn')
      | (Raise e, conn') => (Raise e, conn')
      end
  end.

(** *** Vocabulary of the selector's properties *)

(** The name that the loop gives to a quote. *)
Definition quote_name (q : json) : result json :=
  sym <- py_get q "symbol" JNull ;;
  short <- py_get q "shortName" JNull ;;
  long <- py_get q "longName" JNull ;;
  Ok (py_or short (py_or long (JStr (py_str sym)))).

(** A quote that the selector can process and store: it is an object,
    its market cap converts without overflow, its symbol and its name can
    be bound. *)
Definition quote_ok (q : json) : bool :=
  is_Ok (_extract_market_cap q)
  && match quote_name q with
     | Ok n => is_Ok (sql_bind n)
     | Raise _ => false
     end
  && match py_get q "symbol" JNull with
     | Ok sym => negb (has_surrogate (py_str sym))
     | Raise _ => false
     end.

(** [q] is a quote of a page that the ranking source serves. *)
Definition fetched (q : json) : Prop :=
  exists start quotes,
    fst (_fetch_page_json start page_size) = Ok quotes /\ q ∈ quotes.

(** The quotes of the pages that the page loop obtains, from a state of
    the loop on: the page at [start], and the pages after it as long as
    the loop goes on. *)
Fixpoint pages_served (pages : nat) (start : Z)
    (collected : list coin) (seen_symbols : gset string) : list json :=
  match pages with
  | O => []
  | S pages' =>
      match fst (_fetch_page_json start page_size) with
      | Raise _ => []
      | Ok quotes =>
          quotes ++
          match quotes_loop (collected, seen_symbols, 0) quotes with
          | Raise _ => []
          | Ok (collected, seen_symbols, new_count) =>
              match quotes with
              | [] => []
              | _ =>
                  if new_count =? 0 then []
                  else if target_count <=? Z.of_nat (length collected) then []
                  else pages_served pages' (start + page_size)
                         collected seen_symbols
              end
          end
      end
  end.

(** [q] is a quote of a page that [run_filter1] obtains. *)
Definition served (q : json) : Prop := q ∈ pages_served max_pages 0 [] ∅.

(** The record [c] was built from the quote [q]. *)
Definition coin_of_quote (q : json) (c : coin) : Prop :=
  exists sym,
    py_get q "symbol" JNull = Ok sym
    /\ symbol c = py_str sym
    /\ quote_name q = Ok (name c)
    /\ _extract_market_cap q = Ok (market_cap c).

(** What the page loop keeps true of [collected] and [seen_symbols]. *)
Definition selector_inv (collected : list coin) (seen_symbols : gset string)
  : Prop :=
  NoDup (map symbol collected)
  /\ (forall s, s ∈ seen_symbols <-> s ∈ map symbol collected)
  /\ Forall (fun c => exists q, fetched q /\ coin_of_quote q c) collected.

End Selector.

(** Each record's market cap is [>=] the market cap of the next one. *)
Definition sorted_by_cap_desc (l : list coin) : Prop :=
  forall i a b, l !! i = Some a -> l !! S i = Some b ->
    PrimFloat.leb (market_cap b) (market_cap a) = true.

(** The same, on the list of the keys. *)
Fixpoint desc_chain (caps : list float) : Prop :=
  match caps with
  | a :: (b :: _) as caps' => PrimFloat.leb b a = true /\ desc_chain caps'
  | _ => True
  end.

(** The ranks are 1, 2, ..., in the order of the list. *)
Definition ranked_from_one (l : list coin) : Prop :=
  forall i c, l !! i = Some c -> rank c = Some (Z.of_nat i + 1).

End filter1.
Export filter1.

(** ** filter2.py: the sync planner *)

Module filter2.

Section Planner.

Variable cfg : Settings.

(** [utcnow k] is the date part of the [k]-th call of
    [datetime.utcnow()] that [build_update_plan] makes, counted from 0. *)
Variable utcnow : nat -> date.

Definition _today_utc_date_str (k : nat) : string := isoformat (utcnow k).

Definition _default_start_date_str (k : nat) : result string :=
  let today := utcnow k in
  delta <- timedelta (HISTORY_DAYS cfg) ;;
  start <- date_sub today delta ;;
  Ok (isoformat start).

(** The start date of one coin and the number of clock readings made so
    far; the clock is read again only in the [except ValueError] branch. *)
Definition start_date_of (last_dates : gmap string string)
    (default_start : string) (k : nat) (c : coin) : result (string * nat) :=
  match last_dates !! symbol c with
  | None => Ok (default_start, k)
  | Some last_date =>
      match strptime_Ymd last_date with
      | Some dt =>
          d <- date_add dt 1 ;; Ok (isoformat d, k)
      | None =>
          d <- date_add (utcnow k) 1 ;; Ok (isoformat d, S k)
      end
  end.

(** [for coin in top_coins] *)
Fixpoint plan_loop (last_dates : gmap string string)
    (today_str default_start : string) (k : nat)
    (top_coins : list coin) (plan : list plan_entry)
  : result (list plan_entry) :=
  match top_coins with
  | [] => Ok plan
  | c :: rest =>
      match start_date_of last_dates default_start k c with
      | Raise e => Raise e
      | Ok (start_date, k') =>
          if String.ltb today_str start_date
          then plan_loop last_dates today_str default_start k' rest plan
          else plan_loop last_dates today_str default_start k' rest
                 (plan ++ [mkplan (symbol c) start_date today_str])
      end
  end.

Definition build_update_plan (conn : connection) (top_coins : list coin)
  : result (list plan_entry) :=
  let last_dates := get_last_dates conn in
  let today_str := _today_utc_date_str 0 in
  default_start <- _default_start_date_str 1 ;;
  plan_loop last_dates today_str default_start 2 top_coins [].

End Planner.

(** The planner in the words of the design document, on day numbers:
    a symbol with last covered day [D] starts at [D + 1], a symbol that
    was never covered starts at [today - depth], a start after [today]
    gives no entry, every entry ends [today]. *)
Definition buildPlan (symbols : list string) (coverage : string -> option Z)
    (today depth : Z) : list (string * Z * Z) :=
  omap (fun s =>
          let start := match coverage s with
                       | Some D => D + 1
                       | None => today - depth
                       end in
          if today <? start then None else Some (s, start, today))
       symbols.

(** The last covered day of a symbol as the planner reads the coverage
    map: the day number of the stored date, and the day number of [today]
    for a stored text that is not a date. *)
Definition coverage_day (last_dates : gmap string string) (today : date)
    (s : string) : option Z :=
  match last_dates !! s with
  | None => None
  | Some v =>
      match strptime_Ymd v with
      | Some D => Some (toordinal D)
      | None => Some (toordinal today)
      end
  end.

(** The day numbers of a plan, written as the planner writes them. *)
Definition render_entry (e : string * Z * Z) : plan_entry :=
  let '(s, a, b) := e in
  mkplan s (isoformat (fromordinal a)) (isoformat (fromordinal b)).

End filter2.
Export filter2.

(** ** filter3.py: the fetch dispatcher *)

Module filter3.

(** *** The tables that yfinance returns

    A row of a frame: the index (a timestamp, of which only the date is
    used) and the cells by column name. [MultiIndexFrame] is a frame whose
    columns are grouped by ticker, as [yf.download] builds it with
    [group_by="ticker"]: the first level of its columns lists the tickers
    that have columns, and every ticker has the rows of the shared
    index. A grouped frame whose first level also names a ticker without
    columns, for which [df[sym]] raises KeyError, is not a value of this
    type. *)
Record frame_row : Type := mkrow {
  idx : date;
  cells : list (string * float)
}.

Inductive dataframe : Type :=
| MultiIndexFrame (tickers : list (string * list frame_row))
| FlatFrame (rows : list frame_row).

(** No row, or rows without a column. *)
Definition rows_empty (rows : list frame_row) : bool :=
  match rows with
  | [] => true
  | r :: _ => match cells r with [] => true | _ => false end
  end.

(** [df.empty]: no column or no row. *)
Definition df_empty (df : dataframe) : bool :=
  match df with
  | MultiIndexFrame [] => true
  | MultiIndexFrame ((_, rows) :: _) => rows_empty rows
  | FlatFrame rows => rows_empty rows
  end.

(** [dropna(how="all")] keeps the rows with a cell that is not NaN. *)
Definition dropna_all (rows : list frame_row) : list frame_row :=
  List.filter (fun r => negb (forallb (fun kv => PrimFloat.is_nan (snd kv)) (cells r))) rows.

Fixpoint assoc (k : string) (kv : list (string * float)) : option float :=
  match kv with
  | [] => None
  | (k', v) :: kv' => if String.eqb k' k then Some v else assoc k kv'
  end.

(** [row.get(column)] *)
Definition row_get (r : frame_row) (column : string) : json :=
  match assoc column (cells r) with
  | Some f => JFloat f
  | None => JNull
  end.

(** What the workers do, in the order of the calls. *)
Inductive event : Type :=
| Download (batch_index : nat) (tickers : list string) (start_ end_ : string)
| History (symbol : string) (start_ end_ : string) (timeout : option Z)
| Sleep (seconds : Q).

(** The mode that [run_history_fetch] announces. *)
Inductive mode : Type := NoUpdates | BulkMode | PerSymbolMode.

(** [range(start, stop, step)] *)
Definition py_range (start stop step : Z) : result (list Z) :=
  if step =? 0 then Raise ValueError
  else
    let n :=
      if 0 <? step
      then (if start <? stop then (stop - start - 1) / step + 1 else 0)
      else (if stop <? start then (start - stop - 1) / (- step) + 1 else 0) in
    Ok (map (fun k => start + Z.of_nat k * step) (seq 0 (Z.to_nat n))).

(** [l[i:j]] for [0 <= i <= j] *)
Definition py_slice {A : Type} (l : list A) (i j : Z) : list A :=
  take (Z.to_nat j - Z.to_nat i)%nat (drop (Z.to_nat i) l).

Section Dispatcher.
Context {rt : Runtime}.

Variable cfg : Settings.

(** [yf_download i k tickers start end] is the [k]-th call of
    [yf.download] made for batch [i]. *)
Variable yf_download :
  nat -> Z -> list string -> string -> string -> result dataframe.

(** [ticker_history symbol start end timeout] is
    [yf.Ticker(symbol).history(...)], with or without the [timeout]
    argument; the frame it returns is not grouped. *)
Variable ticker_history :
  string -> string -> string -> option Z -> result (list frame_row).

Definition safe_float (x : json) : result float :=
  match py_float x with
  | Ok f => Ok f
  | Raise TypeError => Ok 0%float
  | Raise ValueError => Ok 0%float
  | Raise e => Raise e
  end.

(** The body of [for idx, row in sym_df.iterrows()]. *)
Definition bar_of_row (sym : string) (r : frame_row) : result bar :=
  let date_str := isoformat (idx r) in
  o <- safe_float (row_get r "Open") ;;
  h <- safe_float (row_get r "High") ;;
  l <- safe_float (row_get r "Low") ;;
  c <- safe_float (row_get r "Close") ;;
  v <- safe_float (row_get r "Volume") ;;
  Ok (mkbar sym date_str o h l c v).

Fixpoint bars_of_rows (sym : string) (rows : list frame_row) : result (list bar) :=
  match rows with
  | [] => Ok []
  | r :: rows' =>
      b <- bar_of_row sym r ;;
      bs <- bars_of_rows sym rows' ;;
      Ok (b :: bs)
  end.

Fixpoint lookup_ticker (sym : string) (tickers : list (string * list frame_row))
  : option (list frame_row) :=
  match tickers with
  | [] => None
  | (s, rows) :: tickers' =>
      if String.eqb s sym then Some rows else lookup_ticker sym tickers'
  end.

Fixpoint parse_tickers (tickers : list (string * list frame_row))
    (batch_symbols : list string) : result (list bar) :=
  match batch_symbols with
  | [] => Ok []
  | sym :: rest =>
      match lookup_ticker sym tickers with
      | None => parse_tickers tickers rest
      | Some sym_rows =>
          bs <- bars_of_rows sym (dropna_all sym_rows) ;;
          bs' <- parse_tickers tickers rest ;;
          Ok (bs ++ bs')
      end
  end.

Definition _parse_batch_df (df : dataframe) (batch_symbols : list string)
  : result (list bar) :=
  match df with
  | MultiIndexFrame tickers => parse_tickers tickers batch_symbols
  | FlatFrame rows =>
      match batch_symbols with
      | [] => Raise IndexError
      | sym :: _ => bars_of_rows sym (dropna_all rows)
      end
  end.

(** [wait = min(5.0, 0.5 * attempt)] *)
Definition backoff (attempt : Z) : Q := Qmin 5 ((1 # 2) * inject_Z attempt).

(** What [n] failed attempts leave in the log: each attempt [k] is the
    call followed by the wait of [backoff k]. *)
Definition failed_attempts (call : event) (n : nat) : list event :=
  flat_map (fun k => [call; Sleep (backoff (Z.of_nat k))]) (seq 1 n).

(** The loop [while attempt < BULK_MAX_RETRIES] of [fetch_batch_rows];
    [remaining] is [BULK_MAX_RETRIES - attempt]. *)
Fixpoint fetch_attempts (start_date end_plus_one : string)
    (batch_index : nat) (batch_symbols : list string)
    (remaining : nat) (attempt : Z) : result (list bar) * list event :=
  match remaining with
  | O => (Ok [], [])
  | S remaining' =>
      let attempt := attempt + 1 in
      let call := Download batch_index batch_symbols start_date end_plus_one in
      match yf_download batch_index attempt batch_symbols start_date end_plus_one with
      | Raise _ =>
          let wait := backoff attempt in
          let '(r, log) :=
            fetch_attempts start_date end_plus_one batch_index batch_symbols
              remaining' attempt in
          (r, call :: Sleep wait :: log)
      | Ok df =>
          if df_empty df then (Ok [], [call])
          else (_parse_batch_df df batch_symbols, [call])
      end
  end.

Definition fetch_batch_rows (start_date end_plus_one : string)
    (batch_index : nat) (batch_symbols : list string)
  : result (list bar) * list event :=
  fetch_attempts start_date end_plus_one batch_index batch_symbols
    (Z.to_nat (BULK_MAX_RETRIES cfg)) 0.

(** The loop [for fut in as_completed(futures)]: [order] lists the
    futures in the order in which they complete; [fut.result()] raises
    what the worker raised. *)
Fixpoint persist_completed (conn : connection)
    (results : list (result (list bar))) (order : list nat)
  : result unit * connection :=
  match order with
  | [] => (Ok tt, conn)
  | i :: order' =>
      match results !! i with
      | None => persist_completed conn results order'
      | Some (Raise e) => (Raise e, conn)
      | Some (Ok rows) =>
          let conn' := match rows with
                       | [] => conn
                       | _ => insert_daily_history conn rows
                       end in
          persist_completed conn' results order'
      end
  end.

(** [ThreadPoolExecutor(max_workers=n)]: the constructor raises
    ValueError unless [n] is positive. *)
Definition thread_pool (max_workers : Z) : result unit :=
  if max_workers <=? 0 then Raise ValueError else Ok tt.

(** [end_plus_one] of a window that ends on [end_date]; [now] is what
    [datetime.utcnow()] returns in the [except ValueError] branch. *)
Definition end_plus_one_of (now : date) (end_date : string) : result string :=
  let end_dt := match strptime_Ymd end_date with
                | Some d => d
                | None => now
                end in
  d <- date_add end_dt 1 ;;
  Ok (strftime_Ymd d).

Definition make_batches (symbols : list string) : result (list (list string)) :=
  starts <- py_range 0 (Z.of_nat (length symbols)) (BULK_BATCH_SIZE cfg) ;;
  Ok (map (fun i => py_slice symbols i (i + BULK_BATCH_SIZE cfg)) starts).

Definition bulk_download (now : date) (order : list nat)
    (conn : connection) (plan : list plan_entry)
  : result unit * connection * list (list event) :=
  match plan with
  | [] => (Ok tt, conn, [])
  | first :: _ =>
      let start_date := start_date first in
      let end_date := end_date first in
      match end_plus_one_of now end_date with
      | Raise e => (Raise e, conn, [])
      | Ok end_plus_one =>
          let symbols := map plan_symbol plan in
          match make_batches symbols with
          | Raise e => (Raise e, conn, [])
          | Ok batches =>
              match thread_pool (BULK_WORKERS cfg) with
              | Raise e => (Raise e, conn, [])
              | Ok _ =>
                  let futures :=
                    imap (fetch_batch_rows start_date end_plus_one) batches in
                  (persist_completed conn (map fst futures) order,
                   map snd futures)
              end
          end
      end
  end.

(** The worker of the per-symbol mode. *)
Definition fetch_symbol_rows (now : date) (item : plan_entry)
  : result (list bar) * list event :=
  let symbol := plan_symbol item in
  let start_date := start_date item in
  let end_date := end_date item in
  match end_plus_one_of now end_date with
  | Raise e => (Raise e, [])
  | Ok end_plus_one =>
      let rows_of (df : list frame_row) : result (list bar) :=
        if rows_empty df then Ok [] else bars_of_rows symbol df in
      let call1 := History symbol start_date end_plus_one
                     (Some (REQUEST_TIMEOUT cfg)) in
      let call2 := History symbol start_date end_plus_one None in
      match ticker_history symbol start_date end_plus_one
              (Some (REQUEST_TIMEOUT cfg)) with
      | Raise TypeError =>
          match ticker_history symbol start_date end_plus_one None with
          | Raise e => (Raise e, [call1; call2])
          | Ok df => (rows_of df, [call1; call2])
          end
      | Raise _ => (Ok [], [call1])
      | Ok df => (rows_of df, [call1])
      end
  end.

(** [utcnow i] is what the clock returns to future [i] (to the call
    itself in bulk mode) if it reads it. *)
Definition run_history_fetch (utcnow : nat -> date) (order : list nat)
    (conn : connection) (plan : list plan_entry)
  : mode * (result unit * connection * list (list event)) :=
  let total := length plan in
  if (total =? 0)%nat then (NoUpdates, (Ok tt, conn, []))
  else
    let ranges : gset (string * string) :=
      list_to_set (map (fun p => (start_date p, end_date p)) plan) in
    if (size ranges =? 1)%nat && (1 <? total)%nat
    then (BulkMode, bulk_download (utcnow O) order conn plan)
    else
      match thread_pool (MAX_WORKERS cfg) with
      | Raise e => (PerSymbolMode, (Raise e, conn, []))
      | Ok _ =>
          let futures :=
            imap (fun i item => fetch_symbol_rows (utcnow i) item) plan in
          (PerSymbolMode,
           (persist_completed conn (map fst futures) order, map snd futures))
      end.

End Dispatcher.

End filter3.
Export filter3.

(** ** Sample data for the examples *)

Module Sample.

Definition today : date := mkdate 2024 6 10.

Definition steady_clock : nat -> date := fun _ => today.

Definition flat_bar (sym day : string) : bar :=
  mkbar sym day 1%float 2%float 0.5%float 1.5%float 1000%float.

Definition empty_db : database := mkdb [] [].

Definition fresh_conn : connection := mkconn empty_db empty_db [].

(** BTC-USD is covered until three days ago, ETH-USD until today. *)
Definition covered_db : database :=
  mkdb []
    [flat_bar "BTC-USD" "2024-06-06"; flat_bar "BTC-USD" "2024-06-07";
     flat_bar "ETH-USD" "2024-06-10"].

Definition covered_conn : connection := mkconn covered_db covered_db [].

(** DOGE-USD carries a date text that [strptime] rejects. *)
Definition garbled_db : database :=
  mkdb [] [flat_bar "BTC-USD" "2024-06-07"; flat_bar "DOGE-USD" "10/06/2024"].

Definition garbled_conn : connection := mkconn garbled_db garbled_db [].

(** The snapshot of an earlier run is still stored. *)
Definition stale_db : database :=
  mkdb [mkcoin_row "LUNA-USD" (JStr "Terra") 40%float 1 "yahoo_screener_api"
          "2022-05-01 00:00:00"] [].

Definition stale_conn : connection := mkconn stale_db stale_db [].

Definition a_coin (sym : string) (cap : float) (r : Z) : coin :=
  mkcoin sym (JStr sym) cap (Some r).

Definition universe : list coin :=
  [a_coin "BTC-USD" 100%float 1; a_coin "ETH-USD" 50%float 2;
   a_coin "SOL-USD" 25%float 3].

Definition doge : coin := a_coin "DOGE-USD" 10%float 2.

(** The settings of the end-to-end scenario: ten days of history. *)
Definition ten_days : Settings := {|
  REQUEST_TIMEOUT := 20; MAX_WORKERS := 32; BULK_BATCH_SIZE := 25;
  BULK_WORKERS := 4; BULK_MAX_RETRIES := 3; HISTORY_DAYS := 10
|}.

(** An interpreter whose conversions are never needed by the samples. *)
Definition runtime : Runtime := {|
  float_of_int := fun _ => None;
  float_of_str := fun _ => None;
  repr := fun _ => "<object>"
|}.

Definition screener_body (quotes : list json) : json :=
  JDict [("finance", JDict [("result", JList [JDict [("quotes", JList quotes)]])])].

Definition quote (sym : string) (cap : json) : json :=
  JDict [("symbol", JStr sym); ("shortName", JStr sym); ("marketCap", cap)].

(** A ranking source whose first page lists BTC-USD twice and whose
    second page repeats ETH-USD; the third page is empty. *)
Definition repeating_source (base : string) (start count : Z) : result json :=
  if start =? 0 then
    Ok (screener_body [quote "ETH-USD" (JFloat 50%float);
                       quote "BTC-USD" (JDict [("raw", JFloat 100%float)]);
                       quote "BTC-USD" (JFloat 100%float);
                       quote "XRP-USD" JNull])
  else if start =? 100 then
    Ok (screener_body [quote "ETH-USD" (JFloat 50%float);
                       quote "SOL-USD" (JFloat 25%float)])
  else Ok (screener_body []).

(** A ranking source that reports a NaN market cap. *)
Definition nan_source (base : string) (start count : Z) : result json :=
  if start =? 0 then
    Ok (screener_body [quote "AAA-USD" (JFloat PrimFloat.nan);
                       quote "BBB-USD" (JFloat 1%float)])
  else Ok (screener_body []).

(** The first mirror is down, the second one answers. *)
Definition first_mirror_down (base : string) (start count : Z) : result json :=
  if String.eqb base "https://query1.finance.yahoo.com/v1/finance/screener/predefined/saved"
  then Raise (OtherError "ConnectionError")
  else Ok (screener_body [quote "BTC-USD" (JFloat 100%float)]).

(** The first mirror is down, the second one answers without results. *)
Definition down_then_empty (base : string) (start count : Z) : result json :=
  if String.eqb base "https://query1.finance.yahoo.com/v1/finance/screener/predefined/saved"
  then Raise (OtherError "ConnectionError")
  else Ok (JDict [("finance", JDict [("result", JList [])])]).

(** *** The quote source *)

Definition day (d : Z) : frame_row :=
  mkrow (mkdate 2024 6 d)
    [("Open", 1%float); ("High", 2%float); ("Low", 0.5%float);
     ("Close", 1.5%float); ("Adj Close", 1.5%float); ("Volume", 1000%float)].

(** Two entries with one window, one entry with another. *)
Definition uniform_plan : list plan_entry :=
  [mkplan "BTC-USD" "2024-06-08" "2024-06-10";
   mkplan "ETH-USD" "2024-06-08" "2024-06-10"].

Definition mixed_plan : list plan_entry :=
  [mkplan "BAD-USD" "2024-06-08" "2024-06-10";
   mkplan "GOOD-USD" "2024-06-09" "2024-06-10"].

(** Batches of one symbol. *)
Definition one_per_batch : Settings := {|
  REQUEST_TIMEOUT := 20; MAX_WORKERS := 32; BULK_BATCH_SIZE := 1;
  BULK_WORKERS := 4; BULK_MAX_RETRIES := 3; HISTORY_DAYS := 3650
|}.

(** Batch 0 never gets through; batch 1 fails twice and then answers. *)
Definition flaky_download (i : nat) (attempt : Z) (tickers : list string)
    (start_ end_ : string) : result dataframe :=
  match i with
  | O => Raise (OtherError "ConnectionError")
  | _ => if attempt <? 3 then Raise (OtherError "Timeout")
         else Ok (FlatFrame [day 8; day 9])
  end.

Definition no_history (sym start_ end_ : string) (timeout : option Z)
  : result (list frame_row) := Ok [].

Definition no_download (i : nat) (attempt : Z) (tickers : list string)
    (start_ end_ : string) : result dataframe :=
  Raise (OtherError "unused").

(** The call with a timeout raises TypeError for BAD-USD, and the call
    without a timeout finds the network down; GOOD-USD is served. *)
Definition legacy_history (sym start_ end_ : string) (timeout : option Z)
  : result (list frame_row) :=
  if String.eqb sym "BAD-USD" then
    match timeout with
    | Some _ => Raise TypeError
    | None => Raise (OtherError "ConnectionError")
    end
  else Ok [day 9; day 10].

(** The call with a timeout raises TypeError, the call without it
    answers. *)
Definition retried_history (sym start_ end_ : string) (timeout : option Z)
  : result (list frame_row) :=
  match timeout with
  | Some _ => Raise TypeError
  | None => Ok [day 9; day 10]
  end.

End Sample.
(** ** Vocabulary of the further properties *)

(** The day after [d] on the calendar: the next day of the month, the
    first of the next month after the last day of a month, the first of
    January after the 31st of December. *)
Definition next_day (d : date) : date :=
  if day d <? _days_in_month (year d) (month d)
  then mkdate (year d) (month d) (day d + 1)
  else if month d <? 12 then mkdate (year d) (month d + 1) 1
  else mkdate (year d + 1) 1 1.

(** The row that future [j] leaves under the key [k], when it returns
    rows with that key. *)
Definition last_write (results : list (result (list bar)))
    (k : string * string) (j : nat) : option bar :=
  match results !! j with
  | Some (Ok rows) => last (rows_with bar_key k rows)
  | _ => None
  end.

(** The value of a column of a frame row as the workers read it: the
    cell, and 0.0 for a column that the row does not have. *)
Definition cell (r : frame_row) (column : string) : float :=
  default 0%float (assoc column (cells r)).

(** The bar of a frame row of [sym]. *)
Definition bar_from (sym : string) (r : frame_row) : bar :=
  mkbar sym (isoformat (idx r)) (cell r "Open") (cell r "High")
    (cell r "Low") (cell r "Close") (cell r "Volume").

(** The row has a cell that is not NaN. *)
Definition has_value (r : frame_row) : bool :=
  existsb (fun kv => negb (PrimFloat.is_nan (snd kv))) (cells r).

Definition is_download (ev : event) : bool :=
  match ev with Download _ _ _ _ => true | _ => false end.

Definition is_sleep (ev : event) : bool :=
  match ev with Sleep _ => true | _ => false end.

(** The dates of a table are ISO texts of dates. *)
Definition iso_dates (tbl : list bar) : Prop :=
  Forall (fun b => exists d, valid d = true /\ bar_date b = isoformat d) tbl.

(** The index of a frame holds dates: what [idx.date()] returns is a
    [date] object. *)
Definition frame_rows_valid (rows : list frame_row) : Prop :=
  Forall (fun r => valid (idx r) = true) rows.

Definition frame_valid (df : dataframe) : Prop :=
  match df with
  | MultiIndexFrame tickers => Forall (fun p => frame_rows_valid (snd p)) tickers
  | FlatFrame rows => frame_rows_valid rows
  end.

(** ** main.py: the run

    [main] without its timers and messages, from the connection that
    [get_connection] and [init_db] hand over: the three stages in
    sequence, an exception of a stage ending the run. The result is the
    mode of the fetch stage, the connection and the requests of the
    workers. *)

Module main_py.

Section Main.
Context {rt : Runtime}.

Variable cfg : Settings.
Variable requests_get : string -> Z -> Z -> result json.
Variable sql_now : string.
Variable plan_clock : nat -> date.
Variable fetch_clock : nat -> date.
Variable yf_download :
  nat -> Z -> list string -> string -> string -> result dataframe.
Variable ticker_history :
  string -> string -> string -> option Z -> result (list frame_row).
Variable order : list nat.

Definition main (conn : connection)
  : result mode * connection * list (list event) :=
  match run_filter1 requests_get sql_now conn with
  | (Raise e, conn) => (Raise e, conn, [])
  | (Ok top_coins, conn) =>
      match build_update_plan cfg plan_clock conn top_coins with
      | Raise e => (Raise e, conn, [])
      | Ok plan =>
          let '(m, (r, conn, requests)) :=
            run_history_fetch cfg yf_download ticker_history fetch_clock
              order conn plan in
          (match r with Ok _ => Ok m | Raise e => Raise e end, conn, requests)
      end
  end.

End Main.

End main_py.
Export main_py.

(** ** Sample data for the edge cases *)

Module Edge.

(** A batch size of zero. *)
Definition zero_batch : Settings := {|
  REQUEST_TIMEOUT := 20; MAX_WORKERS := 32; BULK_BATCH_SIZE := 0;
  BULK_WORKERS := 4; BULK_MAX_RETRIES := 3; HISTORY_DAYS := 3650
|}.

(** More days of history than the calendar has before today. *)
Definition deep_history : Settings := {|
  REQUEST_TIMEOUT := 20; MAX_WORKERS := 32; BULK_BATCH_SIZE := 25;
  BULK_WORKERS := 4; BULK_MAX_RETRIES := 3; HISTORY_DAYS := 800000
|}.

(** BTC-USD is covered until the last day of the calendar. *)
Definition last_day_db : database :=
  mkdb [] [Sample.flat_bar "BTC-USD" "9999-12-31"].

Definition last_day_conn : connection := mkconn last_day_db last_day_db [].

(** No mirror can be reached. *)
Definition all_down (base : string) (start count : Z) : result json :=
  Raise (OtherError "ConnectionError").

(** A quote without a symbol. *)
Definition nameless : list (string * json) := [("shortName", JStr "Nameless")].

(** The second of three futures raises. *)
Definition second_raises : list (result (list bar)) :=
  [Ok [Sample.flat_bar "BTC-USD" "2024-06-10"];
   Raise (OtherError "ConnectionError");
   Ok [Sample.flat_bar "ETH-USD" "2024-06-10"]].

End Edge.

(** * Proofs *)

(** ** The calendar *)

Example strptime_padded : strptime_Ymd "2024-06-10" = Some (mkdate 2024 6 10).
Proof. reflexivity. Qed.

Example strptime_unpadded : strptime_Ymd "2024-6-1" = Some (mkdate 2024 6 1).
Proof. reflexivity. Qed.

Example strptime_impossible_day : strptime_Ymd "2024-02-30" = None.
Proof. reflexivity. Qed.

Example strptime_trailing_text : strptime_Ymd "2024-01-311" = None.
Proof. reflexivity. Qed.

Example isoformat_example : isoformat (mkdate 2024 6 10) = "2024-06-10".
Proof. reflexivity. Qed.

Example fromordinal_example : fromordinal 739047 = mkdate 2024 6 10.
Proof. reflexivity. Qed.

Lemma div_mod_facts_year a b c d :
  0 <= b < 4 -> 0 <= c < 25 -> 0 <= d < 4 -> 
  _days_before_year (400 * a + 100 * b + 4 * c + d + 1) = 146097 * a + 36524 * b + 1461 * c + 365 * d.
Proof.
  intros. unfold _days_before_year. cbv zeta.
  replace (400 * a + 100 * b + 4 * c + d + 1 - 1) with (400 * a + 100 * b + 4 * c + d) by lia.
  Z.div_mod_to_equations. lia.
Qed.

Lemma is_leap_decomp a b c d :
  0 <= b < 4 -> 0 <= c < 25 -> 0 <= d < 4 ->
  _is_leap (400 * a + 100 * b + 4 * c + d + 1)
  = (d =? 3) && (negb (c =? 24) || (b =? 3)).
Proof.
  intros Hb Hc Hd. unfold _is_leap.
  set (y := 400 * a + 100 * b + 4 * c + d + 1).
  assert (H4 : y mod 4 = (d + 1) mod 4).
  { unfold y. replace (400 * a + 100 * b + 4 * c + d + 1)
      with (d + 1 + (100 * a + 25 * b + c) * 4) by lia.
    apply Z.mod_add. lia. }
  assert (H100 : y mod 100 = (4 * c + d + 1) mod 100).
  { unfold y. replace (400 * a + 100 * b + 4 * c + d + 1)
      with (4 * c + d + 1 + (4 * a + b) * 100) by lia.
    apply Z.mod_add. lia. }
  assert (H400 : y mod 400 = (100 * b + 4 * c + d + 1) mod 400).
  { unfold y. replace (400 * a + 100 * b + 4 * c + d + 1)
      with (100 * b + 4 * c + d + 1 + a * 400) by lia.
    apply Z.mod_add. lia. }
  rewrite H4, H100, H400. clear H4 H100 H400 y.
  destruct (d =? 3) eqn:E3; destruct (c =? 24) eqn:E24; destruct (b =? 3) eqn:Eb;
    cbn [andb orb negb]; repeat match goal with
    | H : (_ =? _) = true |- _ => apply Z.eqb_eq in H
    | H : (_ =? _) = false |- _ => apply Z.eqb_neq in H
    end; subst;
    repeat match goal with
    | |- context [(?x mod ?k =? 0)] =>
        let E := fresh "E" in destruct (x mod k =? 0) eqn:E;
        [apply Z.eqb_eq in E | apply Z.eqb_neq in E]
    end; cbn [andb orb negb]; try reflexivity; exfalso; Z.div_mod_to_equations; lia.
Qed.

Lemma month_day_table leap :
  forallb (month_day_ok leap) (map Z.of_nat (seq 0 365)) = true.
Proof. destruct leap; vm_compute; reflexivity. Qed.

Lemma month_day_spec n leap :
  0 <= n < 365 ->
  exists m d, month_day n leap = (m, d) /\ 1 <= m <= 12 /\ 1 <= d
    /\ d <= tbl _DAYS_IN_MONTH m + (if (m =? 2) && leap then 1 else 0)
    /\ tbl _DAYS_BEFORE_MONTH m + (if (2 <? m) && leap then 1 else 0) + d = n + 1.
Proof.
  intros Hn. pose proof (month_day_table leap) as T.
  rewrite forallb_forall in T. specialize (T n).
  assert (Hin : In n (map Z.of_nat (seq 0 365))).
  { apply in_map_iff. exists (Z.to_nat n). split; [lia|]. apply in_seq. lia. }
  specialize (T Hin). unfold month_day_ok in T.
  destruct (month_day n leap) as [m d]. exists m, d.
  repeat rewrite andb_true_iff in T.
  destruct T as [[[[T1 T2] T3] T4] T5].
  split; [reflexivity|]. lia.
Qed.

Lemma ord2ymd_shape n0 :
  _ord2ymd n0 =
  let n := n0 - 1 in
  let a := n / 146097 in let r1 := n mod 146097 in
  let b := r1 / 36524 in let r2 := r1 mod 36524 in
  let c := r2 / 1461 in let r3 := r2 mod 1461 in
  let d := r3 / 365 in let r := r3 mod 365 in
  let y := a * 400 + 1 + b * 100 + c * 4 + d in
  if (d =? 4) || (b =? 4) then (y - 1, 12, 31)
  else let '(m, dd) := month_day r ((d =? 3) && (negb (c =? 24) || (b =? 3))) in
       (y, m, dd).
Proof.
  unfold _ord2ymd, month_day, _DI400Y, _DI100Y, _DI4Y. cbv zeta.
  destruct ((_ =? 4) || (_ =? 4)); [reflexivity|].
  match goal with |- context [if ?c then _ else _] => destruct c end; reflexivity.
Qed.

Lemma ymd2ord_ord2ymd n0 :
  1 <= n0 <= _MAXORDINAL ->
  exists y m d, _ord2ymd n0 = (y, m, d)
    /\ valid_fields y m d = true /\ _ymd2ord y m d = n0.
Proof.
  intros Hn. rewrite ord2ymd_shape. cbv zeta.
  set (n := n0 - 1).
  set (a := n / 146097). set (r1 := n mod 146097).
  set (b := r1 / 36524). set (r2 := r1 mod 36524).
  set (c := r2 / 1461). set (r3 := r2 mod 1461).
  set (d := r3 / 365). set (r := r3 mod 365).
  assert (Hn' : 0 <= n <= 3652058) by (unfold n, _MAXORDINAL in *; lia).
  assert (Ha : n = 146097 * a + r1 /\ 0 <= r1 < 146097)
    by (unfold a, r1; Z.div_mod_to_equations; lia).
  assert (Hb : r1 = 36524 * b + r2 /\ 0 <= r2 < 36524)
    by (unfold b, r2; Z.div_mod_to_equations; lia).
  assert (Hc : r2 = 1461 * c + r3 /\ 0 <= r3 < 1461)
    by (unfold c, r3; Z.div_mod_to_equations; lia).
  assert (Hd : r3 = 365 * d + r /\ 0 <= r < 365)
    by (unfold d, r; Z.div_mod_to_equations; lia).
  clearbody a r1 b r2 c r3 d r.
  assert (Ba : 0 <= a <= 24) by lia.
  assert (Bb : 0 <= b <= 4) by lia.
  assert (Bc : 0 <= c <= 24) by lia.
  assert (Bd : 0 <= d <= 4) by lia.
  destruct ((d =? 4) || (b =? 4)) eqn:Especial.
  - exists (a * 400 + 1 + b * 100 + c * 4 + d - 1), 12, 31.
    split; [reflexivity|].
    apply orb_true_iff in Especial.
    assert (Hy : exists b' c', 0 <= c' < 25 /\ 0 <= b' < 4 /\
       a * 400 + 1 + b * 100 + c * 4 + d - 1 = 400 * a + 100 * b' + 4 * c' + 3 + 1
       /\ (c' = 24 -> b' = 3)
       /\ 146097 * a + 36524 * b' + 1461 * c' + 365 * 3 + 366 = n0).
    { destruct (b =? 4) eqn:Eb.
      - apply Z.eqb_eq in Eb. exists 3, 24. lia.
      - apply Z.eqb_neq in Eb. destruct Especial as [E|E]; [|discriminate].
        apply Z.eqb_eq in E. exists b, c. lia. }
    destruct Hy as (b' & c' & Hc' & Hb' & Hy & Hcb & Hsum). rewrite Hy.
    unfold valid_fields, _ymd2ord, _days_in_month, _days_before_month.
    rewrite is_leap_decomp by lia.
    rewrite div_mod_facts_year by lia.
    assert (El : (3 =? 3) && (negb (c' =? 24) || (b' =? 3)) = true).
    { destruct (c' =? 24) eqn:E24; [|reflexivity]. apply Z.eqb_eq in E24.
      rewrite (Hcb E24). reflexivity. }
    rewrite El. unfold MINYEAR, MAXYEAR.
    change (tbl _DAYS_IN_MONTH 12) with 31.
    change (tbl _DAYS_BEFORE_MONTH 12) with 334.
    change (12 =? 2) with false. change (2 <? 12) with true. cbn [andb].
    split; [|lia].
    repeat rewrite andb_true_iff; repeat split; lia.
  - apply orb_false_iff in Especial. destruct Especial as [E4 Eb4].
    apply Z.eqb_neq in E4. apply Z.eqb_neq in Eb4.
    destruct (month_day_spec r ((d =? 3) && (negb (c =? 24) || (b =? 3))))
      as (m & dd & Hmd & Hm & Hdd1 & Hdd2 & Hsum); [lia|].
    rewrite Hmd. exists (a * 400 + 1 + b * 100 + c * 4 + d), m, dd.
    split; [reflexivity|].
    replace (a * 400 + 1 + b * 100 + c * 4 + d)
      with (400 * a + 100 * b + 4 * c + d + 1) by lia.
    unfold valid_fields, _ymd2ord, _days_in_month, _days_before_month.
    rewrite is_leap_decomp by lia.
    rewrite div_mod_facts_year by lia.
    split.
    + unfold MINYEAR, MAXYEAR.
      repeat rewrite andb_true_iff; repeat split; try lia.
      destruct ((m =? 2) && _) eqn:E2.
      * apply andb_true_iff in E2. destruct E2 as [E2 _]. apply Z.eqb_eq in E2.
        subst m. change (tbl _DAYS_IN_MONTH 2) with 28 in Hdd2. lia.
      * lia.
    + lia.
Qed.

Lemma days_before_year_succ y :
  _days_before_year (y + 1)
  = _days_before_year y + 365 + (if _is_leap y then 1 else 0).
Proof.
  unfold _days_before_year, _is_leap. cbv zeta.
  replace (y + 1 - 1) with y by lia.
  destruct (y mod 4 =? 0) eqn:E4; destruct (y mod 100 =? 0) eqn:E100;
    destruct (y mod 400 =? 0) eqn:E400; cbn [andb orb negb];
    repeat match goal with
    | H : (_ =? _) = true |- _ => apply Z.eqb_eq in H
    | H : (_ =? _) = false |- _ => apply Z.eqb_neq in H
    end; Z.div_mod_to_equations; lia.
Qed.

Lemma days_before_year_mono y1 y2 :
  y1 <= y2 -> _days_before_year y1 <= _days_before_year y2.
Proof.
  intros H. unfold _days_before_year. cbv zeta.
  Z.div_mod_to_equations. lia.
Qed.

Ltac eval_months :=
  repeat match goal with
  | |- context [tbl ?t ?k] =>
      let v := eval vm_compute in (tbl t k) in change (tbl t k) with v
  | H : context [tbl ?t ?k] |- _ =>
      let v := eval vm_compute in (tbl t k) in change (tbl t k) with v in H
  | |- context [Z.eqb ?a ?b] =>
      let v := eval vm_compute in (Z.eqb a b) in change (Z.eqb a b) with v
  | H : context [Z.eqb ?a ?b] |- _ =>
      let v := eval vm_compute in (Z.eqb a b) in change (Z.eqb a b) with v in H
  | |- context [Z.ltb ?a ?b] =>
      let v := eval vm_compute in (Z.ltb a b) in change (Z.ltb a b) with v
  | H : context [Z.ltb ?a ?b] |- _ =>
      let v := eval vm_compute in (Z.ltb a b) in change (Z.ltb a b) with v in H
  end; cbn [andb orb negb] in *.

Ltac month_cases m H :=
  let E := fresh "E" in
  assert (E : m = 1 \/ m = 2 \/ m = 3 \/ m = 4 \/ m = 5 \/ m = 6 \/ m = 7
              \/ m = 8 \/ m = 9 \/ m = 10 \/ m = 11 \/ m = 12) by lia;
  clear H;
  repeat (destruct E as [E | E]; [subst m|]); [..|subst m].

Lemma valid_fields_inv y m d :
  valid_fields y m d = true ->
  1 <= y <= 9999 /\ 1 <= m <= 12 /\ 1 <= d <= _days_in_month y m.
Proof.
  unfold valid_fields, MINYEAR, MAXYEAR. repeat rewrite andb_true_iff. lia.
Qed.

Lemma day_of_year_bounds y m d :
  1 <= m <= 12 -> 1 <= d <= _days_in_month y m ->
  1 <= _days_before_month y m + d <= 365 + (if _is_leap y then 1 else 0).
Proof.
  intros Hm Hd. unfold _days_in_month, _days_before_month in *.
  month_cases m Hm; destruct (_is_leap y); eval_months; lia.
Qed.

Lemma ymd2ord_lt_year y1 m1 d1 y2 m2 d2 :
  valid_fields y1 m1 d1 = true -> valid_fields y2 m2 d2 = true ->
  y1 < y2 -> _ymd2ord y1 m1 d1 < _ymd2ord y2 m2 d2.
Proof.
  intros V1 V2 Hy.
  apply valid_fields_inv in V1. apply valid_fields_inv in V2.
  destruct V1 as (_ & Hm1 & Hd1). destruct V2 as (_ & Hm2 & Hd2).
  pose proof (day_of_year_bounds y1 m1 d1 Hm1 Hd1) as B1.
  pose proof (day_of_year_bounds y2 m2 d2 Hm2 Hd2) as B2.
  pose proof (days_before_year_succ y1) as S1.
  pose proof (days_before_year_mono (y1 + 1) y2 ltac:(lia)) as M.
  unfold _ymd2ord. lia.
Qed.

Lemma ymd2ord_lt_month y m1 d1 m2 d2 :
  valid_fields y m1 d1 = true -> valid_fields y m2 d2 = true ->
  m1 < m2 -> _ymd2ord y m1 d1 < _ymd2ord y m2 d2.
Proof.
  intros V1 V2 Hm.
  apply valid_fields_inv in V1. apply valid_fields_inv in V2.
  destruct V1 as (_ & Hm1 & Hd1). destruct V2 as (_ & Hm2 & Hd2).
  unfold _ymd2ord, _days_in_month, _days_before_month in *.
  month_cases m1 Hm1; month_cases m2 Hm2; try lia;
    destruct (_is_leap y); eval_months; lia.
Qed.

Lemma ymd2ord_compare y1 m1 d1 y2 m2 d2 :
  valid_fields y1 m1 d1 = true -> valid_fields y2 m2 d2 = true ->
  (_ymd2ord y1 m1 d1 ?= _ymd2ord y2 m2 d2) = ymd_compare y1 m1 d1 y2 m2 d2.
Proof.
  intros V1 V2. unfold ymd_compare.
  destruct (Z.compare_spec y1 y2) as [Ey|Ly|Gy].
  - subst y2. destruct (Z.compare_spec m1 m2) as [Em|Lm|Gm].
    + subst m2. unfold _ymd2ord.
      destruct (Z.compare_spec d1 d2); [apply Z.compare_eq_iff|apply Z.compare_lt_iff|apply Z.compare_gt_iff]; lia.
    + apply Z.compare_lt_iff. now apply ymd2ord_lt_month.
    + apply Z.compare_gt_iff. now apply ymd2ord_lt_month.
  - apply Z.compare_lt_iff. now apply ymd2ord_lt_year.
  - apply Z.compare_gt_iff. now apply ymd2ord_lt_year.
Qed.

Lemma ymd2ord_range y m d :
  valid_fields y m d = true -> 1 <= _ymd2ord y m d <= _MAXORDINAL.
Proof.
  intros V. pose proof V as V'. apply valid_fields_inv in V'.
  destruct V' as (Hy & Hm & Hd).
  pose proof (day_of_year_bounds y m d Hm Hd) as B.
  pose proof (days_before_year_succ y) as S1.
  pose proof (days_before_year_mono 1 y ltac:(lia)) as M1.
  pose proof (days_before_year_mono (y + 1) 10000 ltac:(lia)) as M2.
  change (_days_before_year 1) with 0 in M1.
  change (_days_before_year 10000) with 3652059 in M2.
  unfold _ymd2ord, _MAXORDINAL. lia.
Qed.

Lemma digit_char_N n : 0 <= n <= 9 -> N_of_ascii (digit_char n) = (48 + Z.to_N n)%N.
Proof. intros H. unfold digit_char. apply N_ascii_embedding. lia. Qed.

Lemma digit_char_compare a b :
  0 <= a <= 9 -> 0 <= b <= 9 ->
  Ascii.compare (digit_char a) (digit_char b) = (a ?= b).
Proof.
  intros Ha Hb. unfold Ascii.compare. rewrite !digit_char_N by assumption.
  destruct (Z.compare_spec a b);
    [apply N.compare_eq_iff|apply N.compare_lt_iff|apply N.compare_gt_iff]; lia.
Qed.

Lemma digit_val_char n : 0 <= n <= 9 -> digit_val (digit_char n) = Some n.
Proof.
  intros H. unfold digit_val. rewrite digit_char_N by assumption. cbv zeta.
  replace ((48 <=? 48 + Z.to_N n)%N && (48 + Z.to_N n <=? 57)%N) with true.
  - f_equal. lia.
  - symmetry. apply andb_true_iff. split; apply N.leb_le; lia.
Qed.

Lemma digit_in_char lo hi n :
  0 <= n <= 9 -> digit_in lo hi (digit_char n)
  = if (lo <=? n) && (n <=? hi) then Some n else None.
Proof. intros H. unfold digit_in. now rewrite digit_val_char. Qed.

Lemma compare_cont_eq (c : comparison) (k : comparison) :
  match c with Eq => k | Lt => Lt | Gt => Gt end
  = match c with Eq => k | c' => c' end.
Proof. destruct c; reflexivity. Qed.

Lemma fmt02_compare a b s t :
  0 <= a <= 99 -> 0 <= b <= 99 ->
  String.compare (fmt02 a s) (fmt02 b t)
  = match a ?= b with Eq => String.compare s t | c => c end.
Proof.
  intros Ha Hb. unfold fmt02. cbn [String.compare].
  rewrite !digit_char_compare by (Z.div_mod_to_equations; lia).
  destruct (Z.compare_spec (a / 10) (b / 10)) as [E1|L1|G1];
    destruct (Z.compare_spec (a mod 10) (b mod 10)) as [E2|L2|G2];
    destruct (Z.compare_spec a b) as [E|L|G]; try reflexivity;
    exfalso; Z.div_mod_to_equations; lia.
Qed.

Lemma fmt04_compare a b s t :
  0 <= a <= 9999 -> 0 <= b <= 9999 ->
  String.compare (fmt04 a s) (fmt04 b t)
  = match a ?= b with Eq => String.compare s t | c => c end.
Proof.
  intros Ha Hb. unfold fmt04. cbn [String.compare].
  rewrite !digit_char_compare by (Z.div_mod_to_equations; lia).
  destruct (Z.compare_spec (a / 1000) (b / 1000)) as [E1|L1|G1];
    destruct (Z.compare_spec (a / 100 mod 10) (b / 100 mod 10)) as [E2|L2|G2];
    destruct (Z.compare_spec (a / 10 mod 10) (b / 10 mod 10)) as [E3|L3|G3];
    destruct (Z.compare_spec (a mod 10) (b mod 10)) as [E4|L4|G4];
    destruct (Z.compare_spec a b) as [E|L|G]; try reflexivity;
    exfalso; Z.div_mod_to_equations; lia.
Qed.

Lemma isoformat_compare d1 d2 :
  valid d1 = true -> valid d2 = true ->
  String.compare (isoformat d1) (isoformat d2) = (toordinal d1 ?= toordinal d2).
Proof.
  intros V1 V2. unfold toordinal. unfold valid in *.
  rewrite ymd2ord_compare by assumption.
  pose proof (valid_fields_inv _ _ _ V1) as (Hy1 & Hm1 & Hd1).
  pose proof (valid_fields_inv _ _ _ V2) as (Hy2 & Hm2 & Hd2).
  assert (Hdim : forall y m, 1 <= m <= 12 -> _days_in_month y m <= 31).
  { intros y m Hm. unfold _days_in_month.
    month_cases m Hm; destruct (_is_leap y); eval_months; lia. }
  pose proof (Hdim (year d1) _ Hm1). pose proof (Hdim (year d2) _ Hm2).
  unfold isoformat, ymd_compare.
  rewrite fmt04_compare by lia. cbn [String.compare].
  change (Ascii.compare "-" "-") with Eq. cbv iota.
  rewrite fmt02_compare by lia. cbn [String.compare].
  change (Ascii.compare "-" "-") with Eq. cbv iota.
  rewrite fmt02_compare by lia. cbn [String.compare].
  destruct (year d1 ?= year d2); try reflexivity.
  destruct (month d1 ?= month d2); try reflexivity.
  destruct (day d1 ?= day d2); reflexivity.
Qed.

Lemma re_Y_fmt04 y k : 0 <= y <= 9999 -> re_Y (fmt04 y k) = Some (y, k).
Proof.
  intros Hy. unfold re_Y, fmt04.
  rewrite !digit_val_char by (Z.div_mod_to_equations; lia).
  do 2 f_equal. Z.div_mod_to_equations. lia.
Qed.

Lemma re_m_fmt02 m k :
  1 <= m <= 12 ->
  exists tl, re_m (fmt02 m (String "-" k)) = (m, String "-" k) :: tl.
Proof.
  intros Hm. month_cases m Hm; eexists; vm_compute; reflexivity.
Qed.

Lemma re_d_fmt02 d :
  1 <= d <= 31 -> exists tl, re_d (fmt02 d "") = (d, EmptyString) :: tl.
Proof.
  intros Hd.
  assert (E : In d (map Z.of_nat (seq 1 31))).
  { apply in_map_iff. exists (Z.to_nat d). split; [lia|]. apply in_seq. lia. }
  cbn in E.
  repeat (destruct E as [E|E]; [subst d; eexists; vm_compute; reflexivity|]).
  destruct E.
Qed.

Lemma strptime_isoformat d :
  valid d = true -> strptime_Ymd (isoformat d) = Some d.
Proof.
  intros V. unfold valid in V.
  pose proof (valid_fields_inv _ _ _ V) as (Hy & Hm & Hd).
  assert (Hdim : _days_in_month (year d) (month d) <= 31).
  { unfold _days_in_month. destruct Hm as [Hm1 Hm2].
    assert (Hm : 1 <= month d <= 12) by lia. revert Hm.
    generalize (month d). intros m Hm.
    month_cases m Hm; destruct (_is_leap (year d)); eval_months; lia. }
  unfold strptime_Ymd, re_match_Ymd, isoformat.
  rewrite re_Y_fmt04 by lia. cbn [re_lit]. change (Ascii.eqb "-" "-") with true.
  cbv iota.
  destruct (re_m_fmt02 (month d) (fmt02 (day d) "") Hm) as [tl1 E1]. rewrite E1.
  cbn [first_match re_lit]. change (Ascii.eqb "-" "-") with true. cbv iota.
  destruct (re_d_fmt02 (day d) ltac:(lia)) as [tl2 E2]. rewrite E2.
  cbn [first_match]. rewrite V. destruct d; reflexivity.
Qed.

Lemma strptime_valid s d : strptime_Ymd s = Some d -> valid d = true.
Proof.
  unfold strptime_Ymd. destruct (re_match_Ymd s) as [[[[y m] dd] r]|]; [|discriminate].
  destruct r; [|discriminate].
  destruct (valid_fields y m dd) eqn:V; [|discriminate].
  intros [= <-]. exact V.
Qed.

Lemma fromordinal_spec n :
  1 <= n <= _MAXORDINAL ->
  valid (fromordinal n) = true /\ toordinal (fromordinal n) = n.
Proof.
  intros Hn. destruct (ymd2ord_ord2ymd n Hn) as (y & m & d & E & V & O).
  unfold fromordinal, valid, toordinal. rewrite E. cbn. auto.
Qed.

Lemma toordinal_range d :
  valid d = true -> 1 <= toordinal d <= _MAXORDINAL.
Proof. intros V. now apply ymd2ord_range. Qed.

Lemma toordinal_inj d1 d2 :
  valid d1 = true -> valid d2 = true -> toordinal d1 = toordinal d2 -> d1 = d2.
Proof.
  intros V1 V2 E. apply Z.compare_eq_iff in E. unfold toordinal in E.
  rewrite ymd2ord_compare in E by assumption. unfold ymd_compare in E.
  destruct d1 as [y1 m1 dd1], d2 as [y2 m2 dd2]. cbn in E.
  destruct (Z.compare_spec y1 y2); try discriminate.
  destruct (Z.compare_spec m1 m2); try discriminate.
  apply Z.compare_eq_iff in E. congruence.
Qed.

Lemma fromordinal_toordinal d :
  valid d = true -> fromordinal (toordinal d) = d.
Proof.
  intros V. pose proof (toordinal_range d V) as R.
  destruct (fromordinal_spec _ R) as [V' E]. now apply toordinal_inj.
Qed.

Lemma isoformat_ltb a b :
  valid a = true -> valid b = true ->
  String.ltb (isoformat a) (isoformat b) = (toordinal a <? toordinal b).
Proof.
  intros Va Vb. unfold String.ltb, Z.ltb.
  now rewrite isoformat_compare.
Qed.

Lemma date_add_ok d n :
  0 < toordinal d + n <= _MAXORDINAL ->
  date_add d n = Ok (fromordinal (toordinal d + n)).
Proof.
  intros H. unfold date_add. cbv zeta.
  replace ((0 <? toordinal d + n) && (toordinal d + n <=? _MAXORDINAL)) with true;
    [reflexivity|].
  symmetry. apply andb_true_iff. split; [apply Z.ltb_lt|apply Z.leb_le]; lia.
Qed.

Lemma date_add_overflow d n :
  _MAXORDINAL < toordinal d + n -> date_add d n = Raise OverflowError.
Proof.
  intros H. unfold date_add. cbv zeta.
  replace (toordinal d + n <=? _MAXORDINAL) with false;
    [now rewrite andb_false_r|].
  symmetry. apply Z.leb_gt. lia.
Qed.

(** ** The planner *)

Lemma buildPlan_cons s l cov today depth :
  buildPlan (s :: l) cov today depth
  = let start := match cov s with Some D => D + 1 | None => today - depth end in
    if today <? start then buildPlan l cov today depth
    else (s, start, today) :: buildPlan l cov today depth.
Proof.
  unfold buildPlan. cbn [omap list_omap]. cbv zeta.
  destruct (today <? _); reflexivity.
Qed.

Section PlannerFacts.

Variable cfg : Settings.
Variable utcnow : nat -> date.
Variable today : date.
Hypothesis clock_steady : forall k, utcnow k = today.
Hypothesis today_valid : valid today = true.

Lemma default_start_ok :
  0 < toordinal today - HISTORY_DAYS cfg <= _MAXORDINAL ->
  _default_start_date_str cfg utcnow 1
  = Ok (isoformat (fromordinal (toordinal today - HISTORY_DAYS cfg))).
Proof.
  intros H. unfold _default_start_date_str, timedelta. rewrite clock_steady.
  pose proof (toordinal_range today today_valid) as R. unfold _MAXORDINAL in *.
  replace ((-999999999 <=? HISTORY_DAYS cfg) && (HISTORY_DAYS cfg <=? 999999999))
    with true
    by (symmetry; apply andb_true_iff; split; apply Z.leb_le; lia).
  cbn [bind]. unfold date_sub. rewrite date_add_ok by (unfold _MAXORDINAL; lia).
  cbn [bind]. do 3 f_equal; lia.
Qed.

Lemma plan_loop_model last_dates dflt coins :
  1 <= dflt <= _MAXORDINAL ->
  (forall c D, In c coins ->
     coverage_day last_dates today (symbol c) = Some D -> D < _MAXORDINAL) ->
  forall k plan,
    plan_loop utcnow last_dates (isoformat today) (isoformat (fromordinal dflt))
      k coins plan
    = Ok (plan ++ map render_entry
            (buildPlan (map symbol coins) (coverage_day last_dates today)
               (toordinal today) (toordinal today - dflt))).
Proof.
  intros Hd. induction coins as [|c rest IH]; intros Hcov k plan.
  - cbn. now rewrite app_nil_r.
  - cbn [plan_loop map]. rewrite buildPlan_cons. cbv zeta.
    assert (Hstart : exists start k',
      start_date_of utcnow last_dates (isoformat (fromordinal dflt)) k c
        = Ok (isoformat (fromordinal start), k')
      /\ 1 <= start <= _MAXORDINAL
      /\ start = match coverage_day last_dates today (symbol c) with
                 | Some D => D + 1
                 | None => toordinal today - (toordinal today - dflt)
                 end).
    { pose proof (Hcov c) as Hc. unfold coverage_day, start_date_of in *.
      destruct (last_dates !! symbol c) as [v|].
      - destruct (strptime_Ymd v) as [D|] eqn:EP.
        + pose proof (strptime_valid _ _ EP) as VD.
          pose proof (toordinal_range D VD) as RD.
          specialize (Hc (toordinal D) (or_introl eq_refl) eq_refl).
          rewrite date_add_ok by lia. cbn [bind].
          exists (toordinal D + 1), k. repeat split; lia.
        + rewrite clock_steady.
          pose proof (toordinal_range today today_valid) as RD.
          specialize (Hc (toordinal today) (or_introl eq_refl) eq_refl).
          rewrite date_add_ok by lia. cbn [bind].
          exists (toordinal today + 1), (S k). repeat split; lia.
      - exists dflt, k. repeat split; try lia. }
    destruct Hstart as (start & k' & E & R & Es). rewrite E.
    destruct (fromordinal_spec start R) as [Vs Os].
    rewrite isoformat_ltb by assumption. rewrite Os.
    rewrite <- Es.
    destruct (toordinal today <? start).
    + apply IH. intros c' D Hin. apply Hcov. now right.
    + rewrite IH by (intros c' D Hin; apply Hcov; now right).
      rewrite <- app_assoc. cbn [map app render_entry].
      now rewrite (fromordinal_toordinal today today_valid).
Qed.

Lemma build_update_plan_model conn coins :
  0 < toordinal today - HISTORY_DAYS cfg <= _MAXORDINAL ->
  (forall c D, In c coins ->
     coverage_day (get_last_dates conn) today (symbol c) = Some D ->
     D < _MAXORDINAL) ->
  build_update_plan cfg utcnow conn coins
  = Ok (map render_entry
          (buildPlan (map symbol coins)
             (coverage_day (get_last_dates conn) today)
             (toordinal today) (HISTORY_DAYS cfg))).
Proof.
  intros Hd Hcov. unfold build_update_plan. cbv zeta.
  rewrite default_start_ok by assumption. cbn [bind].
  unfold _today_utc_date_str. rewrite clock_steady.
  rewrite plan_loop_model by (assumption || lia).
  cbn [app]. do 3 f_equal. lia.
Qed.

End PlannerFacts.

Lemma buildPlan_ext l cov cov' today depth :
  (forall s, s ∈ l -> cov s = cov' s) ->
  buildPlan l cov today depth = buildPlan l cov' today depth.
Proof.
  induction l as [|s l IH]; intros H; [reflexivity|].
  rewrite !buildPlan_cons. cbv zeta.
  rewrite <- (H s) by (left; reflexivity).
  rewrite IH by (intros s' Hs'; apply H; now right). reflexivity.
Qed.

Lemma elem_of_buildPlan l cov today depth s a b :
  (s, a, b) ∈ buildPlan l cov today depth
  <-> s ∈ l /\ b = today /\ a <= today
      /\ a = match cov s with Some D => D + 1 | None => today - depth end.
Proof.
  unfold buildPlan. rewrite list_elem_of_omap. split.
  - intros (x & Hx & E). cbv zeta in E.
    destruct (today <? _) eqn:Lt; [discriminate|].
    apply Z.ltb_ge in Lt. injection E as <- <- <-. auto.
  - intros (Hs & -> & Ha & Ea). exists s. split; [assumption|]. cbv zeta.
    rewrite <- Ea. replace (today <? a) with false by (symmetry; apply Z.ltb_ge; lia).
    reflexivity.
Qed.

Lemma elem_of_render_plan l e :
  e ∈ map render_entry l
  <-> exists s a b, (s, a, b) ∈ l
        /\ e = mkplan s (isoformat (fromordinal a)) (isoformat (fromordinal b)).
Proof.
  rewrite list_elem_of_fmap. split.
  - intros ([[s a] b] & -> & Hin). exists s, a, b. auto.
  - intros (s & a & b & Hin & ->). exists (s, a, b). auto.
Qed.

(** C1. With the clock of the run showing [today], a representable
    default start and coverage dates that [strptime] reads and that have a
    next day, [build_update_plan] returns the plan of the design document
    ([buildPlan]): a listed symbol whose coverage map date is [D] gets the
    entry that starts on the day after [D], a listed symbol without
    coverage gets the entry that starts [HISTORY_DAYS] before [today], a
    start after [today] gives no entry at all, and every entry that is
    emitted ends [today]. *)
Theorem C1_build_update_plan_follows_buildPlan
    (cfg : Settings) (utcnow : nat -> date) (today : date)
    (conn : connection) (top_coins : list coin) :
  (forall k, utcnow k = today) ->
  valid today = true ->
  0 < toordinal today - HISTORY_DAYS cfg <= _MAXORDINAL ->
  (forall c v, c ∈ top_coins -> get_last_dates conn !! symbol c = Some v ->
     exists D, strptime_Ymd v = Some D /\ toordinal D < _MAXORDINAL) ->
  let coverage (s : string) : option Z :=
    toordinal <$> (get_last_dates conn !! s ≫= strptime_Ymd) in
  exists plan,
    build_update_plan cfg utcnow conn top_coins = Ok plan
    /\ plan = map render_entry
                (buildPlan (map symbol top_coins) coverage
                   (toordinal today) (HISTORY_DAYS cfg))
    /\ (forall c D, c ∈ top_coins -> coverage (symbol c) = Some D ->
          if D + 1 <=? toordinal today
          then exists S, valid S = true /\ toordinal S = D + 1
                 /\ mkplan (symbol c) (isoformat S) (isoformat today) ∈ plan
          else forall e, e ∈ plan -> plan_symbol e <> symbol c)
    /\ (forall c, c ∈ top_coins -> coverage (symbol c) = None ->
          if toordinal today - HISTORY_DAYS cfg <=? toordinal today
          then exists S, valid S = true
                 /\ toordinal S = toordinal today - HISTORY_DAYS cfg
                 /\ mkplan (symbol c) (isoformat S) (isoformat today) ∈ plan
          else forall e, e ∈ plan -> plan_symbol e <> symbol c)
    /\ (forall e, e ∈ plan ->
          end_date e = isoformat today
          /\ exists S, valid S = true /\ start_date e = isoformat S
               /\ toordinal S <= toordinal today).
Proof.
  intros Hclock Hvalid Hdepth Hparse coverage.
  pose proof (toordinal_range today Hvalid) as Rt.
  assert (Hcov_eq : forall s, s ∈ map symbol top_coins ->
            coverage_day (get_last_dates conn) today s = coverage s).
  { intros s Hs. apply list_elem_of_fmap in Hs. destruct Hs as (c & -> & Hc).
    unfold coverage_day, coverage.
    destruct (get_last_dates conn !! symbol c) as [v|] eqn:E; [|reflexivity].
    destruct (Hparse c v Hc E) as (D & EP & _). cbn. now rewrite EP. }
  assert (Hcov_lt : forall c D, In c top_coins ->
            coverage_day (get_last_dates conn) today (symbol c) = Some D ->
            D < _MAXORDINAL).
  { intros c D Hc. apply list_elem_of_In in Hc. unfold coverage_day.
    destruct (get_last_dates conn !! symbol c) as [v|] eqn:E; [|discriminate].
    destruct (Hparse c v Hc E) as (D' & EP & Hlt). rewrite EP.
    intros [= <-]. exact Hlt. }
  eexists. split.
  { apply (build_update_plan_model cfg utcnow today Hclock Hvalid conn top_coins
             Hdepth Hcov_lt). }
  rewrite (buildPlan_ext _ _ coverage _ _ Hcov_eq).
  assert (Hrange : forall s a b,
            (s, a, b) ∈ buildPlan (map symbol top_coins) coverage
                          (toordinal today) (HISTORY_DAYS cfg) ->
            1 <= a <= _MAXORDINAL).
  { intros s a b Hin. apply elem_of_buildPlan in Hin.
    destruct Hin as (Hs & -> & Ha & Ea). split; [|lia].
    destruct (coverage s) as [D|] eqn:EC; [|lia].
    apply list_elem_of_fmap in Hs. destruct Hs as (c & -> & Hc).
    unfold coverage in EC.
    destruct (get_last_dates conn !! symbol c) as [v|]; [|discriminate].
    cbn in EC. destruct (strptime_Ymd v) as [D'|] eqn:EP; [|discriminate].
    injection EC as <-.
    pose proof (toordinal_range D' (strptime_valid _ _ EP)). lia. }
  split; [reflexivity|]. split; [|split].
  - intros c D Hc EC.
    assert (Hs : symbol c ∈ map symbol top_coins)
      by (apply list_elem_of_fmap; eauto).
    destruct (D + 1 <=? toordinal today) eqn:Le.
    + apply Z.leb_le in Le.
      assert (Hin : (symbol c, D + 1, toordinal today)
                ∈ buildPlan (map symbol top_coins) coverage
                    (toordinal today) (HISTORY_DAYS cfg)).
      { apply elem_of_buildPlan. rewrite EC. auto. }
      destruct (fromordinal_spec (D + 1) (Hrange _ _ _ Hin)) as [VS OS].
      exists (fromordinal (D + 1)). split; [assumption|]. split; [assumption|].
      apply elem_of_render_plan. exists (symbol c), (D + 1), (toordinal today).
      split; [assumption|]. now rewrite (fromordinal_toordinal today Hvalid).
    + apply Z.leb_gt in Le. intros e He Esym.
      apply elem_of_render_plan in He. destruct He as (s & a & b & Hin & ->).
      cbn in Esym. subst s. apply elem_of_buildPlan in Hin. rewrite EC in Hin. lia.
  - intros c Hc EC.
    assert (Hs : symbol c ∈ map symbol top_coins)
      by (apply list_elem_of_fmap; eauto).
    destruct (toordinal today - HISTORY_DAYS cfg <=? toordinal today) eqn:Le.
    + apply Z.leb_le in Le.
      assert (Hin : (symbol c, toordinal today - HISTORY_DAYS cfg, toordinal today)
                ∈ buildPlan (map symbol top_coins) coverage
                    (toordinal today) (HISTORY_DAYS cfg)).
      { apply elem_of_buildPlan. rewrite EC. auto. }
      destruct (fromordinal_spec _ (Hrange _ _ _ Hin)) as [VS OS].
      exists (fromordinal (toordinal today - HISTORY_DAYS cfg)).
      split; [assumption|]. split; [assumption|].
      apply elem_of_render_plan. do 3 eexists. split; [exact Hin|].
      now rewrite (fromordinal_toordinal today Hvalid).
    + apply Z.leb_gt in Le. intros e He Esym.
      apply elem_of_render_plan in He. destruct He as (s & a & b & Hin & ->).
      cbn in Esym. subst s. apply elem_of_buildPlan in Hin. rewrite EC in Hin. lia.
  - intros e He. apply elem_of_render_plan in He.
    destruct He as (s & a & b & Hin & ->). cbn.
    pose proof (Hrange _ _ _ Hin) as Ra.
    apply elem_of_buildPlan in Hin. destruct Hin as (Hs & -> & Ha & Ea).
    rewrite (fromordinal_toordinal today Hvalid). split; [reflexivity|].
    destruct (fromordinal_spec a Ra) as [VS OS].
    exists (fromordinal a). rewrite OS. auto.
Qed.

(** C9. A coverage map value that is present but is not a date makes the
    planner take the clock's [today] as the last date: the start it
    computes is the day after [today], and the plan has no entry for the
    symbol. The coverage values of the listed symbols are ASCII text, on
    which [strptime_Ymd] is the parser of the code. *)
Theorem C9_unparseable_coverage_is_skipped
    (cfg : Settings) (utcnow : nat -> date) (today : date)
    (conn : connection) (top_coins : list coin) (c : coin) (v : string) :
  (forall k, utcnow k = today) ->
  valid today = true ->
  0 < toordinal today - HISTORY_DAYS cfg <= _MAXORDINAL ->
  toordinal today < _MAXORDINAL ->
  (forall c' v' D, c' ∈ top_coins ->
     get_last_dates conn !! symbol c' = Some v' ->
     strptime_Ymd v' = Some D -> toordinal D < _MAXORDINAL) ->
  (forall c' v', c' ∈ top_coins ->
     get_last_dates conn !! symbol c' = Some v' -> is_ascii v' = true) ->
  c ∈ top_coins ->
  get_last_dates conn !! symbol c = Some v ->
  strptime_Ymd v = None ->
  (forall dflt k, exists S,
      start_date_of utcnow (get_last_dates conn) dflt k c = Ok (isoformat S, Datatypes.S k)
      /\ valid S = true /\ toordinal S = toordinal today + 1
      /\ String.ltb (isoformat today) (isoformat S) = true)
  /\ exists plan,
       build_update_plan cfg utcnow conn top_coins = Ok plan
       /\ forall e, e ∈ plan -> plan_symbol e <> symbol c.
Proof.
  intros Hclock Hvalid Hdepth Hmax Hparse _ Hc Ev EP.
  pose proof (toordinal_range today Hvalid) as Rt.
  destruct (fromordinal_spec (toordinal today + 1) ltac:(lia)) as [VS OS].
  split.
  - intros dflt k. exists (fromordinal (toordinal today + 1)).
    unfold start_date_of. rewrite Ev, EP, Hclock.
    rewrite date_add_ok by lia. cbn [bind].
    repeat split; try assumption.
    rewrite isoformat_ltb by assumption. rewrite OS. apply Z.ltb_lt. lia.
  - assert (Hcov_lt : forall c' D, In c' top_coins ->
              coverage_day (get_last_dates conn) today (symbol c') = Some D ->
              D < _MAXORDINAL).
    { intros c' D Hc'. apply list_elem_of_In in Hc'. unfold coverage_day.
      destruct (get_last_dates conn !! symbol c') as [v'|] eqn:E; [|discriminate].
      destruct (strptime_Ymd v') as [D'|] eqn:EP'.
      - intros [= <-]. eapply Hparse; eauto.
      - intros [= <-]. exact Hmax. }
    eexists. split.
    { apply (build_update_plan_model cfg utcnow today Hclock Hvalid conn top_coins
               Hdepth Hcov_lt). }
    intros e He Esym. apply elem_of_render_plan in He.
    destruct He as (s & a & b & Hin & ->). cbn in Esym. subst s.
    apply elem_of_buildPlan in Hin. destruct Hin as (_ & _ & Ha & Ea).
    unfold coverage_day in Ea. rewrite Ev, EP in Ea. lia.
Qed.

Example plan_end_to_end :
  build_update_plan Sample.ten_days Sample.steady_clock Sample.fresh_conn
    [Sample.a_coin "BTC" 100%float 1; Sample.a_coin "ETH" 50%float 2]
  = Ok [mkplan "BTC" "2024-05-31" "2024-06-10";
        mkplan "ETH" "2024-05-31" "2024-06-10"].
Proof. vm_compute. reflexivity. Qed.

Example plan_gap_fill :
  build_update_plan default_settings Sample.steady_clock Sample.covered_conn
    Sample.universe
  = Ok [mkplan "BTC-USD" "2024-06-08" "2024-06-10";
        mkplan "SOL-USD" "2014-06-13" "2024-06-10"].
Proof. vm_compute. reflexivity. Qed.

Example plan_garbled_date :
  build_update_plan default_settings Sample.steady_clock Sample.garbled_conn
    [Sample.a_coin "BTC-USD" 100%float 1; Sample.doge]
  = Ok [mkplan "BTC-USD" "2024-06-08" "2024-06-10"].
Proof. vm_compute. reflexivity. Qed.

Lemma C1_witness :
  (forall k, Sample.steady_clock k = Sample.today)
  /\ valid Sample.today = true
  /\ exists plan,
       build_update_plan default_settings Sample.steady_clock
         Sample.covered_conn Sample.universe = Ok plan
       /\ forall e, e ∈ plan -> end_date e = isoformat Sample.today.
Proof.
  assert (H1 : forall k, Sample.steady_clock k = Sample.today)
    by (intros k; reflexivity).
  assert (H2 : valid Sample.today = true) by reflexivity.
  assert (H3 : 0 < toordinal Sample.today - HISTORY_DAYS default_settings
               <= _MAXORDINAL) by (vm_compute; split; [reflexivity|discriminate]).
  assert (H4 : forall c v, c ∈ Sample.universe ->
            get_last_dates Sample.covered_conn !! symbol c = Some v ->
            exists D, strptime_Ymd v = Some D /\ toordinal D < _MAXORDINAL).
  { intros c v Hc. apply list_elem_of_In in Hc. cbn in Hc.
    destruct Hc as [<-|[<-|[<-|[]]]]; intros Hv; vm_compute in Hv;
      try discriminate; injection Hv as <-;
      eexists; (split; [vm_compute; reflexivity|]); vm_compute; reflexivity. }
  split; [exact H1|]. split; [exact H2|].
  destruct (C1_build_update_plan_follows_buildPlan default_settings
              Sample.steady_clock Sample.today Sample.covered_conn
              Sample.universe H1 H2 H3 H4) as (plan & E & _ & _ & _ & Hall).
  exists plan. split; [exact E|]. intros e He. exact (proj1 (Hall e He)).
Defined.

Lemma C9_witness :
  Sample.doge ∈ [Sample.a_coin "BTC-USD" 100%float 1; Sample.doge]
  /\ get_last_dates Sample.garbled_conn !! symbol Sample.doge = Some "10/06/2024"
  /\ strptime_Ymd "10/06/2024" = None
  /\ is_ascii "10/06/2024" = true
  /\ exists plan,
       build_update_plan default_settings Sample.steady_clock
         Sample.garbled_conn [Sample.a_coin "BTC-USD" 100%float 1; Sample.doge]
       = Ok plan
       /\ forall e, e ∈ plan -> plan_symbol e <> symbol Sample.doge.
Proof.
  assert (H1 : forall k, Sample.steady_clock k = Sample.today)
    by (intros k; reflexivity).
  assert (H2 : valid Sample.today = true) by reflexivity.
  assert (H3 : 0 < toordinal Sample.today - HISTORY_DAYS default_settings
               <= _MAXORDINAL) by (vm_compute; split; [reflexivity|discriminate]).
  assert (H4 : toordinal Sample.today < _MAXORDINAL) by (vm_compute; reflexivity).
  assert (H5 : forall c' v' D,
            c' ∈ [Sample.a_coin "BTC-USD" 100%float 1; Sample.doge] ->
            get_last_dates Sample.garbled_conn !! symbol c' = Some v' ->
            strptime_Ymd v' = Some D -> toordinal D < _MAXORDINAL).
  { intros c' v' D Hc. apply list_elem_of_In in Hc. cbn in Hc.
    destruct Hc as [<-|[<-|[]]]; intros Hv; vm_compute in Hv;
      injection Hv as <-; intros HD; vm_compute in HD;
      try discriminate; injection HD as <-; vm_compute; reflexivity. }
  assert (H6 : Sample.doge ∈ [Sample.a_coin "BTC-USD" 100%float 1; Sample.doge])
    by (apply list_elem_of_In; right; left; reflexivity).
  assert (H7 : get_last_dates Sample.garbled_conn !! symbol Sample.doge
               = Some "10/06/2024") by (vm_compute; reflexivity).
  assert (H8 : strptime_Ymd "10/06/2024" = None) by reflexivity.
  assert (H9 : forall c' v',
            c' ∈ [Sample.a_coin "BTC-USD" 100%float 1; Sample.doge] ->
            get_last_dates Sample.garbled_conn !! symbol c' = Some v' ->
            is_ascii v' = true).
  { intros c' v' Hc. apply list_elem_of_In in Hc. cbn in Hc.
    destruct Hc as [<-|[<-|[]]]; intros Hv; vm_compute in Hv;
      injection Hv as <-; reflexivity. }
  split; [exact H6|]. split; [exact H7|]. split; [exact H8|].
  split; [exact (H9 _ _ H6 H7)|].
  exact (proj2 (C9_unparseable_coverage_is_skipped default_settings
                  Sample.steady_clock Sample.today Sample.garbled_conn
                  [Sample.a_coin "BTC-USD" 100%float 1; Sample.doge]
                  Sample.doge "10/06/2024" H1 H2 H3 H4 H5 H9 H6 H7 H8)).
Defined.

(** ** The storage gateway *)

Section ReplaceInto.

Context {R K : Type} `{EqDecision K}.
Variable key : R -> K.

Lemma rows_with_filter_other k (tbl : list R) :
  rows_with key k (filter (fun r => key r <> k) tbl) = [].
Proof.
  unfold rows_with. induction tbl as [|r tbl IH]; [reflexivity|].
  rewrite filter_cons. destruct (decide (key r <> k)) as [Hne|He].
  - rewrite filter_cons_False by assumption. exact IH.
  - exact IH.
Qed.

Lemma rows_with_filter_ne k k' (tbl : list R) :
  k <> k' ->
  rows_with key k (filter (fun r => key r <> k') tbl) = rows_with key k tbl.
Proof.
  intros Hk. unfold rows_with. induction tbl as [|r tbl IH]; [reflexivity|].
  rewrite filter_cons. destruct (decide (key r <> k')) as [Hne|He].
  - rewrite !filter_cons. destruct (decide (key r = k)); now rewrite IH.
  - rewrite IH. rewrite filter_cons_False; [reflexivity|].
    intros E. apply He. congruence.
Qed.

Lemma rows_with_replace_same row tbl :
  rows_with key (key row) (replace_into key row tbl) = [row].
Proof.
  unfold replace_into, rows_with. rewrite filter_app.
  fold (rows_with key (key row) (filter (fun r => key r <> key row) tbl)).
  rewrite rows_with_filter_other.
  rewrite filter_cons_True by reflexivity. reflexivity.
Qed.

Lemma rows_with_replace_other k row tbl :
  k <> key row ->
  rows_with key k (replace_into key row tbl) = rows_with key k tbl.
Proof.
  intros Hk. unfold replace_into, rows_with. rewrite filter_app.
  fold (rows_with key k (filter (fun r => key r <> key row) tbl)).
  rewrite rows_with_filter_ne by assumption.
  rewrite filter_cons_False by congruence. apply app_nil_r.
Qed.



Lemma replace_into_keys_NoDup row (tbl : list R) :
  NoDup (map key tbl) -> NoDup (map key (replace_into key row tbl)).
Proof.
  intros ND. unfold replace_into. rewrite map_app. cbn.
  apply NoDup_app. split; [|split].
  - induction tbl as [|r tbl IH]; [constructor|].
    cbn in ND. apply NoDup_cons in ND. destruct ND as [Hnin ND].
    rewrite filter_cons. destruct (decide (key r <> key row)).
    + cbn. apply NoDup_cons. split; [|now apply IH].
      intros Hin. apply Hnin. apply list_elem_of_fmap in Hin.
      destruct Hin as (r' & E & Hr'). apply list_elem_of_filter in Hr'.
      apply list_elem_of_fmap. exists r'. tauto.
    + now apply IH.
  - intros k Hin Hk. apply list_elem_of_fmap in Hin.
    destruct Hin as (r' & -> & Hr'). apply list_elem_of_filter in Hr'.
    apply list_elem_of_singleton in Hk. tauto.
  - apply NoDup_singleton.
Qed.

Lemma replace_into_fresh row (tbl : list R) :
  key row ∉ map key tbl -> replace_into key row tbl = tbl ++ [row].
Proof.
  intros Hnin. unfold replace_into. f_equal.
  induction tbl as [|r tbl IH]; [reflexivity|].
  cbn in Hnin. apply not_elem_of_cons in Hnin. destruct Hnin as [Hne Hnin].
  rewrite filter_cons_True by congruence. now rewrite IH.
Qed.

(** After a sequence of [replace_into], a key holds the last row written
    for it, or what it held before when no row was written for it. *)
Lemma rows_with_foldl_replace k (rows tbl : list R) :
  rows_with key k (foldl (fun t r => replace_into key r t) tbl rows)
  = match last (rows_with key k rows) with
    | Some r => [r]
    | None => rows_with key k tbl
    end.
Proof.
  revert tbl. induction rows as [|r rows IH]; intros tbl; [reflexivity|].
  cbn [foldl]. rewrite IH. unfold rows_with at 3. rewrite filter_cons.
  destruct (decide (key r = k)) as [E|Hne].
  - fold (rows_with key k rows). rewrite last_cons.
    destruct (last (rows_with key k rows)); [reflexivity|].
    subst k. apply rows_with_replace_same.
  - fold (rows_with key k rows).
    destruct (last (rows_with key k rows)); [reflexivity|].
    apply rows_with_replace_other. congruence.
Qed.

Lemma foldl_replace_fresh (rows tbl : list R) :
  NoDup (map key (tbl ++ rows)) ->
  foldl (fun t r => replace_into key r t) tbl rows = tbl ++ rows.
Proof.
  revert tbl. induction rows as [|r rows IH]; intros tbl ND.
  - now rewrite app_nil_r.
  - cbn [foldl]. rewrite replace_into_fresh.
    + rewrite IH; rewrite <- app_assoc; [reflexivity|exact ND].
    + rewrite map_app in ND. apply NoDup_app in ND.
      destruct ND as (_ & Hdisj & _). intros Hin. apply (Hdisj _ Hin).
      cbn. left.
Qed.

End ReplaceInto.

Lemma insert_daily_history_cons conn r rows :
  daily_history (committed (insert_daily_history conn (r :: rows)))
  = foldl (fun t r => replace_into bar_key r t)
      (daily_history (working conn)) (r :: rows).
Proof. reflexivity. Qed.

Lemma insert_daily_history_working conn rows :
  rows <> [] ->
  working (insert_daily_history conn rows)
  = committed (insert_daily_history conn rows).
Proof. destruct rows; [congruence|reflexivity]. Qed.


(** ** The coverage map *)

Lemma string_ltb_le a b : String.ltb a b = true -> String.le a b.
Proof.
  unfold String.ltb, String.le, String.leb.
  destruct (String.compare a b); intros H; try discriminate; exact I.
Qed.

Lemma string_not_ltb_le a b : String.ltb a b = false -> String.le b a.
Proof.
  unfold String.ltb, String.le, String.leb.
  rewrite (String.compare_antisym b a).
  destruct (String.compare a b); intros H; try discriminate; exact I.
Qed.

Lemma newest_of_step l m b :
  newest_of l m -> newest_of (l ++ [b]) (newest m b).
Proof.
  intros Hm s. unfold newest.
  destruct (decide (bar_symbol b = s)) as [Hs|Hs].
  - subst s. specialize (Hm (bar_symbol b)).
    destruct (m !! bar_symbol b) as [d|] eqn:Hd.
    + destruct Hm as [[b0 (Hin & Hsym & Hdate)] Hmax].
      destruct (String.ltb d (bar_date b)) eqn:Hlt.
      * rewrite lookup_insert_eq. split.
        -- exists b. split; [|split]; try reflexivity.
           apply elem_of_app. right. apply list_elem_of_singleton. reflexivity.
        -- intros b' Hb' Hs'. apply elem_of_app in Hb' as [Hb'|Hb'].
           ++ transitivity d; [apply Hmax; assumption|].
              apply string_ltb_le. exact Hlt.
           ++ apply list_elem_of_singleton in Hb'. subst b'. reflexivity.
      * rewrite Hd. split.
        -- exists b0. split; [|split]; try assumption.
           apply elem_of_app. left. exact Hin.
        -- intros b' Hb' Hs'. apply elem_of_app in Hb' as [Hb'|Hb'].
           ++ apply Hmax; assumption.
           ++ apply list_elem_of_singleton in Hb'. subst b'.
              apply string_not_ltb_le. exact Hlt.
    + rewrite lookup_insert_eq. split.
      * exists b. split; [|split]; try reflexivity.
        apply elem_of_app. right. apply list_elem_of_singleton. reflexivity.
      * intros b' Hb' Hs'. apply elem_of_app in Hb' as [Hb'|Hb'].
        -- exfalso. exact (Hm b' Hb' Hs').
        -- apply list_elem_of_singleton in Hb'. subst b'. reflexivity.
  - assert (Hsame : forall m', m' = m \/ m' = <[bar_symbol b := bar_date b]> m ->
                               m' !! s = m !! s).
    { intros m' [->| ->]; [reflexivity|]. apply lookup_insert_ne. exact Hs. }
    assert (Hlook : (match m !! bar_symbol b with
                     | Some d => if String.ltb d (bar_date b)
                                 then <[bar_symbol b := bar_date b]> m else m
                     | None => <[bar_symbol b := bar_date b]> m
                     end) !! s = m !! s).
    { apply Hsame. destruct (m !! bar_symbol b) as [d|];
        [destruct (String.ltb d (bar_date b))|]; auto. }
    rewrite Hlook. specialize (Hm s). destruct (m !! s) as [d|].
    + destruct Hm as [[b0 (Hin & Hsym & Hdate)] Hmax]. split.
      * exists b0. split; [|split]; try assumption.
        apply elem_of_app. left. exact Hin.
      * intros b' Hb' Hs'. apply elem_of_app in Hb' as [Hb'|Hb'].
        -- apply Hmax; assumption.
        -- apply list_elem_of_singleton in Hb'. subst b'. contradiction.
    + intros b' Hb'. apply elem_of_app in Hb' as [Hb'|Hb'].
      * apply Hm. exact Hb'.
      * apply list_elem_of_singleton in Hb'. subst b'. exact Hs.
Qed.

Lemma newest_of_foldl l : newest_of l (foldl newest ∅ l).
Proof.
  induction l as [|b l IH] using rev_ind.
  - intros s. cbn. rewrite lookup_empty. intros b Hb.
    apply elem_of_nil in Hb. contradiction.
  - rewrite foldl_app. cbn. apply newest_of_step. exact IH.
Qed.

(** The coverage map holds, for every symbol with a stored bar, the
    greatest stored date of that symbol, and leaves out the symbols whose
    greatest date is the empty string. *)
Lemma get_last_dates_spec conn s d :
  get_last_dates conn !! s = Some d <->
  d <> EmptyString /\
  (exists b, b ∈ daily_history (working conn) /\
             bar_symbol b = s /\ bar_date b = d) /\
  (forall b, b ∈ daily_history (working conn) ->
             bar_symbol b = s -> String.le (bar_date b) d).
Proof.
  unfold get_last_dates.
  pose proof (newest_of_foldl (daily_history (working conn)) s) as Hs.
  rewrite map_lookup_filter_Some. cbn.
  split.
  - intros [Hd Hne]. rewrite Hd in Hs. split; [exact Hne|exact Hs].
  - intros (Hne & [b (Hin & Hsym & Hdate)] & Hmax).
    split; [|exact Hne].
    destruct (foldl newest ∅ (daily_history (working conn)) !! s) as [d'|].
    + destruct Hs as [[b' (Hin' & Hsym' & Hdate')] Hmax'].
      f_equal. apply (anti_symm String.le).
      * rewrite <- Hdate'. apply Hmax; assumption.
      * rewrite <- Hdate. apply Hmax'; assumption.
    + exfalso. exact (Hs b Hin Hsym).
Qed.

Lemma get_last_dates_none conn s :
  (forall b, b ∈ daily_history (working conn) -> bar_symbol b <> s) ->
  get_last_dates conn !! s = None.
Proof.
  intros Hno. destruct (get_last_dates conn !! s) as [d|] eqn:Hd; [|reflexivity].
  apply get_last_dates_spec in Hd as (_ & [b (Hin & Hsym & _)] & _).
  exfalso. exact (Hno b Hin Hsym).
Qed.

Example coverage_of_covered_conn :
  get_last_dates Sample.covered_conn !! "BTC-USD" = Some "2024-06-07" /\
  get_last_dates Sample.covered_conn !! "ETH-USD" = Some "2024-06-10" /\
  get_last_dates Sample.covered_conn !! "DOGE-USD" = None.
Proof. vm_compute. repeat split. Qed.

Lemma last_map {A B : Type} (f : A -> B) (l : list A) :
  last (map f l) = option_map f (last l).
Proof.
  induction l as [|x l IH]; [reflexivity|].
  cbn [map]. rewrite !last_cons, IH. destruct (last l); reflexivity.
Qed.

Lemma sql_bind_Ok v : is_Ok (sql_bind v) = true -> sql_bind v = Ok v.
Proof.
  destruct v as [|b|z|f|s|l|kv]; cbn; try reflexivity; try discriminate.
  - destruct (int64 z); [reflexivity|discriminate].
  - destruct (has_surrogate s); [discriminate|reflexivity].
Qed.

Lemma bind_coin_bindable now source c :
  coin_bindable c = true ->
  bind_coin now (coin_params source c) = Ok (coin_row_of now source c).
Proof.
  unfold coin_bindable, bind_coin, coin_row_of, coin_params.
  intros H. apply andb_true_iff in H. destruct H as [H Hr].
  apply andb_true_iff in H. destruct H as [Hs Hn].
  apply negb_true_iff in Hs.
  cbn [sql_bind]. rewrite Hs. cbn [bind].
  rewrite (sql_bind_Ok _ Hn). cbn [bind sql_bind]. rewrite Hr. reflexivity.
Qed.

Lemma bind_coin_unbindable now source c :
  coin_bindable c = false ->
  exists e, bind_coin now (coin_params source c) = Raise e.
Proof.
  unfold coin_bindable, bind_coin, coin_params. intros H.
  cbn [sql_bind]. destruct (has_surrogate (symbol c)); [cbn; eauto|].
  cbn [bind negb andb] in *.
  destruct (sql_bind (name c)) as [v|e] eqn:En; [|cbn; eauto].
  cbn [is_Ok andb] in H. cbn [bind sql_bind]. rewrite H. eauto.
Qed.

Lemma executemany_coins_bindable now source cs db :
  forallb coin_bindable cs = true ->
  executemany_coins now (map (coin_params source) cs) db
  = Ok (set_coins
          (fun t => foldl (fun t r => replace_into row_symbol r t) t
                      (map (coin_row_of now source) cs)) db).
Proof.
  revert db. induction cs as [|c cs IH]; intros db H.
  - destruct db; reflexivity.
  - cbn [forallb] in H. apply andb_true_iff in H. destruct H as [Hc Hcs].
    cbn [map executemany_coins]. rewrite (bind_coin_bindable _ _ _ Hc).
    rewrite IH by assumption. destruct db; reflexivity.
Qed.

Lemma executemany_coins_unbindable now source cs db :
  forallb coin_bindable cs = false ->
  exists e, executemany_coins now (map (coin_params source) cs) db = Raise e.
Proof.
  revert db. induction cs as [|c cs IH]; intros db H; [discriminate|].
  cbn [forallb] in H. cbn [map executemany_coins].
  destruct (coin_bindable c) eqn:Hc.
  - rewrite (bind_coin_bindable _ _ _ Hc). apply IH. exact H.
  - destruct (bind_coin_unbindable now source c Hc) as [e ->]. eauto.
Qed.

(** A stale snapshot: one row of an earlier run. *)
Example insert_top_coins_empty_keeps_snapshot :
  snd (insert_top_coins "2024-06-10 00:00:00" Sample.stale_conn [] "yahoo_screener_api")
  = Sample.stale_conn.
Proof. reflexivity. Qed.

(** C7, as stated, fails for the empty list: the guard [if not coins:
    return] leaves the stored snapshot in place. *)
Lemma C7_counterexample_empty_list :
  coins (committed Sample.stale_conn) <> []
  /\ ~ replaces_snapshot "2024-06-10 00:00:00" Sample.stale_conn []
         "yahoo_screener_api".
Proof.
  split; [discriminate|]. unfold replaces_snapshot. cbn. discriminate.
Qed.

(** C7, amended. For the empty list [insert_top_coins] does nothing. For
    a non-empty list it is atomic: when a value cannot be bound the call
    raises and the connection is back at its committed state; otherwise
    one commit replaces the snapshot, after which the table holds for
    every symbol the last given record of that symbol and nothing else,
    which for pairwise distinct symbols is exactly the list of the given
    records; the history table is not touched. *)
Theorem C7_insert_top_coins_replaces_snapshot
    (now : string) (conn : connection) (cs : list coin) (source : string) :
  insert_top_coins now conn [] source = (Ok tt, conn)
  /\ (cs <> [] ->
      let out := insert_top_coins now conn cs source in
      (forallb coin_bindable cs = true ->
         fst out = Ok tt
         /\ journal (snd out) = committed conn :: journal conn
         /\ working (snd out) = committed (snd out)
         /\ daily_history (committed (snd out)) = daily_history (working conn)
         /\ (forall s, stored_coins (snd out) s
                       = match last (filter (fun c => symbol c = s) cs) with
                         | Some c => [coin_row_of now source c]
                         | None => []
                         end)
         /\ (NoDup (map symbol cs) -> replaces_snapshot now conn cs source))
      /\ (forallb coin_bindable cs = false ->
         (exists e, fst out = Raise e)
         /\ committed (snd out) = committed conn
         /\ working (snd out) = committed conn
         /\ journal (snd out) = journal conn)).
Proof.
  split; [reflexivity|].
  intros Hne out. subst out. unfold replaces_snapshot, stored_coins.
  destruct cs as [|c0 cs0]; [congruence|]. set (cs := c0 :: cs0) in *.
  unfold insert_top_coins. fold cs. cbv zeta.
  change (match cs with [] => (Ok tt, conn) | _ :: _ => ?x end) with x.
  split.
  - intros Hb. rewrite (executemany_coins_bindable _ _ _ _ Hb).
    cbn [fst snd commit execute committed working journal set_coins coins
         daily_history].
    repeat split.
    + intros s. rewrite rows_with_foldl_replace.
      assert (E : rows_with row_symbol s (map (coin_row_of now source) cs)
                  = map (coin_row_of now source)
                      (filter (fun c => symbol c = s) cs)).
      { clear. induction cs as [|c cs IH]; [reflexivity|].
        cbn [map]. unfold rows_with in *. rewrite !filter_cons.
        change (row_symbol (coin_row_of now source c)) with (symbol c).
        destruct (decide (symbol c = s)); cbn [map]; now rewrite IH. }
      rewrite E, last_map.
      destruct (last (filter _ cs)); reflexivity.
    + intros ND. rewrite foldl_replace_fresh; [reflexivity|].
      cbn [app]. rewrite map_map.
      erewrite map_ext; [exact ND|]. intros c. reflexivity.
  - intros Hb.
    destruct (executemany_coins_unbindable now source cs
                (working (execute (set_coins (fun _ => [])) conn)) Hb)
      as [e ->].
    cbn. eauto.
Qed.

Lemma C7_witness :
  Sample.universe <> []
  /\ forallb coin_bindable Sample.universe = true
  /\ NoDup (map symbol Sample.universe)
  /\ replaces_snapshot "2024-06-10 00:00:00" Sample.stale_conn
       Sample.universe "yahoo_screener_api".
Proof.
  assert (H1 : Sample.universe <> []) by discriminate.
  assert (H2 : forallb coin_bindable Sample.universe = true) by reflexivity.
  assert (H3 : NoDup (map symbol Sample.universe)).
  { apply (bool_decide_unpack _). vm_compute. exact I. }
  split; [exact H1|]. split; [exact H2|]. split; [exact H3|].
  destruct (proj2 (C7_insert_top_coins_replaces_snapshot "2024-06-10 00:00:00"
                     Sample.stale_conn Sample.universe "yahoo_screener_api") H1)
    as [Hok _].
  destruct (Hok H2) as (_ & _ & _ & _ & _ & Hrep). exact (Hrep H3).
Defined.

(** ** The page fetcher *)

Section PageFetcher.

Variable requests_get : string -> Z -> Z -> result json.
Variables start count : Z.

Lemma mirrors_loop_step base urls last_err :
  mirrors_loop requests_get (base :: urls) start count last_err
  = match mirror requests_get base start count with
    | Yields quotes => (Ok quotes, [base])
    | NoData =>
        let '(r, log) := mirrors_loop requests_get urls start count last_err in
        (r, base :: log)
    | Failed e =>
        let '(r, log) := mirrors_loop requests_get urls start count (Some e) in
        (r, base :: log)
    end.
Proof.
  cbn [mirrors_loop]. unfold mirror.
  destruct (requests_get base start count) as [data|e]; [|reflexivity].
  destruct (parse_quotes data) as [[quotes|]|e]; reflexivity.
Qed.

Lemma mirrors_loop_spec urls :
  forall last_err,
  let out := mirrors_loop requests_get urls start count last_err in
  (forall e, fst out = Raise e ->
     e = RuntimeError
     /\ Forall (yields_nothing requests_get start count) urls
     /\ (is_Some last_err \/ Exists (fun u => exists e', mirror requests_get u start count = Failed e') urls)
     /\ snd out = urls)
  /\ (forall quotes, fst out = Ok quotes ->
        (exists pre u post,
            urls = pre ++ u :: post /\ Forall (yields_nothing requests_get start count) pre
            /\ mirror requests_get u start count = Yields quotes /\ snd out = pre ++ [u])
        \/ (quotes = [] /\ last_err = None
            /\ Forall (fun u => mirror requests_get u start count = NoData) urls /\ snd out = urls)).
Proof.
  induction urls as [|base urls IH]; intros last_err out; subst out.
  - cbn [mirrors_loop]. destruct last_err as [e0|]; cbn [fst snd]; split.
    + intros e [= <-]. repeat split; eauto.
    + intros quotes [=].
    + intros e [=].
    + intros quotes [= <-]. right. repeat split; constructor.
  - rewrite mirrors_loop_step.
    destruct (mirror requests_get base start count) as [qs| |e0] eqn:Eo.
    + cbn [fst snd]. split; [intros e [=]|].
      intros quotes [= <-]. left. exists [], base, urls.
      repeat split; [constructor|assumption].
    + specialize (IH last_err).
      destruct (mirrors_loop requests_get urls start count last_err) as [r log].
      cbn [fst snd] in *. destruct IH as [IHr IHo]. split.
      * intros e Er. destruct (IHr e Er) as (-> & Hall & Hsome & ->).
        repeat split.
        -- constructor; [|assumption]. intros q. rewrite Eo. discriminate.
        -- destruct Hsome as [?|?]; [now left|right; now apply Exists_cons_tl].
      * intros quotes Er. destruct (IHo quotes Er) as
          [(pre & u & post & -> & Hpre & Hu & ->)|(-> & -> & Hall & ->)].
        -- left. exists (base :: pre), u, post. repeat split; try assumption.
           constructor; [|assumption]. intros q. rewrite Eo. discriminate.
        -- right. repeat split. constructor; assumption.
    + specialize (IH (Some e0)).
      destruct (mirrors_loop requests_get urls start count (Some e0)) as [r log].
      cbn [fst snd] in *. destruct IH as [IHr IHo]. split.
      * intros e Er. destruct (IHr e Er) as (-> & Hall & Hsome & ->).
        repeat split.
        -- constructor; [|assumption]. intros q. rewrite Eo. discriminate.
        -- right. apply Exists_cons_hd. eauto.
      * intros quotes Er. destruct (IHo quotes Er) as
          [(pre & u & post & -> & Hpre & Hu & ->)|(_ & [=] & _)].
        left. exists (base :: pre), u, post. repeat split; try assumption.
        constructor; [|assumption]. intros q. rewrite Eo. discriminate.
Qed.

Lemma fetch_page_raises :
  Forall (yields_nothing requests_get start count) YF_SCREENER_URLS ->
  Exists (fun u => exists e, mirror requests_get u start count = Failed e)
    YF_SCREENER_URLS ->
  _fetch_page_json requests_get start count
  = (Raise RuntimeError, YF_SCREENER_URLS).
Proof.
  intros Hnone Hfail. unfold _fetch_page_json.
  destruct (mirrors_loop_spec YF_SCREENER_URLS None) as [Hr Ho].
  destruct (mirrors_loop requests_get YF_SCREENER_URLS start count None)
    as [[quotes|e] log]; cbn [fst snd] in *.
  - exfalso. destruct (Ho quotes eq_refl)
      as [(pre & u & post & E & _ & Hu & _)|(_ & _ & Hall & _)].
    + rewrite Forall_forall in Hnone.
      assert (Hin : u ∈ YF_SCREENER_URLS)
        by (rewrite E; apply elem_of_app; right; left).
      exact (Hnone u Hin quotes Hu).
    + apply Exists_exists in Hfail as (u & Hin & e & He).
      rewrite Forall_forall in Hall. rewrite (Hall u Hin) in He. discriminate.
  - destruct (Hr e eq_refl) as (-> & _ & _ & ->). reflexivity.
Qed.

Lemma fetch_page_no_data :
  Forall (fun u => mirror requests_get u start count = NoData)
    YF_SCREENER_URLS ->
  _fetch_page_json requests_get start count = (Ok [], YF_SCREENER_URLS).
Proof.
  intros Hall. unfold _fetch_page_json.
  destruct (mirrors_loop_spec YF_SCREENER_URLS None) as [Hr Ho].
  destruct (mirrors_loop requests_get YF_SCREENER_URLS start count None)
    as [[quotes|e] log]; cbn [fst snd] in *.
  - destruct (Ho quotes eq_refl)
      as [(pre & u & post & E & _ & Hu & _)|(-> & _ & _ & ->)];
      [|reflexivity].
    exfalso. rewrite Forall_forall in Hall.
    rewrite (Hall u) in Hu; [discriminate|].
    rewrite E. apply elem_of_app. right. left.
  - exfalso. destruct (Hr e eq_refl) as (_ & _ & [[x Hx]|Hfail] & _);
      [discriminate|].
    apply Exists_exists in Hfail as (u & Hin & e' & He).
    rewrite Forall_forall in Hall. rewrite (Hall u Hin) in He. discriminate.
Qed.

(** C8, amended. The page fetcher asks the mirrors in the order of
    [YF_SCREENER_URLS] and stops at the first one that yields a quote
    list, whose quotes it returns: when some mirror yields quotes the page
    does not fail. It raises, always RuntimeError and after asking every
    mirror, exactly when no mirror yielded a quote list and at least one
    of them failed; a mirror that answered without results does not
    prevent this. When every mirror answers without results the page is
    empty and nothing is raised. *)
Theorem C8_fetch_page_tries_mirrors_in_order :
  let out := _fetch_page_json requests_get start count in
  let outcome := fun u => mirror requests_get u start count in
  snd out `prefix_of` YF_SCREENER_URLS
  /\ (forall e, fst out = Raise e <->
        e = RuntimeError
        /\ Forall (yields_nothing requests_get start count) YF_SCREENER_URLS
        /\ Exists (fun u => exists e', outcome u = Failed e') YF_SCREENER_URLS)
  /\ (forall e, fst out = Raise e -> snd out = YF_SCREENER_URLS)
  /\ (Exists (fun u => exists quotes, outcome u = Yields quotes) YF_SCREENER_URLS ->
        exists pre u post quotes,
          YF_SCREENER_URLS = pre ++ u :: post
          /\ Forall (yields_nothing requests_get start count) pre
          /\ outcome u = Yields quotes
          /\ fst out = Ok quotes
          /\ snd out = pre ++ [u])
  /\ (Forall (fun u => outcome u = NoData) YF_SCREENER_URLS ->
      out = (Ok [], YF_SCREENER_URLS)).
Proof.
  intros out outcome. subst out outcome. cbv beta.
  split; [|split; [|split; [|split; [|apply fetch_page_no_data]]]].
  - unfold _fetch_page_json.
    destruct (mirrors_loop_spec YF_SCREENER_URLS None) as [Hr Ho].
    destruct (mirrors_loop requests_get YF_SCREENER_URLS start count None)
      as [r log] eqn:E. cbn [fst snd] in *.
    destruct r as [quotes|e].
    + destruct (Ho quotes eq_refl) as
        [(pre & u & post & Eu & _ & _ & ->)|(_ & _ & _ & ->)].
      * rewrite Eu. exists post. now rewrite <- app_assoc.
      * exists []. now rewrite app_nil_r.
    + destruct (Hr e eq_refl) as (_ & _ & _ & ->). exists []. now rewrite app_nil_r.
  - intros e. split.
    + unfold _fetch_page_json.
      destruct (mirrors_loop_spec YF_SCREENER_URLS None) as [Hr _].
      intros He. destruct (Hr e He) as (-> & Hall & Hsome & _).
      repeat split; try assumption.
      destruct Hsome as [[x [=]]|?]; assumption.
    + intros (-> & Hnone & Hfail). now rewrite (fetch_page_raises Hnone Hfail).
  - intros e. unfold _fetch_page_json.
    destruct (mirrors_loop_spec YF_SCREENER_URLS None) as [Hr _].
    intros He. now destruct (Hr e He) as (_ & _ & _ & ->).
  - intros Hy. unfold _fetch_page_json.
    destruct (mirrors_loop_spec YF_SCREENER_URLS None) as [Hr Ho].
    destruct (mirrors_loop requests_get YF_SCREENER_URLS start count None)
      as [r log] eqn:E. cbn [fst snd] in *.
    destruct r as [quotes|e].
    + destruct (Ho quotes eq_refl) as
        [(pre & u & post & Eu & Hpre & Hu & ->)|(_ & _ & Hall & _)].
      * exists pre, u, post, quotes. auto.
      * exfalso. apply Exists_exists in Hy. destruct Hy as (u & Hin & q & Hq).
        rewrite Forall_forall in Hall. rewrite (Hall u Hin) in Hq. discriminate.
    + exfalso. destruct (Hr e eq_refl) as (_ & Hall & _).
      apply Exists_exists in Hy. destruct Hy as (u & Hin & q & Hq).
      rewrite Forall_forall in Hall. exact (Hall u Hin q Hq).
Qed.

End PageFetcher.

(** ** The order of binary64 values *)

Lemma SFcompare_antisym x y :
  SFcompare y x = option_map CompOpp (SFcompare x y).
Proof.
  destruct x as [sx|sx| |sx mx ex], y as [sy|sy| |sy my ey]; cbn;
    try reflexivity;
    try (destruct sx; reflexivity); try (destruct sy; reflexivity);
    try (destruct sx, sy; reflexivity).
  destruct sx, sy; try reflexivity;
    rewrite (Z.compare_antisym ex ey);
    destruct (ex ?= ey); cbn; try reflexivity;
    change (Pos.compare_cont Eq my mx) with (Pos.compare my mx);
    change (Pos.compare_cont Eq mx my) with (Pos.compare mx my);
    rewrite (Pos.compare_antisym mx my); destruct (mx ?= my)%positive; reflexivity.
Qed.

Lemma is_nan_false_compare a :
  PrimFloat.is_nan a = false -> Prim2SF a <> S754_nan.
Proof.
  unfold PrimFloat.is_nan. rewrite FloatAxioms.eqb_spec. unfold SFeqb.
  intros H E. rewrite E in H. cbn in H. discriminate.
Qed.

Lemma float_ltb_leb a b :
  PrimFloat.ltb a b = true -> PrimFloat.leb a b = true.
Proof.
  rewrite ltb_spec, leb_spec. unfold SFltb, SFleb.
  destruct (SFcompare (Prim2SF a) (Prim2SF b)) as [[]|]; congruence.
Qed.

Lemma float_not_ltb_leb a b :
  PrimFloat.is_nan a = false -> PrimFloat.is_nan b = false ->
  PrimFloat.ltb a b = false -> PrimFloat.leb b a = true.
Proof.
  intros Na Nb. apply is_nan_false_compare in Na. apply is_nan_false_compare in Nb.
  rewrite ltb_spec, leb_spec. unfold SFltb, SFleb.
  rewrite (SFcompare_antisym (Prim2SF a) (Prim2SF b)).
  destruct (SFcompare (Prim2SF a) (Prim2SF b)) as [[]|] eqn:E; cbn;
    try congruence.
  exfalso. destruct (Prim2SF a) as [| | |[] ? ?], (Prim2SF b) as [| | |[] ? ?];
    cbn in E; congruence.
Qed.

Lemma float_nan_not_leb a b :
  PrimFloat.is_nan a = true -> PrimFloat.leb b a = false.
Proof.
  unfold PrimFloat.is_nan. rewrite FloatAxioms.eqb_spec, leb_spec.
  unfold SFeqb, SFleb. intros H.
  destruct (Prim2SF a) as [| | |[] ? ?] eqn:Ea; cbn in H;
    try discriminate;
    try (destruct (Prim2SF b) as [| | |[] ? ?]; reflexivity).
  all: try (destruct s; discriminate).
  all: rewrite Z.compare_refl, ?Pos.compare_cont_refl in H; cbn in H;
    try discriminate.
  all: rewrite Pos.compare_cont_refl in H; discriminate.
Qed.

(** ** The universe selector *)

Lemma insert_desc_perm x l : Permutation (insert_desc x l) (x :: l).
Proof.
  induction l as [|y l IH]; [reflexivity|]. cbn [insert_desc].
  destruct (PrimFloat.ltb _ _); [|reflexivity].
  rewrite IH. apply perm_swap.
Qed.

Lemma sort_desc_perm l : Permutation (sort_desc l) l.
Proof.
  induction l as [|x l IH]; [reflexivity|]. unfold sort_desc in *. cbn [foldr].
  rewrite insert_desc_perm. now constructor.
Qed.

Lemma insert_desc_head x l :
  insert_desc x l = x :: l
  \/ exists y l', l = y :: l' /\ insert_desc x l = y :: insert_desc x l'
       /\ PrimFloat.ltb (market_cap x) (market_cap y) = true.
Proof.
  destruct l as [|y l']; [now left|]. cbn [insert_desc].
  destruct (PrimFloat.ltb _ _) eqn:E; [right; eauto|now left].
Qed.

Lemma insert_desc_chain x l :
  PrimFloat.is_nan (market_cap x) = false ->
  Forall (fun c => PrimFloat.is_nan (market_cap c) = false) l ->
  desc_chain (map market_cap l) ->
  desc_chain (map market_cap (insert_desc x l)).
Proof.
  intros Nx. induction l as [|y l IH]; intros Nl Hc; [exact I|].
  apply Forall_cons in Nl. destruct Nl as [Ny Nl].
  cbn [insert_desc]. destruct (PrimFloat.ltb _ _) eqn:E.
  - assert (Hc' : desc_chain (map market_cap l)).
    { destruct l; [exact I|]. exact (proj2 Hc). }
    specialize (IH Nl Hc').
    destruct (insert_desc_head x l) as [E'|(z & l' & -> & E' & _)].
    + rewrite E' in *. cbn [map desc_chain]. split; [|exact IH].
      now apply float_ltb_leb.
    + rewrite E' in *. cbn [map desc_chain]. split; [|exact IH].
      exact (proj1 Hc).
  - cbn [map desc_chain]. split; [|exact Hc].
    now apply float_not_ltb_leb.
Qed.

Lemma sort_desc_chain l :
  Forall (fun c => PrimFloat.is_nan (market_cap c) = false) l ->
  desc_chain (map market_cap (sort_desc l)).
Proof.
  induction l as [|x l IH]; intros Nl; [exact I|].
  apply Forall_cons in Nl. destruct Nl as [Nx Nl].
  unfold sort_desc in *. cbn [foldr]. apply insert_desc_chain; [assumption| |auto].
  eapply Permutation_Forall; [symmetry; apply (sort_desc_perm l)|]. exact Nl.
Qed.

Lemma desc_chain_take n caps : desc_chain caps -> desc_chain (take n caps).
Proof.
  revert caps. induction n as [|n IH]; intros caps Hc; [exact I|].
  destruct caps as [|a caps]; [exact I|]. cbn [take].
  destruct caps as [|b caps]; [destruct n; exact I|].
  destruct Hc as [Hab Hc]. specialize (IH _ Hc).
  destruct n; [exact I|]. cbn [take] in *. split; assumption.
Qed.

Lemma desc_chain_lookup caps :
  desc_chain caps ->
  forall i a b, caps !! i = Some a -> caps !! S i = Some b ->
    PrimFloat.leb b a = true.
Proof.
  induction caps as [|x caps IH]; intros Hc i a b Ha Hb; [discriminate|].
  destruct caps as [|y caps]; [discriminate|].
  destruct Hc as [Hxy Hc]. destruct i as [|i].
  - cbn in Ha, Hb. congruence.
  - exact (IH Hc i a b Ha Hb).
Qed.

Lemma assign_ranks_lookup l i c :
  assign_ranks l !! i = Some c <->
  exists c0, l !! i = Some c0
    /\ c = mkcoin (symbol c0) (name c0) (market_cap c0) (Some (1 + Z.of_nat i)).
Proof.
  unfold assign_ranks. rewrite list_lookup_imap.
  destruct (l !! i) as [c0|]; cbn; split.
  - intros [= <-]. eauto.
  - intros (c1 & [= <-] & ->). reflexivity.
  - discriminate.
  - intros (c1 & [=] & _).
Qed.

Lemma assign_ranks_map {A : Type} (f : coin -> A) l :
  (forall c r, f (mkcoin (symbol c) (name c) (market_cap c) r) = f c) ->
  map f (assign_ranks l) = map f l.
Proof.
  intros Hf. unfold assign_ranks.
  assert (G : forall (g : nat -> Z),
            map f (imap (fun i c => mkcoin (symbol c) (name c) (market_cap c)
                                      (Some (g i))) l) = map f l).
  { induction l as [|c l IH]; intros g; [reflexivity|].
    cbn [imap map]. rewrite Hf. f_equal. apply (IH (fun i => g (S i))). }
  apply (G (fun i => 1 + Z.of_nat i)).
Qed.

Section SelectorFacts.

Context {rt : Runtime}.
Variable requests_get : string -> Z -> Z -> result json.
Variable sql_now : string.

Lemma py_get_dict q k dflt v :
  py_get q k dflt = Ok v -> exists kv, q = JDict kv.
Proof. destruct q; cbn; try discriminate. eauto. Qed.

Lemma add_quote_inv collected seen n q st' :
  fetched requests_get q ->
  selector_inv requests_get collected seen ->
  add_quote (collected, seen, n) q = Ok st' ->
  selector_inv requests_get st'.1.1 st'.1.2.
Proof.
  intros Hq (ND & Hseen & Hall). unfold add_quote.
  destruct (py_get q "symbol" JNull) as [sym|e] eqn:Es; [|discriminate].
  cbn [bind].
  destruct (String.eqb (py_str sym) "" || bool_decide (py_str sym ∈ seen)) eqn:Eskip.
  { intros [= <-]. cbn. repeat split; try assumption; apply Hseen. }
  apply orb_false_iff in Eskip. destruct Eskip as [_ Efresh].
  apply bool_decide_eq_false in Efresh.
  destruct (py_get_dict _ _ _ _ Es) as [kv ->].
  cbn [py_get bind].
  destruct (_extract_market_cap (JDict kv)) as [cap|e] eqn:Em; [|discriminate].
  cbn [bind]. intros [= <-]. cbn [fst snd].
  set (c := mkcoin (py_str sym) _ cap None).
  repeat split.
  - rewrite map_app. apply NoDup_app. split; [assumption|]. split.
    + intros s Hs Hs'. cbn in Hs'. apply list_elem_of_singleton in Hs'. subst s.
      apply Efresh. now apply Hseen.
    + apply NoDup_singleton.
  - intros Hs. rewrite map_app. apply elem_of_app.
    apply elem_of_union in Hs. destruct Hs as [Hs|Hs].
    + right. apply elem_of_singleton in Hs. subst s. cbn. left.
    + left. now apply Hseen.
  - intros Hs. rewrite map_app in Hs. apply elem_of_app in Hs.
    apply elem_of_union. destruct Hs as [Hs|Hs].
    + right. now apply Hseen.
    + left. cbn in Hs. apply list_elem_of_singleton in Hs.
      now apply elem_of_singleton.
  - apply Forall_app. split; [assumption|]. constructor; [|constructor].
    exists (JDict kv). split; [assumption|]. exists sym.
    cbn in Es. unfold quote_name. cbn [py_get bind].
    injection Es as Es. rewrite Es. repeat split. exact Em.
Qed.

Lemma add_quote_total st q :
  quote_ok q = true -> exists st', add_quote st q = Ok st'.
Proof.
  unfold quote_ok, quote_name, add_quote. destruct st as [[collected seen] n].
  intros H. apply andb_true_iff in H. destruct H as [Hm Hn].
  destruct (py_get q "symbol" JNull) as [sym|e] eqn:Es; [|discriminate].
  cbn [bind] in *.
  destruct (String.eqb (py_str sym) "" || bool_decide (py_str sym ∈ seen));
    [eauto|].
  destruct (py_get_dict _ _ _ _ Es) as [kv ->]. cbn [py_get bind].
  destruct (_extract_market_cap (JDict kv)) as [cap|e]; [|discriminate].
  cbn [bind]. eauto.
Qed.

Lemma quotes_loop_inv quotes :
  forall collected seen n st',
  Forall (fetched requests_get) quotes ->
  selector_inv requests_get collected seen ->
  quotes_loop (collected, seen, n) quotes = Ok st' ->
  selector_inv requests_get st'.1.1 st'.1.2.
Proof.
  induction quotes as [|q quotes IH]; intros collected seen n st' Hf Hinv.
  - intros [= <-]. exact Hinv.
  - apply Forall_cons in Hf. destruct Hf as [Hq Hf]. cbn [quotes_loop].
    destruct (add_quote (collected, seen, n) q) as [[[c1 s1] n1]|e] eqn:Ea;
      [|discriminate].
    apply IH; [assumption|].
    exact (add_quote_inv _ _ _ _ _ Hq Hinv Ea).
Qed.

Lemma quotes_loop_total quotes :
  forall st,
  Forall (fun q => quote_ok q = true) quotes ->
  exists st', quotes_loop st quotes = Ok st'.
Proof.
  induction quotes as [|q quotes IH]; intros st Hok; [cbn; eauto|].
  apply Forall_cons in Hok. destruct Hok as [Hq Hok]. cbn [quotes_loop].
  destruct (add_quote_total st q Hq) as [st1 ->]. now apply IH.
Qed.

Lemma pages_loop_inv pages :
  forall start collected seen out,
  selector_inv requests_get collected seen ->
  pages_loop requests_get pages start collected seen = Ok out ->
  exists seen', selector_inv requests_get out seen'.
Proof.
  induction pages as [|pages IH]; intros start collected seen out Hinv.
  - intros [= <-]. eauto.
  - cbn [pages_loop].
    destruct (fst (_fetch_page_json requests_get start page_size))
      as [quotes|e] eqn:Ef; [|intros [= <-]; eauto].
    destruct (quotes_loop (collected, seen, 0) quotes)
      as [[[c1 s1] n1]|e] eqn:Eq; [|discriminate].
    assert (Hinv1 : selector_inv requests_get c1 s1).
    { apply (quotes_loop_inv quotes collected seen 0 (c1, s1, n1));
        [|assumption|assumption].
      apply Forall_forall. intros q Hq. exists start, quotes.
      split; assumption. }
    destruct quotes as [|q0 quotes0]; [intros [= <-]; eauto|].
    destruct (n1 =? 0); [intros [= <-]; eauto|].
    destruct (target_count <=? Z.of_nat (length c1)); [intros [= <-]; eauto|].
    now apply IH.
Qed.

Lemma pages_loop_total pages :
  (forall q, fetched requests_get q -> quote_ok q = true) ->
  forall start collected seen,
  exists out, pages_loop requests_get pages start collected seen = Ok out.
Proof.
  intros Hok. induction pages as [|pages IH]; intros start collected seen.
  - cbn. eauto.
  - cbn [pages_loop].
    destruct (fst (_fetch_page_json requests_get start page_size))
      as [quotes|e] eqn:Ef; [|eauto].
    destruct (quotes_loop_total quotes (collected, seen, 0))
      as [[[c1 s1] n1] ->].
    { apply Forall_forall. intros q Hq. apply Hok. exists start, quotes.
      split; assumption. }
    destruct quotes; [eauto|].
    destruct (n1 =? 0); [eauto|].
    destruct (target_count <=? Z.of_nat (length c1)); [eauto|].
    apply IH.
Qed.

Lemma add_quote_from collected seen n q st' :
  add_quote (collected, seen, n) q = Ok st' ->
  st'.1.1 = collected
  \/ exists c, st'.1.1 = collected ++ [c] /\ coin_of_quote q c.
Proof.
  unfold add_quote.
  destruct (py_get q "symbol" JNull) as [sym|e] eqn:Es; [|discriminate].
  cbn [bind].
  destruct (String.eqb (py_str sym) "" || bool_decide (py_str sym ∈ seen)).
  { intros [= <-]. now left. }
  destruct (py_get_dict _ _ _ _ Es) as [kv ->].
  cbn [py_get bind].
  destruct (_extract_market_cap (JDict kv)) as [cap|e] eqn:Em; [|discriminate].
  cbn [bind]. intros [= <-]. cbn [fst snd]. right.
  eexists. split; [reflexivity|]. exists sym.
  cbn in Es. unfold quote_name. cbn [py_get bind].
  injection Es as Es. rewrite Es. repeat split. exact Em.
Qed.

Lemma quotes_loop_from quotes :
  forall collected seen n st',
  quotes_loop (collected, seen, n) quotes = Ok st' ->
  Forall (fun c => c ∈ collected
                   \/ exists q, q ∈ quotes /\ coin_of_quote q c) st'.1.1.
Proof.
  induction quotes as [|q quotes IH]; intros collected seen n st'.
  - intros [= <-]. apply Forall_forall. intros c Hc. now left.
  - cbn [quotes_loop].
    destruct (add_quote (collected, seen, n) q) as [[[c1 s1] n1]|e] eqn:Ea;
      [|discriminate].
    intros Hrun. specialize (IH _ _ _ _ Hrun).
    apply add_quote_from in Ea. cbn [fst] in Ea.
    eapply Forall_impl; [exact IH|]. intros c [Hc|(q' & Hq' & Hfrom)].
    + destruct Ea as [->|(c' & -> & Hfrom)]; [now left|].
      apply elem_of_app in Hc as [Hc|Hc]; [now left|].
      apply list_elem_of_singleton in Hc as ->.
      right. exists q. split; [left|exact Hfrom].
    + right. exists q'. split; [now right|exact Hfrom].
Qed.

(** Every record that the page loop returns was there at the start or
    was built from a quote of a page that the loop obtained. *)
Lemma pages_loop_served pages :
  forall start collected seen out,
  pages_loop requests_get pages start collected seen = Ok out ->
  Forall (fun c => c ∈ collected
                   \/ exists q, q ∈ pages_served requests_get pages start
                                      collected seen
                                /\ coin_of_quote q c) out.
Proof.
  induction pages as [|pages IH]; intros start collected seen out.
  - intros [= <-]. apply Forall_forall. intros c Hc. now left.
  - cbn [pages_loop pages_served].
    destruct (fst (_fetch_page_json requests_get start page_size))
      as [quotes|e] eqn:Ef.
    2:{ intros [= <-]. apply Forall_forall. intros c Hc. now left. }
    destruct (quotes_loop (collected, seen, 0) quotes)
      as [[[c1 s1] n1]|e] eqn:Eq; [|discriminate].
    pose proof (quotes_loop_from quotes collected seen 0 _ Eq) as Hfrom.
    cbn [fst] in Hfrom.
    assert (Hstop : forall rest,
              Forall (fun c => c ∈ collected
                               \/ exists q, q ∈ quotes ++ rest
                                            /\ coin_of_quote q c) c1).
    { intros rest. eapply Forall_impl; [exact Hfrom|].
      intros c [Hc|(q & Hq & Hc)]; [now left|].
      right. exists q. split; [|exact Hc]. apply elem_of_app. now left. }
    destruct quotes as [|q0 quotes0]; [intros [= <-]; apply Hstop|].
    destruct (n1 =? 0); [intros [= <-]; apply Hstop|].
    destruct (target_count <=? Z.of_nat (length c1));
      [intros [= <-]; apply Hstop|].
    intros Hrun. specialize (IH _ _ _ _ Hrun).
    rewrite Forall_forall in IH, Hfrom. apply Forall_forall. intros c Hc.
    destruct (IH c Hc) as [Hc1|(q & Hq & Hfromq)].
    + destruct (Hfrom c Hc1) as [Hc0|(q & Hq & Hfromq)]; [now left|].
      right. exists q. split; [|exact Hfromq]. apply elem_of_app. now left.
    + right. exists q. split; [|exact Hfromq]. apply elem_of_app. now right.
Qed.

Lemma pages_loop_total_served pages :
  forall start collected seen,
  (forall q, q ∈ pages_served requests_get pages start collected seen ->
     quote_ok q = true) ->
  exists out, pages_loop requests_get pages start collected seen = Ok out.
Proof.
  induction pages as [|pages IH]; intros start collected seen.
  - cbn. eauto.
  - cbn [pages_loop pages_served].
    destruct (fst (_fetch_page_json requests_get start page_size))
      as [quotes|e] eqn:Ef; [|eauto].
    intros Hok.
    destruct (quotes_loop_total quotes (collected, seen, 0))
      as [[[c1 s1] n1] Eq].
    { apply Forall_forall. intros q Hq. apply Hok. apply elem_of_app. now left. }
    rewrite Eq in Hok |- *.
    destruct quotes as [|q0 quotes0]; [eauto|].
    destruct (n1 =? 0); [eauto|].
    destruct (target_count <=? Z.of_nat (length c1)); [eauto|].
    apply IH. intros q Hq. apply Hok. apply elem_of_app. now right.
Qed.

End SelectorFacts.

Lemma lookup_map {A B : Type} (f : A -> B) (l : list A) (i : nat) :
  map f l !! i = option_map f (l !! i).
Proof.
  revert i. induction l as [|x l IH]; intros [|i]; try reflexivity. apply IH.
Qed.

Lemma insert_top_coins_bindable now conn cs source :
  forallb coin_bindable cs = true ->
  fst (insert_top_coins now conn cs source) = Ok tt.
Proof.
  intros Hb. destruct cs as [|c cs]; [reflexivity|].
  unfold insert_top_coins.
  rewrite (executemany_coins_bindable _ _ _ _ Hb). reflexivity.
Qed.

Section SelectorOutput.

Context {rt : Runtime}.
Variable requests_get : string -> Z -> Z -> result json.
Variable sql_now : string.

Lemma run_filter1_Ok conn l :
  fst (run_filter1 requests_get sql_now conn) = Ok l ->
  exists collected,
    pages_loop requests_get max_pages 0 [] ∅ = Ok collected
    /\ l = assign_ranks (take (Z.to_nat target_count) (sort_desc collected)).
Proof.
  unfold run_filter1.
  destruct (pages_loop requests_get max_pages 0 [] ∅) as [collected|e];
    [|discriminate].
  cbv zeta. destruct (insert_top_coins _ _ _ _) as [[u|e] conn'];
    cbn [fst]; [|discriminate].
  intros [= <-]. eauto.
Qed.

Lemma selector_inv_init : selector_inv requests_get [] ∅.
Proof.
  split; [constructor|]. split; [|constructor].
  intros s. cbn. split; intros H; [now apply elem_of_empty in H|].
  now apply elem_of_nil in H.
Qed.

Lemma extract_market_cap_missing kv :
  dict_get kv "marketCap" = None ->
  _extract_market_cap (JDict kv) = Ok 0%float.
Proof. intros H. unfold _extract_market_cap. cbn. rewrite H. reflexivity. Qed.

Lemma extract_market_cap_unparseable kv raw :
  dict_get kv "marketCap" = Some raw ->
  (forall d, raw <> JDict d) ->
  (py_float raw = Raise TypeError \/ py_float raw = Raise ValueError) ->
  _extract_market_cap (JDict kv) = Ok 0%float.
Proof.
  intros H Hd Hf. unfold _extract_market_cap. cbn [py_get bind]. rewrite H.
  cbn [default]. destruct raw; try (exfalso; exact (Hd _ eq_refl)); cbn in *;
    repeat match goal with
    | |- context [float_of_int ?z] => destruct (float_of_int z)
    | |- context [float_of_str ?s] => destruct (float_of_str s)
    end; try reflexivity; destruct Hf; discriminate.
Qed.

Lemma run_filter1_from_served collected c :
  pages_loop requests_get max_pages 0 [] ∅ = Ok collected ->
  c ∈ assign_ranks (take (Z.to_nat target_count) (sort_desc collected)) ->
  exists c0 q,
    c0 ∈ collected /\ served requests_get q /\ coin_of_quote q c0
    /\ symbol c = symbol c0 /\ name c = name c0
    /\ market_cap c = market_cap c0
    /\ exists i : nat, rank c = Some (1 + Z.of_nat i)
                       /\ (i < Z.to_nat target_count)%nat.
Proof.
  intros Ep Hc. apply list_elem_of_lookup in Hc as [i Hi].
  apply assign_ranks_lookup in Hi as (c0 & Hc0 & ->).
  assert (Hlt : (i < Z.to_nat target_count)%nat).
  { apply lookup_lt_Some in Hc0. rewrite length_take in Hc0. lia. }
  assert (Hin0 : c0 ∈ collected).
  { rewrite <- (sort_desc_perm collected).
    apply list_elem_of_lookup_2 in Hc0.
    apply elem_of_take in Hc0 as (j & Hj & _).
    now apply list_elem_of_lookup_2 in Hj. }
  pose proof (pages_loop_served requests_get max_pages 0 [] ∅ collected Ep)
    as Hall.
  rewrite Forall_forall in Hall.
  destruct (Hall c0 Hin0) as [Hnil|(q & Hq & Hfrom)];
    [now apply elem_of_nil in Hnil|].
  exists c0, q. repeat split; try assumption. exists i. auto.
Qed.

(** C6, amended. Whenever the selector returns a list, the list has no
    symbol twice, at most [target_count] records and the ranks 1, 2, ... in
    order; every record carries the market cap extracted from a quote of
    a page that the selector obtained, where a missing or unparseable
    value counts as 0.0; and the list is in descending order of market cap
    provided that no market cap of a quote of such a page is NaN. The
    selector returns a list whenever the quotes of the pages that it
    obtains are well-formed: objects whose market cap converts without
    overflow and whose symbol and name can be stored. *)
Theorem C6_run_filter1_output (conn : connection) :
  let out := run_filter1 requests_get sql_now conn in
  ((forall q, served requests_get q -> quote_ok q = true) ->
     exists l, fst out = Ok l)
  /\ (forall l, fst out = Ok l ->
        NoDup (map symbol l)
        /\ Z.of_nat (length l) <= target_count
        /\ ranked_from_one l
        /\ (forall c, c ∈ l ->
              exists q, served requests_get q /\ coin_of_quote q c)
        /\ ((forall q f, served requests_get q ->
               _extract_market_cap q = Ok f -> PrimFloat.is_nan f = false) ->
            sorted_by_cap_desc l))
  /\ (forall kv, dict_get kv "marketCap" = None ->
        _extract_market_cap (JDict kv) = Ok 0%float)
  /\ (forall kv raw, dict_get kv "marketCap" = Some raw ->
        (forall d, raw <> JDict d) ->
        py_float raw = Raise TypeError \/ py_float raw = Raise ValueError ->
        _extract_market_cap (JDict kv) = Ok 0%float).
Proof.
  intros out. subst out. split; [|split; [|split]].
  - intros Hok. unfold run_filter1.
    destruct (pages_loop_total_served requests_get max_pages 0 [] ∅ Hok)
      as [collected Ep].
    rewrite Ep. cbv zeta.
    set (l := assign_ranks (take (Z.to_nat target_count) (sort_desc collected))).
    assert (Hb : forallb coin_bindable l = true).
    { apply forallb_forall. intros c Hc. apply list_elem_of_In in Hc.
      destruct (run_filter1_from_served collected c Ep Hc)
        as (c0 & q & _ & Hq & Hcq & Es & En & _ & i & Er & Hlt).
      destruct Hcq as (sym & Eg & Esym & Ename & _).
      specialize (Hok q Hq). unfold quote_ok in Hok.
      apply andb_true_iff in Hok. destruct Hok as [Hok Hs].
      apply andb_true_iff in Hok. destruct Hok as [_ Hn].
      rewrite Ename in Hn. rewrite Eg in Hs.
      unfold coin_bindable. rewrite Es, En, Er, Esym, Hs, Hn. cbn [andb].
      unfold int64, target_count in *.
      apply andb_true_iff. split; apply Z.leb_le; lia. }
    pose proof (insert_top_coins_bindable sql_now conn l "yahoo_screener_api" Hb)
      as Ei.
    destruct (insert_top_coins sql_now conn l "yahoo_screener_api")
      as [[u|e] conn']; cbn [fst] in *; [eauto|discriminate].
  - intros l El. destruct (run_filter1_Ok conn l El) as (collected & Ep & ->).
    destruct (pages_loop_inv requests_get max_pages 0 [] ∅ collected
                selector_inv_init Ep) as (seen & ND & _ & _).
    split; [|split; [|split; [|split]]].
    + rewrite assign_ranks_map by reflexivity.
      rewrite <- firstn_map.
      eapply sublist_NoDup; [|apply sublist_take].
      rewrite (Permutation_map symbol (sort_desc_perm collected)). exact ND.
    + unfold assign_ranks. rewrite length_imap, length_take.
      unfold target_count. lia.
    + intros i c Hi. apply assign_ranks_lookup in Hi.
      destruct Hi as (c0 & _ & ->). cbn. f_equal. lia.
    + intros c Hc.
      destruct (run_filter1_from_served collected c Ep Hc)
        as (c0 & q & _ & Hq & Hcq & Es & En & Em & _).
      exists q. split; [assumption|].
      destruct Hcq as (sym & Eg & Esym & Ename & Ecap).
      exists sym. rewrite Es, En, Em. auto.
    + intros Hnan.
      assert (Hnn : Forall (fun c => PrimFloat.is_nan (market_cap c) = false)
                      collected).
      { pose proof (pages_loop_served requests_get max_pages 0 [] ∅ collected Ep)
          as Hall.
        eapply Forall_impl; [exact Hall|]. intros c [Hnil|(q & Hq & Hfrom)];
          [now apply elem_of_nil in Hnil|].
        destruct Hfrom as (sym & _ & _ & _ & Em). exact (Hnan q _ Hq Em). }
      pose proof (sort_desc_chain collected Hnn) as Hch.
      apply (desc_chain_take (Z.to_nat target_count)) in Hch.
      rewrite firstn_map in Hch.
      rewrite <- (assign_ranks_map market_cap) in Hch by reflexivity.
      intros i a b Ha Hb.
      apply (desc_chain_lookup _ Hch i).
      * rewrite lookup_map, Ha. reflexivity.
      * rewrite lookup_map, Hb. reflexivity.
  - apply extract_market_cap_missing.
  - apply extract_market_cap_unparseable.
Qed.

End SelectorOutput.

(** *** The selector on sample sources *)

Example run_filter1_repeating_source :
  fst (run_filter1 (rt := Sample.runtime) Sample.repeating_source
         "2024-06-10 00:00:00" Sample.fresh_conn)
  = Ok [mkcoin "BTC-USD" (JStr "BTC-USD") 100%float (Some 1);
        mkcoin "ETH-USD" (JStr "ETH-USD") 50%float (Some 2);
        mkcoin "SOL-USD" (JStr "SOL-USD") 25%float (Some 3);
        mkcoin "XRP-USD" (JStr "XRP-USD") 0%float (Some 4)].
Proof. vm_compute. reflexivity. Qed.

Example run_filter1_nan_source :
  fst (run_filter1 (rt := Sample.runtime) Sample.nan_source
         "2024-06-10 00:00:00" Sample.fresh_conn)
  = Ok [mkcoin "AAA-USD" (JStr "AAA-USD") PrimFloat.nan (Some 1);
        mkcoin "BBB-USD" (JStr "BBB-USD") 1%float (Some 2)].
Proof. vm_compute. reflexivity. Qed.

(** C6, as stated, fails when the ranking source reports a NaN market
    cap: the record with the NaN cap is ranked first, and NaN is not
    [>=] the cap of the record that follows. *)
Lemma C6_counterexample_nan_market_cap :
  exists l,
    fst (run_filter1 (rt := Sample.runtime) Sample.nan_source
           "2024-06-10 00:00:00" Sample.fresh_conn) = Ok l
    /\ ~ sorted_by_cap_desc l.
Proof.
  eexists. split; [vm_compute; reflexivity|].
  intros H. specialize (H 0%nat _ _ eq_refl eq_refl). vm_compute in H.
  discriminate.
Qed.

Lemma C6_witness :
  (forall q, served (rt := Sample.runtime) Sample.repeating_source q ->
     quote_ok (rt := Sample.runtime) q = true)
  /\ exists l,
       fst (run_filter1 (rt := Sample.runtime) Sample.repeating_source
              "2024-06-10 00:00:00" Sample.fresh_conn) = Ok l
       /\ NoDup (map symbol l).
Proof.
  assert (H : forall q, served (rt := Sample.runtime) Sample.repeating_source q ->
                quote_ok (rt := Sample.runtime) q = true).
  { intros q Hq. unfold served in Hq.
    set (l := pages_served _ _ _ _ _) in Hq. vm_compute in l. subst l.
    repeat (apply elem_of_cons in Hq as [->|Hq]; [vm_compute; reflexivity|]).
    now apply elem_of_nil in Hq. }
  split; [exact H|].
  destruct (C6_run_filter1_output (rt := Sample.runtime)
              Sample.repeating_source "2024-06-10 00:00:00" Sample.fresh_conn)
    as (Htotal & Hout & _).
  destruct (Htotal H) as [l El]. exists l. split; [exact El|].
  exact (proj1 (Hout l El)).
Defined.

(** *** The page fetcher on sample sources *)

Example fetch_page_first_mirror_down :
  _fetch_page_json Sample.first_mirror_down 0 100
  = (Ok [Sample.quote "BTC-USD" (JFloat 100%float)], YF_SCREENER_URLS).
Proof. vm_compute. reflexivity. Qed.

(** A mirror that answers without results does not clear the error of
    an earlier mirror. *)
Example fetch_page_down_then_empty :
  _fetch_page_json Sample.down_then_empty 0 100
  = (Raise RuntimeError, YF_SCREENER_URLS).
Proof. vm_compute. reflexivity. Qed.

(** C8, as stated, fails when the first mirror is down and the second
    one answers without results: the second mirror did not fail, and the
    page fetcher raises. *)
Lemma C8_counterexample_answer_without_results :
  fst (_fetch_page_json Sample.down_then_empty 0 100) = Raise RuntimeError
  /\ mirror Sample.down_then_empty
       "https://query2.finance.yahoo.com/v1/finance/screener/predefined/saved"
       0 100 = NoData
  /\ ~ Forall (fun u => exists e, mirror Sample.down_then_empty u 0 100 = Failed e)
        YF_SCREENER_URLS.
Proof.
  split; [vm_compute; reflexivity|]. split; [vm_compute; reflexivity|].
  intros H. apply Forall_cons in H as [_ H]. apply Forall_cons in H as [[e He] _].
  vm_compute in He. discriminate.
Qed.

Lemma C8_witness :
  Exists (fun u => exists quotes,
            mirror Sample.first_mirror_down u 0 100 = Yields quotes)
    YF_SCREENER_URLS
  /\ exists quotes,
       fst (_fetch_page_json Sample.first_mirror_down 0 100) = Ok quotes.
Proof.
  assert (H : Exists (fun u => exists quotes,
                 mirror Sample.first_mirror_down u 0 100 = Yields quotes)
                YF_SCREENER_URLS).
  { apply Exists_cons_tl. apply Exists_cons_hd. eexists. vm_compute. reflexivity. }
  split; [exact H|].
  destruct (C8_fetch_page_tries_mirrors_in_order Sample.first_mirror_down 0 100)
    as (_ & _ & _ & Hy & _).
  destruct (Hy H) as (pre & u & post & quotes & _ & _ & _ & E & _).
  exists quotes. exact E.
Defined.

(** *** The storage gateway on sample rows *)

Example insert_daily_history_overwrites :
  daily_history
    (committed
       (insert_daily_history Sample.covered_conn
          [mkbar "BTC-USD" "2024-06-07" 9%float 9%float 9%float 9%float 9%float]))
  = [Sample.flat_bar "BTC-USD" "2024-06-06";
     Sample.flat_bar "ETH-USD" "2024-06-10";
     mkbar "BTC-USD" "2024-06-07" 9%float 9%float 9%float 9%float 9%float].
Proof. vm_compute. reflexivity. Qed.


(** ** The dispatcher: choice of the mode *)

Lemma size_ranges_one {A : Type} (f : A -> string * string) (l : list A) :
  size (list_to_set (map f l) : gset (string * string)) = 1%nat
  <-> l <> [] /\ forall p q, p ∈ l -> q ∈ l -> f p = f q.
Proof.
  split.
  - intros Hs. split.
    + intros ->. cbn in Hs. rewrite size_empty in Hs. discriminate.
    + intros p q Hp Hq.
      apply (size_singleton_inv _ _ _ Hs); apply elem_of_list_to_set;
        apply list_elem_of_fmap; eauto.
  - intros [Hne Heq]. destruct l as [|p0 l]; [congruence|].
    assert (E : (list_to_set (map f (p0 :: l)) : gset (string * string))
                = {[f p0]}).
    { apply set_eq. intros x. rewrite elem_of_list_to_set, elem_of_singleton.
      split.
      - intros Hx. apply list_elem_of_fmap in Hx. destruct Hx as (p & -> & Hp).
        apply Heq; [assumption|left].
      - intros ->. apply list_elem_of_fmap. exists p0. split; [reflexivity|left]. }
    rewrite E. apply size_singleton.
Qed.

Lemma map_imap {A B C : Type} (f : B -> C) (g : nat -> A -> B) (l : list A) :
  map f (imap g l) = imap (fun i x => f (g i x)) l.
Proof.
  revert g. induction l as [|x l IH]; intros g; [reflexivity|].
  cbn [imap map]. f_equal. apply IH.
Qed.

Section ModeChoice.

Context {rt : Runtime}.
Variable cfg : Settings.
Variable yf_download :
  nat -> Z -> list string -> string -> string -> result dataframe.
Variable ticker_history :
  string -> string -> string -> option Z -> result (list frame_row).
Variable utcnow : nat -> date.
Variable order : list nat.
Variable conn : connection.

(** C3. For a non-empty plan the dispatcher announces bulk mode exactly
    when all entries have one and the same (start_date, end_date) pair and
    there is more than one entry, and per-symbol mode otherwise: two
    entries that differ in a date, or a single entry, give per-symbol
    mode. In bulk mode the run is [bulk_download], in per-symbol mode one
    worker per entry, unless [MAX_WORKERS] is not positive and the thread
    pool cannot be made. *)
Theorem C3_run_history_fetch_mode (plan : list plan_entry) :
  plan <> [] ->
  let run := run_history_fetch cfg yf_download ticker_history utcnow order conn plan in
  let uniform :=
    forall p q, p ∈ plan -> q ∈ plan ->
      (start_date p, end_date p) = (start_date q, end_date q) in
  (fst run = BulkMode <-> uniform /\ (1 < length plan)%nat)
  /\ (fst run = PerSymbolMode <-> ~ (uniform /\ (1 < length plan)%nat))
  /\ (forall p q, p ∈ plan -> q ∈ plan ->
        start_date p <> start_date q \/ end_date p <> end_date q ->
        fst run = PerSymbolMode)
  /\ (length plan = 1%nat -> fst run = PerSymbolMode)
  /\ (fst run = BulkMode ->
        snd run = bulk_download cfg yf_download (utcnow O) order conn plan)
  /\ (fst run = PerSymbolMode ->
        snd (snd run)
        = if MAX_WORKERS cfg <=? 0 then []
          else imap (fun i item =>
                       snd (fetch_symbol_rows cfg ticker_history (utcnow i) item))
                 plan).
Proof.
  intros Hne run uniform.
  assert (Hlen : (length plan =? 0)%nat = false).
  { destruct plan; [congruence|reflexivity]. }
  assert (Hsize : size (list_to_set
                          (map (fun p => (start_date p, end_date p)) plan)
                        : gset (string * string)) = 1%nat <-> uniform).
  { rewrite size_ranges_one. unfold uniform. tauto. }
  assert (Hrun : run =
    if (size (list_to_set (map (fun p => (start_date p, end_date p)) plan)
              : gset (string * string)) =? 1)%nat && (1 <? length plan)%nat
    then (BulkMode, bulk_download cfg yf_download (utcnow O) order conn plan)
    else
      match thread_pool (MAX_WORKERS cfg) with
      | Raise e => (PerSymbolMode, (Raise e, conn, []))
      | Ok _ =>
          (PerSymbolMode,
           (persist_completed conn
              (map fst (imap (fun i item =>
                 fetch_symbol_rows cfg ticker_history (utcnow i) item) plan)) order,
            map snd (imap (fun i item =>
                 fetch_symbol_rows cfg ticker_history (utcnow i) item) plan)))
      end).
  { unfold run, run_history_fetch. cbv zeta. rewrite Hlen. reflexivity. }
  assert (Hcond :
    (size (list_to_set (map (fun p => (start_date p, end_date p)) plan)
           : gset (string * string)) =? 1)%nat && (1 <? length plan)%nat = true
    <-> uniform /\ (1 < length plan)%nat).
  { rewrite andb_true_iff, Nat.eqb_eq, Nat.ltb_lt, Hsize. reflexivity. }
  destruct ((size _ =? 1)%nat && (1 <? length plan)%nat) eqn:Ec.
  - assert (Hu : uniform /\ (1 < length plan)%nat) by (now apply Hcond).
    rewrite Hrun. cbn [fst snd].
    split; [split; [intros _; exact Hu|reflexivity]|].
    split; [split; [discriminate|intros Hn; now destruct Hn]|].
    split.
    { intros p q Hp Hq Hd. exfalso. pose proof (proj1 Hu p q Hp Hq) as E.
      injection E as E1 E2. tauto. }
    split; [intros H1; lia|].
    split; [reflexivity|discriminate].
  - assert (Hu : ~ (uniform /\ (1 < length plan)%nat)).
    { intros Hu. apply Hcond in Hu. discriminate. }
    assert (Hmode : fst run = PerSymbolMode).
    { rewrite Hrun. destruct (thread_pool (MAX_WORKERS cfg)); reflexivity. }
    rewrite Hmode.
    split; [split; [discriminate|intros Hn; now destruct Hu]|].
    split; [split; [intros _; exact Hu|reflexivity]|].
    split; [reflexivity|]. split; [reflexivity|].
    split; [discriminate|]. intros _.
    rewrite Hrun. unfold thread_pool.
    destruct (MAX_WORKERS cfg <=? 0); cbn [fst snd]; [reflexivity|].
    apply map_imap.
Qed.

End ModeChoice.

(** ** The dispatcher: workers and persistence *)

Section ReplaceKeys.

Context {R K : Type} `{EqDecision K}.
Variable key : R -> K.

Lemma replace_into_keys_mono k row (tbl : list R) :
  k ∈ map key tbl -> k ∈ map key (replace_into key row tbl).
Proof.
  intros Hk. unfold replace_into. rewrite map_app. apply elem_of_app.
  destruct (decide (k = key row)) as [->|Hne].
  - right. cbn. left.
  - left. apply list_elem_of_fmap in Hk. destruct Hk as (r & -> & Hr).
    apply list_elem_of_fmap. exists r. split; [reflexivity|].
    apply list_elem_of_filter. split; [congruence|assumption].
Qed.

Lemma replace_into_keys_new row (tbl : list R) :
  key row ∈ map key (replace_into key row tbl).
Proof.
  unfold replace_into. rewrite map_app. apply elem_of_app. right. cbn. left.
Qed.

Lemma foldl_replace_keys_mono k (rows tbl : list R) :
  k ∈ map key tbl ->
  k ∈ map key (foldl (fun t r => replace_into key r t) tbl rows).
Proof.
  revert tbl. induction rows as [|r rows IH]; intros tbl Hk; [exact Hk|].
  cbn [foldl]. apply IH. now apply replace_into_keys_mono.
Qed.

Lemma foldl_replace_keys_new r (rows tbl : list R) :
  r ∈ rows ->
  key r ∈ map key (foldl (fun t r => replace_into key r t) tbl rows).
Proof.
  revert tbl. induction rows as [|r0 rows IH]; intros tbl Hr.
  - now apply elem_of_nil in Hr.
  - cbn [foldl]. apply elem_of_cons in Hr. destruct Hr as [->|Hr].
    + apply foldl_replace_keys_mono. apply replace_into_keys_new.
    + now apply IH.
Qed.

End ReplaceKeys.

Lemma insert_daily_history_settled conn rows :
  working conn = committed conn ->
  working (insert_daily_history conn rows)
  = committed (insert_daily_history conn rows).
Proof. intros H. destruct rows; [exact H|reflexivity]. Qed.

Lemma insert_daily_history_keys_mono conn rows k :
  working conn = committed conn ->
  k ∈ map bar_key (daily_history (committed conn)) ->
  k ∈ map bar_key (daily_history (committed (insert_daily_history conn rows))).
Proof.
  intros Hs Hk. destruct rows as [|r rows]; [exact Hk|].
  rewrite insert_daily_history_cons. apply foldl_replace_keys_mono.
  now rewrite Hs.
Qed.

Lemma insert_daily_history_keys_new conn rows r :
  r ∈ rows ->
  bar_key r ∈ map bar_key
    (daily_history (committed (insert_daily_history conn rows))).
Proof.
  intros Hr. destruct rows as [|r0 rows]; [now apply elem_of_nil in Hr|].
  rewrite insert_daily_history_cons. now apply foldl_replace_keys_new.
Qed.

(** The step of the persistence loop for the rows of one future. *)
Lemma persist_step_settled conn (rows : list bar) :
  working conn = committed conn ->
  let conn' := match rows with [] => conn | _ => insert_daily_history conn rows end in
  working conn' = committed conn'.
Proof. intros H. destruct rows; [exact H|reflexivity]. Qed.

Lemma persist_completed_skip conn results order i :
  results !! i = Some (Ok []) ->
  persist_completed conn results order
  = persist_completed conn results (filter (fun j => j <> i) order).
Proof.
  intros Hi. revert conn. induction order as [|j order IH]; intros conn;
    [reflexivity|].
  rewrite filter_cons. destruct (decide (j <> i)) as [Hne|He].
  - cbn [persist_completed]. destruct (results !! j) as [[rows|e]|];
      [apply IH|reflexivity|apply IH].
  - assert (j = i) as -> by (destruct (decide (j = i)); [assumption|tauto]).
    cbn [persist_completed]. rewrite Hi. apply IH.
Qed.

Lemma persist_completed_completes conn results order :
  Forall (fun r => exists rows, r = Ok rows) results ->
  fst (persist_completed conn results order) = Ok tt.
Proof.
  intros Hall. revert conn. induction order as [|j order IH]; intros conn;
    [reflexivity|].
  cbn [persist_completed]. destruct (results !! j) as [r|] eqn:Ej; [|apply IH].
  rewrite Forall_forall in Hall.
  destruct (Hall r (list_elem_of_lookup_2 _ _ _ Ej)) as [rows ->]. apply IH.
Qed.

Lemma persist_completed_keys_mono conn results order k :
  working conn = committed conn ->
  k ∈ map bar_key (daily_history (committed conn)) ->
  k ∈ map bar_key
        (daily_history (committed (snd (persist_completed conn results order)))).
Proof.
  revert conn. induction order as [|j order IH]; intros conn Hs Hk; [exact Hk|].
  cbn [persist_completed]. destruct (results !! j) as [[rows|e]|];
    [|exact Hk|now apply IH].
  apply IH.
  - now apply persist_step_settled.
  - destruct rows; [exact Hk|]. now apply insert_daily_history_keys_mono.
Qed.

Lemma persist_completed_keys conn results order j rows r :
  working conn = committed conn ->
  Forall (fun r => exists rows, r = Ok rows) results ->
  j ∈ order -> results !! j = Some (Ok rows) -> r ∈ rows ->
  bar_key r ∈ map bar_key
    (daily_history (committed (snd (persist_completed conn results order)))).
Proof.
  intros Hs Hall Hj Ej Hr. revert conn Hs.
  induction order as [|j0 order IH]; intros conn Hs;
    [now apply elem_of_nil in Hj|].
  cbn [persist_completed]. apply elem_of_cons in Hj.
  destruct (decide (j = j0)) as [<-|Hne].
  - rewrite Ej. apply persist_completed_keys_mono.
    + now apply persist_step_settled.
    + destruct rows as [|r0 rows0]; [now apply elem_of_nil in Hr|].
      now apply insert_daily_history_keys_new.
  - destruct Hj as [->|Hj]; [congruence|].
    destruct (results !! j0) as [r0|] eqn:Ej0; [|now apply IH].
    rewrite Forall_forall in Hall.
    destruct (Hall r0 (list_elem_of_lookup_2 _ _ _ Ej0)) as [rows0 ->].
    apply IH; [assumption|]. now apply persist_step_settled.
Qed.

Section WorkerFacts.

Context {rt : Runtime}.
Variable cfg : Settings.
Variable yf_download :
  nat -> Z -> list string -> string -> string -> result dataframe.
Variable ticker_history :
  string -> string -> string -> option Z -> result (list frame_row).

Lemma safe_float_cell r column :
  exists f, safe_float (row_get r column) = Ok f.
Proof.
  unfold safe_float, row_get. destruct (assoc column (cells r)); cbn; eauto.
Qed.

Lemma bar_of_row_total sym r :
  exists b, bar_of_row sym r = Ok b /\ bar_symbol b = sym
            /\ bar_date b = isoformat (idx r).
Proof.
  unfold bar_of_row.
  destruct (safe_float_cell r "Open") as [o ->].
  destruct (safe_float_cell r "High") as [h ->].
  destruct (safe_float_cell r "Low") as [l ->].
  destruct (safe_float_cell r "Close") as [c ->].
  destruct (safe_float_cell r "Volume") as [v ->].
  cbn. eauto.
Qed.

Lemma bars_of_rows_total sym rows :
  exists bs, bars_of_rows sym rows = Ok bs
    /\ length bs = length rows
    /\ Forall (fun b => bar_symbol b = sym) bs.
Proof.
  induction rows as [|r rows IH]; [exists []; repeat split; constructor|].
  destruct IH as (bs & E & Hl & Hs).
  destruct (bar_of_row_total sym r) as (b & Eb & Hb & _).
  cbn [bars_of_rows]. rewrite Eb, E. cbn [bind].
  exists (b :: bs). repeat split; [cbn; now rewrite Hl|now constructor].
Qed.

Lemma parse_tickers_total tickers batch :
  exists bs, parse_tickers tickers batch = Ok bs
    /\ Forall (fun b => bar_symbol b ∈ batch) bs.
Proof.
  induction batch as [|sym batch IH]; [exists []; split; [reflexivity|constructor]|].
  destruct IH as (bs' & E & Hs). cbn [parse_tickers].
  destruct (lookup_ticker sym tickers) as [rows|].
  - destruct (bars_of_rows_total sym (dropna_all rows)) as (bs & Eb & _ & Hb).
    rewrite Eb, E. cbn [bind]. exists (bs ++ bs'). split; [reflexivity|].
    apply Forall_app. split.
    + eapply Forall_impl; [exact Hb|]. intros b ->. left.
    + eapply Forall_impl; [exact Hs|]. intros b Hb'. now right.
  - rewrite E. exists bs'. split; [reflexivity|].
    eapply Forall_impl; [exact Hs|]. intros b Hb'. now right.
Qed.

Lemma parse_batch_df_total df batch :
  batch <> [] ->
  exists bs, _parse_batch_df df batch = Ok bs
    /\ Forall (fun b => bar_symbol b ∈ batch) bs.
Proof.
  intros Hne. destruct df as [tickers|rows]; cbn [_parse_batch_df].
  - apply parse_tickers_total.
  - destruct batch as [|sym batch]; [congruence|].
    destruct (bars_of_rows_total sym (dropna_all rows)) as (bs & E & _ & Hb).
    exists bs. split; [assumption|].
    eapply Forall_impl; [exact Hb|]. intros b ->. left.
Qed.

Lemma failed_attempts_S call n :
  failed_attempts call (S n)
  = failed_attempts call n ++ [call; Sleep (backoff (Z.of_nat (S n)))].
Proof.
  unfold failed_attempts. rewrite seq_S, flat_map_app. reflexivity.
Qed.

(** [n] failed attempts take the loop from attempt 0 to attempt [n]. *)
Lemma fetch_attempts_failures start epo i batch n :
  forall m,
  (forall k, (1 <= k <= n)%nat ->
     exists e, yf_download i (Z.of_nat k) batch start epo = Raise e) ->
  fetch_attempts yf_download start epo i batch (n + m) 0
  = (fst (fetch_attempts yf_download start epo i batch m (Z.of_nat n)),
     failed_attempts (Download i batch start epo) n
     ++ snd (fetch_attempts yf_download start epo i batch m (Z.of_nat n))).
Proof.
  induction n as [|n IH]; intros m Hfail.
  - cbn. change (Z.of_nat 0) with 0.
    now destruct (fetch_attempts yf_download start epo i batch m 0).
  - replace (S n + m)%nat with (n + S m)%nat by lia.
    rewrite IH by (intros k Hk; apply Hfail; lia).
    cbn [fetch_attempts].
    replace (Z.of_nat n + 1) with (Z.of_nat (S n)) by lia.
    destruct (Hfail (S n) ltac:(lia)) as [e ->].
    destruct (fetch_attempts yf_download start epo i batch m (Z.of_nat (S n)))
      as [r log].
    cbn [fst snd]. f_equal. rewrite failed_attempts_S, <- app_assoc. reflexivity.
Qed.

Lemma fetch_batch_rows_answer start epo i batch n df :
  (n < Z.to_nat (BULK_MAX_RETRIES cfg))%nat ->
  (forall k, (1 <= k <= n)%nat ->
     exists e, yf_download i (Z.of_nat k) batch start epo = Raise e) ->
  yf_download i (Z.of_nat (S n)) batch start epo = Ok df ->
  fetch_batch_rows cfg yf_download start epo i batch
  = (if df_empty df then Ok [] else _parse_batch_df df batch,
     failed_attempts (Download i batch start epo) n
     ++ [Download i batch start epo]).
Proof.
  intros Hn Hfail Hok. unfold fetch_batch_rows.
  replace (Z.to_nat (BULK_MAX_RETRIES cfg))
    with (n + S (Z.to_nat (BULK_MAX_RETRIES cfg) - S n))%nat by lia.
  rewrite fetch_attempts_failures by assumption.
  cbn [fetch_attempts].
  replace (Z.of_nat n + 1) with (Z.of_nat (S n)) by lia. rewrite Hok.
  destruct (df_empty df); reflexivity.
Qed.

Lemma fetch_batch_rows_exhausted start epo i batch :
  (forall k, (1 <= k <= Z.to_nat (BULK_MAX_RETRIES cfg))%nat ->
     exists e, yf_download i (Z.of_nat k) batch start epo = Raise e) ->
  fetch_batch_rows cfg yf_download start epo i batch
  = (Ok [], failed_attempts (Download i batch start epo)
              (Z.to_nat (BULK_MAX_RETRIES cfg))).
Proof.
  intros Hfail. unfold fetch_batch_rows.
  replace (Z.to_nat (BULK_MAX_RETRIES cfg))
    with (Z.to_nat (BULK_MAX_RETRIES cfg) + 0)%nat at 1 by lia.
  rewrite fetch_attempts_failures by assumption.
  cbn [fetch_attempts fst snd]. now rewrite app_nil_r.
Qed.

Lemma fetch_attempts_total start epo i batch remaining :
  batch <> [] ->
  forall attempt,
  exists rows,
    fst (fetch_attempts yf_download start epo i batch remaining attempt) = Ok rows
    /\ Forall (fun b => bar_symbol b ∈ batch) rows.
Proof.
  intros Hne. induction remaining as [|remaining IH]; intros attempt.
  - exists []. split; [reflexivity|constructor].
  - cbn [fetch_attempts].
    destruct (yf_download i (attempt + 1) batch start epo) as [df|e].
    + destruct (df_empty df); cbn [fst].
      * exists []. split; [reflexivity|constructor].
      * now apply parse_batch_df_total.
    + destruct (IH (attempt + 1)) as (rows & E & Hs).
      destruct (fetch_attempts yf_download start epo i batch remaining (attempt + 1)).
      cbn [fst] in *. eauto.
Qed.



End WorkerFacts.

(** ** Batching *)




(** the number of batches of [len] symbols *)
Lemma py_range_chunks (len B : Z) :
  0 < B -> 0 <= len ->
  exists cnt : nat,
    py_range 0 len B = Ok (map (fun k => 0 + Z.of_nat k * B) (seq 0 cnt))
    /\ len <= Z.of_nat cnt * B
    /\ (forall k : nat, (k < cnt)%nat -> Z.of_nat k * B < len).
Proof.
  intros HB Hlen. unfold py_range.
  replace (B =? 0) with false by (symmetry; apply Z.eqb_neq; lia).
  replace (0 <? B) with true by (symmetry; apply Z.ltb_lt; lia).
  destruct (0 <? len) eqn:El.
  - apply Z.ltb_lt in El.
    exists (Z.to_nat ((len - 0 - 1) / B + 1)). split; [reflexivity|].
    assert (Hq : 0 <= (len - 0 - 1) / B) by (apply Z.div_pos; lia).
    pose proof (Z.div_mod (len - 0 - 1) B ltac:(lia)) as Hdm.
    pose proof (Z.mod_pos_bound (len - 0 - 1) B HB) as Hmod.
    split.
    + rewrite Z2Nat.id by lia. nia.
    + intros k Hk. assert (Z.of_nat k <= (len - 0 - 1) / B) by lia. nia.
  - apply Z.ltb_ge in El. exists 0%nat. split; [reflexivity|].
    split; [lia|]. intros k Hk. lia.
Qed.

Section Batching.

Variable cfg : Settings.

Lemma make_batches_chunks (symbols : list string) :
  0 < BULK_BATCH_SIZE cfg ->
  exists cnt : nat,
    make_batches cfg symbols
    = Ok (map (fun k => take (Z.to_nat (BULK_BATCH_SIZE cfg))
                          (drop (k * Z.to_nat (BULK_BATCH_SIZE cfg)) symbols))
            (seq 0 cnt))
    /\ (length symbols <= cnt * Z.to_nat (BULK_BATCH_SIZE cfg))%nat
    /\ (forall k, k < cnt -> k * Z.to_nat (BULK_BATCH_SIZE cfg) < length symbols)%nat.
Proof.
  intros HB. unfold make_batches.
  destruct (py_range_chunks (Z.of_nat (length symbols)) (BULK_BATCH_SIZE cfg)
              HB ltac:(lia)) as (cnt & -> & Hup & Hlow).
  cbn [bind]. exists cnt. split; [|split].
  - f_equal. rewrite map_map. apply map_ext. intros k. unfold py_slice.
    f_equal.
    + rewrite !Z2Nat.inj_add, Z2Nat.inj_mul, Nat2Z.id by lia. lia.
    + f_equal. rewrite Z2Nat.inj_add, Z2Nat.inj_mul, Nat2Z.id by lia. lia.
  - apply Nat2Z.inj_le. rewrite Nat2Z.inj_mul, Z2Nat.id by lia. exact Hup.
  - intros k Hk. apply Nat2Z.inj_lt. rewrite Nat2Z.inj_mul, Z2Nat.id by lia.
    now apply Hlow.
Qed.


End Batching.
Lemma strftime_isoformat d : 1000 <= year d -> strftime_Ymd d = isoformat d.
Proof.
  intros Hy. unfold strftime_Ymd, isoformat.
  now replace (year d <? 1000) with false by (symmetry; apply Z.ltb_ge; lia).
Qed.

Lemma year_mono a b :
  valid a = true -> valid b = true -> toordinal a <= toordinal b ->
  year a <= year b.
Proof.
  intros Va Vb Hle. destruct (Z.le_gt_cases (year a) (year b)) as [H|H];
    [exact H|].
  pose proof (ymd2ord_lt_year _ _ _ _ _ _ Vb Va ltac:(lia)) as Hlt.
  unfold toordinal in Hle. lia.
Qed.


Section BulkMode.

Context {rt : Runtime}.
Variable cfg : Settings.
Variable yf_download :
  nat -> Z -> list string -> string -> string -> result dataframe.

Lemma bulk_download_unfold now order conn first rest epo batches :
  0 < BULK_WORKERS cfg ->
  end_plus_one_of now (end_date first) = Ok epo ->
  make_batches cfg (map plan_symbol (first :: rest)) = Ok batches ->
  bulk_download cfg yf_download now order conn (first :: rest)
  = (persist_completed conn
       (imap (fun i batch =>
                fst (fetch_batch_rows cfg yf_download (start_date first) epo i batch))
          batches) order,
     imap (fun i batch =>
             snd (fetch_batch_rows cfg yf_download (start_date first) epo i batch))
       batches).
Proof.
  intros Hw E1 E2. unfold bulk_download, thread_pool. rewrite E1, E2.
  replace (BULK_WORKERS cfg <=? 0) with false by (symmetry; apply Z.leb_gt; lia).
  now rewrite !map_imap.
Qed.

(** Without a positive [BULK_WORKERS] the thread pool cannot be made. *)
Lemma bulk_download_no_pool now order conn first rest epo batches :
  BULK_WORKERS cfg <= 0 ->
  end_plus_one_of now (end_date first) = Ok epo ->
  make_batches cfg (map plan_symbol (first :: rest)) = Ok batches ->
  bulk_download cfg yf_download now order conn (first :: rest)
  = (Raise ValueError, conn, []).
Proof.
  intros Hw E1 E2. unfold bulk_download, thread_pool. rewrite E1, E2.
  now replace (BULK_WORKERS cfg <=? 0) with true by (symmetry; apply Z.leb_le; lia).
Qed.


End BulkMode.

Lemma backoff_linear k : 0 <= k <= 10 -> (backoff k == inject_Z k / 2)%Q.
Proof.
  intros Hk. unfold backoff.
  rewrite Q.min_r.
  - unfold Qeq, Qdiv, Qmult, Qinv, inject_Z. cbn. lia.
  - unfold Qle, Qmult, inject_Z. cbn. lia.
Qed.

Lemma backoff_capped k : 10 <= k -> (backoff k == 5)%Q.
Proof.
  intros Hk. unfold backoff. rewrite Q.min_l; [reflexivity|].
  unfold Qle, Qmult, inject_Z. cbn. lia.
Qed.

Section BulkIsolation.

Context {rt : Runtime}.
Variable cfg : Settings.
Variable yf_download :
  nat -> Z -> list string -> string -> string -> result dataframe.

Lemma bulk_results_Ok start epo batches :
  Forall (fun batch : list string => batch <> []) batches ->
  Forall (fun r : result (list bar) => exists rows, r = Ok rows)
    (imap (fun i batch =>
             fst (fetch_batch_rows cfg yf_download start epo i batch)) batches).
Proof.
  intros Hne. apply Forall_forall. intros r Hr.
  apply list_elem_of_lookup in Hr. destruct Hr as [i Hi].
  rewrite list_lookup_imap in Hi.
  destruct (batches !! i) as [batch|] eqn:Eb; [|discriminate].
  cbn in Hi. injection Hi as <-.
  rewrite Forall_forall in Hne.
  destruct (fetch_attempts_total yf_download start epo i batch
              (Z.to_nat (BULK_MAX_RETRIES cfg))
              (Hne batch (list_elem_of_lookup_2 _ _ _ Eb)) 0) as (rows & E & _).
  eauto.
Qed.

(** C4. A batch worker repeats a download that raised after waiting
    [min(5.0, 0.5 * attempt)] seconds, for at most [BULK_MAX_RETRIES]
    attempts (3 by default): if the attempts 1..n raise and attempt n+1
    answers, the log is n times (download, wait) and one more download,
    and the answer ends the batch, with zero rows and no further call when
    the frame is empty; if all attempts raise the batch ends with zero
    rows after [BULK_MAX_RETRIES] downloads. In a bulk run with a positive
    number of workers in which every worker returns (no frame fails to
    parse), the run completes; a batch whose attempts all raised leaves
    the database as a run without that batch would, and every row that
    another batch returned has its key stored when the run ends. *)
Theorem C4_bulk_retry_and_isolation :
  (forall start epo i batch n df,
     (n < Z.to_nat (BULK_MAX_RETRIES cfg))%nat ->
     (forall k, (1 <= k <= n)%nat ->
        exists e, yf_download i (Z.of_nat k) batch start epo = Raise e) ->
     yf_download i (Z.of_nat (S n)) batch start epo = Ok df ->
     fetch_batch_rows cfg yf_download start epo i batch
     = (if df_empty df then Ok [] else _parse_batch_df df batch,
        failed_attempts (Download i batch start epo) n
        ++ [Download i batch start epo]))
  /\ (forall start epo i batch,
        (forall k, (1 <= k <= Z.to_nat (BULK_MAX_RETRIES cfg))%nat ->
           exists e, yf_download i (Z.of_nat k) batch start epo = Raise e) ->
        fetch_batch_rows cfg yf_download start epo i batch
        = (Ok [], failed_attempts (Download i batch start epo)
                    (Z.to_nat (BULK_MAX_RETRIES cfg))))
  /\ (forall k, 0 <= k <= 10 -> (backoff k == inject_Z k / 2)%Q)
  /\ (forall k, 10 <= k -> (backoff k == 5)%Q)
  /\ BULK_MAX_RETRIES default_settings = 3
  /\ (forall now order conn first rest epo batches,
        working conn = committed conn ->
        0 < BULK_WORKERS cfg ->
        end_plus_one_of now (end_date first) = Ok epo ->
        make_batches cfg (map plan_symbol (first :: rest)) = Ok batches ->
        (forall i batch,
           batches !! i = Some batch ->
           exists rows,
             fst (fetch_batch_rows cfg yf_download (start_date first) epo i batch)
             = Ok rows) ->
        let run := fun order =>
          fst (bulk_download cfg yf_download now order conn (first :: rest)) in
        fst (run order) = Ok tt
        /\ (forall i batch,
              batches !! i = Some batch ->
              (forall k, (1 <= k <= Z.to_nat (BULK_MAX_RETRIES cfg))%nat ->
                 exists e,
                   yf_download i (Z.of_nat k) batch (start_date first) epo
                   = Raise e) ->
              run order = run (filter (fun j => j <> i) order))
        /\ (forall j batch rows r,
              j ∈ order -> batches !! j = Some batch ->
              fst (fetch_batch_rows cfg yf_download (start_date first) epo j batch)
              = Ok rows ->
              r ∈ rows ->
              bar_key r ∈ map bar_key
                (daily_history (committed (snd (run order)))))).
Proof.
  split; [apply fetch_batch_rows_answer|].
  split; [apply fetch_batch_rows_exhausted|].
  split; [apply backoff_linear|]. split; [apply backoff_capped|].
  split; [reflexivity|].
  intros now order conn first rest epo batches Hs HW Ee Em Hret run.
  assert (Hrun : forall o, run o =
            persist_completed conn
              (imap (fun i batch =>
                       fst (fetch_batch_rows cfg yf_download (start_date first)
                              epo i batch)) batches) o).
  { intros o. unfold run.
    now rewrite (bulk_download_unfold cfg yf_download now o conn first rest epo
                   batches HW Ee Em). }
  assert (Hok : Forall (fun r : result (list bar) => exists rows, r = Ok rows)
            (imap (fun i batch =>
                     fst (fetch_batch_rows cfg yf_download (start_date first)
                            epo i batch)) batches)).
  { apply Forall_forall. intros r Hr.
    apply list_elem_of_lookup in Hr. destruct Hr as [i Hi].
    rewrite list_lookup_imap in Hi.
    destruct (batches !! i) as [batch|] eqn:Eb; [|discriminate].
    cbn in Hi. injection Hi as <-. exact (Hret i batch Eb). }
  split; [|split].
  - rewrite Hrun. now apply persist_completed_completes.
  - intros i batch Hi Hfail. rewrite !Hrun. apply persist_completed_skip.
    rewrite list_lookup_imap, Hi. cbn.
    now rewrite (fetch_batch_rows_exhausted cfg yf_download _ _ _ _ Hfail).
  - intros j batch rows r Hj Eb Er Hr. rewrite Hrun.
    apply (persist_completed_keys conn _ order j rows r Hs Hok Hj); [|exact Hr].
    rewrite list_lookup_imap, Eb. cbn. now rewrite Er.
Qed.

End BulkIsolation.

Section PerSymbolMode.

Context {rt : Runtime}.
Variable cfg : Settings.
Variable ticker_history :
  string -> string -> string -> option Z -> result (list frame_row).

Lemma run_history_fetch_per_symbol yf_download utcnow order conn plan :
  fst (run_history_fetch cfg yf_download ticker_history utcnow order conn plan)
  = PerSymbolMode ->
  0 < MAX_WORKERS cfg ->
  fst (snd (run_history_fetch cfg yf_download ticker_history utcnow order
              conn plan))
  = persist_completed conn
      (imap (fun i item =>
               fst (fetch_symbol_rows cfg ticker_history (utcnow i) item)) plan)
      order.
Proof.
  unfold run_history_fetch, thread_pool. cbv zeta.
  destruct (length plan =? 0)%nat; [discriminate|].
  destruct ((size _ =? 1)%nat && (1 <? length plan)%nat); [discriminate|].
  intros _ Hw.
  replace (MAX_WORKERS cfg <=? 0) with false by (symmetry; apply Z.leb_gt; lia).
  cbn [fst snd]. now rewrite map_imap.
Qed.

Lemma run_history_fetch_no_pool yf_download utcnow order conn plan :
  fst (run_history_fetch cfg yf_download ticker_history utcnow order conn plan)
  = PerSymbolMode ->
  MAX_WORKERS cfg <= 0 ->
  snd (run_history_fetch cfg yf_download ticker_history utcnow order conn plan)
  = (Raise ValueError, conn, []).
Proof.
  unfold run_history_fetch, thread_pool. cbv zeta.
  destruct (length plan =? 0)%nat; [discriminate|].
  destruct ((size _ =? 1)%nat && (1 <? length plan)%nat); [discriminate|].
  intros _ Hw.
  now replace (MAX_WORKERS cfg <=? 0) with true by (symmetry; apply Z.leb_le; lia).
Qed.

(** C5, amended. With a window whose end has a next day, the worker of
    the per-symbol mode calls the quote source once, with the timeout: an
    exception other than TypeError, or an empty frame, gives zero rows
    after that single call; a frame with rows gives one bar per row. When
    the first call raises TypeError the worker calls the source a second
    time without the timeout argument and treats the frame of that call in
    the same way. With a positive [MAX_WORKERS], workers that return do
    not stop the run: it completes, a worker with zero rows leaves the
    database as a run without it would, and every row of another worker
    has its key stored at the end. *)
Theorem C5_per_symbol_worker_contains_failures :
  (forall now item epo,
     end_plus_one_of now (end_date item) = Ok epo ->
     let sym := plan_symbol item in
     let call1 := History sym (start_date item) epo (Some (REQUEST_TIMEOUT cfg)) in
     let call2 := History sym (start_date item) epo None in
     let first := ticker_history sym (start_date item) epo
                    (Some (REQUEST_TIMEOUT cfg)) in
     let second := ticker_history sym (start_date item) epo None in
     let worker := fetch_symbol_rows cfg ticker_history now item in
     (forall e, first = Raise e -> e <> TypeError -> worker = (Ok [], [call1]))
     /\ (forall df, first = Ok df -> rows_empty df = true ->
           worker = (Ok [], [call1]))
     /\ (forall df, first = Ok df -> rows_empty df = false ->
           exists rows, worker = (Ok rows, [call1])
             /\ length rows = length df
             /\ Forall (fun b => bar_symbol b = sym) rows)
     /\ (first = Raise TypeError ->
         forall df, second = Ok df ->
           exists rows, worker = (Ok rows, [call1; call2])
             /\ (rows_empty df = true -> rows = [])
             /\ (rows_empty df = false -> length rows = length df)))
  /\ (forall yf_download utcnow order conn plan,
        let results :=
          imap (fun i item =>
                  fst (fetch_symbol_rows cfg ticker_history (utcnow i) item))
            plan in
        let run := run_history_fetch cfg yf_download ticker_history utcnow
                     order conn plan in
        (fst run = PerSymbolMode ->
         0 < MAX_WORKERS cfg ->
           fst (snd run) = persist_completed conn results order)
        /\
        (working conn = committed conn ->
        Forall (fun r => exists rows, r = Ok rows) results ->
        fst (persist_completed conn results order) = Ok tt
        /\ (forall i, results !! i = Some (Ok []) ->
              persist_completed conn results order
              = persist_completed conn results
                  (filter (fun j => j <> i) order))
        /\ (forall j rows r,
              j ∈ order -> results !! j = Some (Ok rows) -> r ∈ rows ->
              bar_key r ∈ map bar_key
                (daily_history
                   (committed (snd (persist_completed conn results order))))))).
Proof.
  split.
  - intros now item epo Ee sym call1 call2 first second worker.
    unfold worker, fetch_symbol_rows. rewrite Ee. cbv zeta.
    fold sym. fold first. fold second. fold call1. fold call2.
    split; [|split; [|split]].
    + intros e -> Hne. destruct e; try reflexivity. congruence.
    + intros df -> Hempty. now rewrite Hempty.
    + intros df -> Hempty. rewrite Hempty.
      destruct (bars_of_rows_total sym df) as (rows & -> & Hl & Hs). eauto.
    + intros -> df ->. destruct (rows_empty df) eqn:Hempty.
      * exists []. repeat split; try reflexivity. discriminate.
      * destruct (bars_of_rows_total sym df) as (rows & -> & Hl & Hs).
        exists rows. repeat split; [discriminate|auto].
  - intros yf_download utcnow order conn plan results run.
    split; [apply run_history_fetch_per_symbol|].
    intros Hs Hok. split; [|split].
    + now apply persist_completed_completes.
    + intros i Hi. now apply persist_completed_skip.
    + intros j rows r Hj Ej Hr.
      now apply (persist_completed_keys conn results order j rows r).
Qed.

End PerSymbolMode.

(** *** The dispatcher on sample plans *)

Example mode_uniform_plan :
  fst (run_history_fetch (rt := Sample.runtime) default_settings
         Sample.flaky_download Sample.no_history Sample.steady_clock [0; 1]%nat
         Sample.fresh_conn Sample.uniform_plan)
  = BulkMode.
Proof. vm_compute. reflexivity. Qed.

Example mode_mixed_plan :
  fst (run_history_fetch (rt := Sample.runtime) default_settings
         Sample.flaky_download Sample.no_history Sample.steady_clock [0; 1]%nat
         Sample.fresh_conn Sample.mixed_plan)
  = PerSymbolMode.
Proof. vm_compute. reflexivity. Qed.

Example mode_single_entry :
  fst (run_history_fetch (rt := Sample.runtime) default_settings
         Sample.flaky_download Sample.no_history Sample.steady_clock [0]%nat
         Sample.fresh_conn [mkplan "BTC-USD" "2024-06-08" "2024-06-10"])
  = PerSymbolMode.
Proof. vm_compute. reflexivity. Qed.

Lemma C3_witness :
  Sample.uniform_plan <> []
  /\ fst (run_history_fetch (rt := Sample.runtime) default_settings
            Sample.flaky_download Sample.no_history Sample.steady_clock
            [0; 1]%nat Sample.fresh_conn [mkplan "BTC-USD" "2024-06-08" "2024-06-10"])
     = PerSymbolMode.
Proof.
  split; [discriminate|].
  assert (H : [mkplan "BTC-USD" "2024-06-08" "2024-06-10"] <> []) by discriminate.
  destruct (C3_run_history_fetch_mode (rt := Sample.runtime) default_settings
              Sample.flaky_download Sample.no_history Sample.steady_clock
              [0; 1]%nat Sample.fresh_conn
              [mkplan "BTC-USD" "2024-06-08" "2024-06-10"] H)
    as (_ & _ & _ & Hone & _).
  exact (Hone eq_refl).
Defined.

(** The bulk run of the uniform plan with batches of one symbol: batch 0
    is given up after three downloads and three waits, batch 1 answers at
    the third attempt. Its two bars are stored. *)
Example bulk_download_flaky :
  bulk_download (rt := Sample.runtime) Sample.one_per_batch
    Sample.flaky_download Sample.today [1; 0]%nat Sample.fresh_conn
    Sample.uniform_plan
  = (Ok tt,
     insert_daily_history Sample.fresh_conn
       [mkbar "ETH-USD" "2024-06-08" 1%float 2%float 0.5%float 1.5%float 1000%float;
        mkbar "ETH-USD" "2024-06-09" 1%float 2%float 0.5%float 1.5%float 1000%float],
     [[Download 0 ["BTC-USD"] "2024-06-08" "2024-06-11"; Sleep (backoff 1);
       Download 0 ["BTC-USD"] "2024-06-08" "2024-06-11"; Sleep (backoff 2);
       Download 0 ["BTC-USD"] "2024-06-08" "2024-06-11"; Sleep (backoff 3)];
      [Download 1 ["ETH-USD"] "2024-06-08" "2024-06-11"; Sleep (backoff 1);
       Download 1 ["ETH-USD"] "2024-06-08" "2024-06-11"; Sleep (backoff 2);
       Download 1 ["ETH-USD"] "2024-06-08" "2024-06-11"]]).
Proof. vm_compute. reflexivity. Qed.

Lemma C4_witness :
  (forall k, (1 <= k <= Z.to_nat (BULK_MAX_RETRIES Sample.one_per_batch))%nat ->
     exists e, Sample.flaky_download 0 (Z.of_nat k) ["BTC-USD"]
                 "2024-06-08" "2024-06-11" = Raise e)
  /\ fetch_batch_rows (rt := Sample.runtime) Sample.one_per_batch
       Sample.flaky_download "2024-06-08" "2024-06-11" 0 ["BTC-USD"]
     = (Ok [], failed_attempts
                 (Download 0 ["BTC-USD"] "2024-06-08" "2024-06-11") 3)
  /\ 0 < BULK_WORKERS Sample.one_per_batch
  /\ fst (fst (bulk_download (rt := Sample.runtime) Sample.one_per_batch
                 Sample.flaky_download Sample.today [1; 0]%nat
                 Sample.fresh_conn Sample.uniform_plan))
     = Ok tt.
Proof.
  assert (H : forall k,
            (1 <= k <= Z.to_nat (BULK_MAX_RETRIES Sample.one_per_batch))%nat ->
            exists e, Sample.flaky_download 0 (Z.of_nat k) ["BTC-USD"]
                        "2024-06-08" "2024-06-11" = Raise e).
  { intros k _. eexists. reflexivity. }
  assert (HW : 0 < BULK_WORKERS Sample.one_per_batch) by reflexivity.
  assert (Hs : working Sample.fresh_conn = committed Sample.fresh_conn)
    by reflexivity.
  assert (Ee : end_plus_one_of Sample.today "2024-06-10" = Ok "2024-06-11")
    by reflexivity.
  assert (Em : make_batches Sample.one_per_batch ["BTC-USD"; "ETH-USD"]
               = Ok [["BTC-USD"]; ["ETH-USD"]]) by reflexivity.
  assert (Hret : forall i batch,
            [["BTC-USD"]; ["ETH-USD"]] !! i = Some batch ->
            exists rows,
              fst (fetch_batch_rows (rt := Sample.runtime) Sample.one_per_batch
                     Sample.flaky_download "2024-06-08" "2024-06-11" i batch)
              = Ok rows).
  { intros [|[|i]] batch Hb; cbn in Hb; try discriminate;
      injection Hb as <-; eexists; vm_compute; reflexivity. }
  split; [exact H|].
  destruct (C4_bulk_retry_and_isolation (rt := Sample.runtime)
              Sample.one_per_batch Sample.flaky_download)
    as (_ & Hex & _ & _ & _ & Hrun).
  split; [exact (Hex "2024-06-08" "2024-06-11" 0%nat ["BTC-USD"] H)|].
  split; [exact HW|].
  exact (proj1 (Hrun Sample.today [1; 0]%nat Sample.fresh_conn
                  (mkplan "BTC-USD" "2024-06-08" "2024-06-10")
                  [mkplan "ETH-USD" "2024-06-08" "2024-06-10"]
                  "2024-06-11" [["BTC-USD"]; ["ETH-USD"]] Hs HW Ee Em Hret)).
Defined.


(** *** The per-symbol worker on sample sources *)

Example worker_retries_after_TypeError :
  fetch_symbol_rows (rt := Sample.runtime) default_settings
    Sample.retried_history Sample.today
    (mkplan "BTC-USD" "2024-06-09" "2024-06-10")
  = (Ok [mkbar "BTC-USD" "2024-06-09" 1%float 2%float 0.5%float 1.5%float 1000%float;
         mkbar "BTC-USD" "2024-06-10" 1%float 2%float 0.5%float 1.5%float 1000%float],
     [History "BTC-USD" "2024-06-09" "2024-06-11" (Some 20);
      History "BTC-USD" "2024-06-09" "2024-06-11" None]).
Proof. vm_compute. reflexivity. Qed.

(** C5, as stated, fails when the quote source raises TypeError: the
    worker calls the source a second time, and what the second call
    raises leaves the worker, ends the run and keeps the rows of the
    other symbol from being stored. *)
Lemma C5_counterexample_TypeError :
  (exists rows,
     fetch_symbol_rows (rt := Sample.runtime) default_settings
       Sample.retried_history Sample.today
       (mkplan "BTC-USD" "2024-06-09" "2024-06-10")
     = (Ok rows,
        [History "BTC-USD" "2024-06-09" "2024-06-11" (Some 20);
         History "BTC-USD" "2024-06-09" "2024-06-11" None])
     /\ rows <> [])
  /\ fst (fetch_symbol_rows (rt := Sample.runtime) default_settings
            Sample.legacy_history Sample.today
            (mkplan "BAD-USD" "2024-06-08" "2024-06-10"))
     = Raise (OtherError "ConnectionError")
  /\ run_history_fetch (rt := Sample.runtime) default_settings
       Sample.no_download Sample.legacy_history Sample.steady_clock
       [0; 1]%nat Sample.fresh_conn Sample.mixed_plan
     = (PerSymbolMode,
        (Raise (OtherError "ConnectionError"), Sample.fresh_conn,
         [[History "BAD-USD" "2024-06-08" "2024-06-11" (Some 20);
           History "BAD-USD" "2024-06-08" "2024-06-11" None];
          [History "GOOD-USD" "2024-06-09" "2024-06-11" (Some 20)]])).
Proof.
  split; [|split].
  - eexists. split; [vm_compute; reflexivity|discriminate].
  - vm_compute. reflexivity.
  - vm_compute. reflexivity.
Qed.

Lemma C5_witness :
  end_plus_one_of Sample.today "2024-06-10" = Ok "2024-06-11"
  /\ fetch_symbol_rows (rt := Sample.runtime) default_settings
       Sample.no_history Sample.today
       (mkplan "BTC-USD" "2024-06-09" "2024-06-10")
     = (Ok [], [History "BTC-USD" "2024-06-09" "2024-06-11" (Some 20)]).
Proof.
  assert (H : end_plus_one_of Sample.today "2024-06-10" = Ok "2024-06-11")
    by reflexivity.
  split; [exact H|].
  destruct (C5_per_symbol_worker_contains_failures (rt := Sample.runtime)
              default_settings Sample.no_history) as [Hw _].
  destruct (Hw Sample.today (mkplan "BTC-USD" "2024-06-09" "2024-06-10")
              "2024-06-11" H) as (_ & Hempty & _).
  exact (Hempty [] eq_refl eq_refl).
Defined.
(** ** Batches of upserts *)



Section UpsertShape.

Context {R K : Type} `{EqDecision K}.
Variable key : R -> K.


Lemma foldl_replace_keys_in (rows tbl : list R) k :
  k ∈ map key (foldl (fun t r => replace_into key r t) tbl rows) ->
  k ∈ map key tbl \/ k ∈ map key rows.
Proof.
  revert tbl. induction rows as [|r rows IH]; intros tbl Hk; [left; exact Hk|].
  cbn [foldl] in Hk. apply IH in Hk as [Hk|Hk].
  - unfold replace_into in Hk. rewrite map_app in Hk.
    apply elem_of_app in Hk as [Hk|Hk].
    + left. apply list_elem_of_fmap in Hk as (x & -> & Hx).
      apply list_elem_of_filter in Hx as [_ Hx].
      apply list_elem_of_fmap. exists x. split; [reflexivity|exact Hx].
    + right. cbn in Hk. apply list_elem_of_singleton in Hk as ->. cbn. left.
  - right. cbn. right. exact Hk.
Qed.


Lemma foldl_replace_NoDup (rows tbl : list R) :
  NoDup (map key tbl) ->
  NoDup (map key (foldl (fun t r => replace_into key r t) tbl rows)).
Proof.
  revert tbl. induction rows as [|r rows IH]; intros tbl Hnd; [exact Hnd|].
  cbn [foldl]. apply IH. now apply replace_into_keys_NoDup.
Qed.

End UpsertShape.

Lemma insert_daily_history_table conn rows :
  daily_history (working (insert_daily_history conn rows))
  = foldl (fun t r => replace_into bar_key r t) (daily_history (working conn)) rows.
Proof. destruct rows; reflexivity. Qed.

Lemma insert_daily_history_coins conn rows :
  coins (working (insert_daily_history conn rows)) = coins (working conn).
Proof. destruct rows; reflexivity. Qed.



Lemma string_le_empty d : String.le d "" -> d = "".
Proof.
  intros H. apply (anti_symm String.le); [exact H|].
  unfold String.le, String.leb. destruct d; exact I.
Qed.

Lemma elem_of_keys (tbl : list bar) s d :
  (s, d) ∈ map bar_key tbl
  <-> exists b, b ∈ tbl /\ bar_symbol b = s /\ bar_date b = d.
Proof.
  split.
  - intros H. apply list_elem_of_fmap in H as (b & E & Hb).
    exists b. unfold bar_key in E. inversion E. auto.
  - intros (b & Hb & <- & <-). apply list_elem_of_fmap. exists b. auto.
Qed.

(** A symbol with a stored bar of non-empty date is covered, at least
    until that date. *)
Lemma get_last_dates_covers conn s d :
  (s, d) ∈ map bar_key (daily_history (working conn)) -> d <> "" ->
  exists d', get_last_dates conn !! s = Some d' /\ String.le d d'.
Proof.
  intros Hk Hne. apply elem_of_keys in Hk as (b & Hb & Hs & Hd).
  pose proof (newest_of_foldl (daily_history (working conn)) s) as Hm.
  destruct (foldl newest ∅ (daily_history (working conn)) !! s) as [d'|] eqn:E.
  - destruct Hm as [Hex Hmax]. exists d'.
    assert (Hle : String.le d d') by (rewrite <- Hd; now apply Hmax).
    split; [|exact Hle].
    unfold get_last_dates. apply map_lookup_filter_Some. split; [exact E|].
    cbn. intros ->. apply string_le_empty in Hle. contradiction.
  - exfalso. exact (Hm b Hb Hs).
Qed.

(** X3. The coverage map gives a symbol the greatest date text stored for
    it: a stored date of the symbol, not empty, that no stored date of the
    symbol exceeds. A symbol has no entry exactly when it has no stored
    bar with a non-empty date. *)
Theorem get_last_dates_is_greatest_date (conn : connection) (s : string) :
  let stored d := (s, d) ∈ map bar_key (daily_history (working conn)) in
  (forall d, get_last_dates conn !! s = Some d
             <-> d <> "" /\ stored d /\ forall d', stored d' -> String.le d' d)
  /\ (get_last_dates conn !! s = None <-> forall d, stored d -> d = "").
Proof.
  cbv zeta. split.
  - intros d. rewrite get_last_dates_spec. rewrite elem_of_keys.
    split; intros (Hne & Hex & Hmax); (split; [exact Hne|split; [exact Hex|]]).
    + intros d' Hd'. apply elem_of_keys in Hd' as (b & Hb & Hs & <-).
      now apply Hmax.
    + intros b Hb Hs. apply Hmax. apply elem_of_keys. exists b. auto.
  - split.
    + intros Hnone d Hd. destruct (decide (d = "")) as [E|Hne]; [exact E|].
      destruct (get_last_dates_covers conn s d Hd Hne) as (d' & Hd' & _).
      congruence.
    + intros Hall. destruct (get_last_dates conn !! s) as [d|] eqn:E; [|reflexivity].
      apply get_last_dates_spec in E as (Hne & (b & Hb & Hs & Hd) & _).
      exfalso. apply Hne. apply Hall. apply elem_of_keys. exists b. auto.
Qed.


Lemma isoformat_le a b :
  valid a = true -> valid b = true ->
  String.le (isoformat a) (isoformat b) <-> toordinal a <= toordinal b.
Proof.
  intros Va Vb. unfold String.le, String.leb.
  rewrite isoformat_compare by assumption.
  destruct (Z.compare_spec (toordinal a) (toordinal b)); cbn; split; intros; try lia; try exact I; try contradiction.
Qed.

Lemma isoformat_nonempty d : isoformat d <> "".
Proof. unfold isoformat, fmt04. discriminate. Qed.

(** X5. When the stored dates of a symbol are ISO texts of dates, as the
    fetchers write them, the coverage map gives the symbol its latest
    stored day: the entry is the ISO text of a stored day, [strptime]
    reads it back, and no stored day of the symbol is later. A symbol with
    a stored bar has an entry. *)
Theorem get_last_dates_is_latest_day (conn : connection) (s : string) :
  let stored d := (s, d) ∈ map bar_key (daily_history (working conn)) in
  (forall v, stored v -> exists d, valid d = true /\ v = isoformat d) ->
  (forall v, get_last_dates conn !! s = Some v ->
     exists D, valid D = true /\ v = isoformat D /\ strptime_Ymd v = Some D
       /\ stored v
       /\ forall d, valid d = true -> stored (isoformat d) ->
                    toordinal d <= toordinal D)
  /\ (forall v, stored v -> exists v', get_last_dates conn !! s = Some v').
Proof.
  cbv zeta. intros Hiso. split.
  - intros v Hv. apply get_last_dates_spec in Hv as (Hne & Hex & Hmax).
    apply elem_of_keys in Hex as Hst.
    destruct (Hiso v Hst) as (D & VD & ->).
    exists D. split; [exact VD|]. split; [reflexivity|].
    split; [now apply strptime_isoformat|]. split; [exact Hst|].
    intros d Vd Hd. apply (isoformat_le d D Vd VD).
    apply elem_of_keys in Hd as (b & Hb & Hs & Hdate).
    rewrite <- Hdate. now apply Hmax.
  - intros v Hv. destruct (Hiso v Hv) as (d & Vd & ->).
    destruct (get_last_dates_covers conn s _ Hv (isoformat_nonempty d))
      as (v' & Hv' & _).
    exists v'. exact Hv'.
Qed.

Lemma get_last_dates_is_latest_day_witness :
  get_last_dates Sample.covered_conn !! "BTC-USD" = Some "2024-06-07"
  /\ exists D, valid D = true /\ "2024-06-07" = isoformat D
       /\ strptime_Ymd "2024-06-07" = Some D.
Proof.
  assert (Hiso : forall v,
             ("BTC-USD", v) ∈ map bar_key (daily_history (working Sample.covered_conn)) ->
             exists d, valid d = true /\ v = isoformat d).
  { intros v Hv. vm_compute in Hv.
    repeat (apply elem_of_cons in Hv as [Hv|Hv]; [inversion Hv; subst|]).
    - exists (mkdate 2024 6 6). split; reflexivity.
    - exists (mkdate 2024 6 7). split; reflexivity.
    - now apply elem_of_nil in Hv. }
  assert (Hv : get_last_dates Sample.covered_conn !! "BTC-USD" = Some "2024-06-07")
    by (vm_compute; reflexivity).
  split; [exact Hv|].
  destruct (proj1 (get_last_dates_is_latest_day Sample.covered_conn "BTC-USD" Hiso)
              "2024-06-07" Hv) as (D & VD & E & P & _).
  exists D. auto.
Defined.

(** ** The day after *)

Lemma days_before_month_succ y m :
  1 <= m < 12 ->
  _days_before_month y (m + 1) = _days_before_month y m + _days_in_month y m.
Proof.
  intros Hm. unfold _days_before_month, _days_in_month.
  assert (Hm' : 1 <= m <= 12) by lia.
  month_cases m Hm'; try lia; destruct (_is_leap y); eval_months;
    cbn [andb]; eval_months; lia.
Qed.

Lemma days_in_month_pos y m : 1 <= m <= 12 -> 28 <= _days_in_month y m <= 31.
Proof.
  intros Hm. unfold _days_in_month.
  month_cases m Hm; destruct (_is_leap y); eval_months; cbn [andb]; eval_months; lia.
Qed.

Lemma next_day_spec d :
  valid d = true -> toordinal d < _MAXORDINAL ->
  valid (next_day d) = true /\ toordinal (next_day d) = toordinal d + 1.
Proof.
  intros V Hlt. unfold valid in V. pose proof (valid_fields_inv _ _ _ V) as (Hy & Hm & Hd).
  destruct d as [y m dd]. cbn [year month day] in *.
  unfold next_day, toordinal, valid. cbn [year month day].
  destruct (dd <? _days_in_month y m) eqn:E1.
  - apply Z.ltb_lt in E1. cbn [year month day]. split.
    + unfold valid_fields, MINYEAR, MAXYEAR. repeat rewrite andb_true_iff.
      repeat split; try apply Z.leb_le; lia.
    + unfold _ymd2ord. lia.
  - apply Z.ltb_ge in E1. assert (dd = _days_in_month y m) by lia. subst dd.
    destruct (m <? 12) eqn:E2.
    + apply Z.ltb_lt in E2. cbn [year month day]. split.
      * pose proof (days_in_month_pos y (m + 1) ltac:(lia)).
        unfold valid_fields, MINYEAR, MAXYEAR. repeat rewrite andb_true_iff.
        repeat split; try apply Z.leb_le; lia.
      * unfold _ymd2ord. rewrite days_before_month_succ by lia. lia.
    + apply Z.ltb_ge in E2. assert (m = 12) by lia. subst m.
      cbn [year month day].
      assert (Hy' : y < 9999).
      { destruct (Z.eq_dec y 9999) as [->|]; [|lia].
        unfold toordinal in Hlt. cbn [year month day] in Hlt.
        vm_compute in Hlt. discriminate. }
      split.
      * unfold valid_fields, MINYEAR, MAXYEAR. repeat rewrite andb_true_iff.
        repeat split; try apply Z.leb_le; try lia.
      * unfold _ymd2ord. rewrite days_before_year_succ.
        unfold _days_before_month, _days_in_month.
        destruct (_is_leap y); eval_months; cbn [andb]; eval_months; lia.
Qed.

Lemma date_add_next_day d :
  valid d = true -> toordinal d < _MAXORDINAL ->
  date_add d 1 = Ok (next_day d).
Proof.
  intros V Hlt. pose proof (toordinal_range d V) as R.
  rewrite date_add_ok by lia.
  destruct (next_day_spec d V Hlt) as [V' E]. rewrite <- E.
  now rewrite fromordinal_toordinal.
Qed.

(** ** The planner under any clock *)

Section PlannerAnyClock.

Variable cfg : Settings.
Variable utcnow : nat -> date.

Lemma start_date_of_raises last_dates dflt k c e :
  start_date_of utcnow last_dates dflt k c = Raise e -> e = OverflowError.
Proof.
  unfold start_date_of, date_add.
  destruct (last_dates !! symbol c) as [v|]; [|discriminate].
  destruct (strptime_Ymd v) as [D|].
  - destruct ((0 <? toordinal D + 1) && (toordinal D + 1 <=? _MAXORDINAL));
      cbn; congruence.
  - destruct ((0 <? toordinal (utcnow k) + 1)
              && (toordinal (utcnow k) + 1 <=? _MAXORDINAL)); cbn; congruence.
Qed.

Lemma plan_loop_entries last_dates today_str dflt coins :
  forall k plan0 plan,
    plan_loop utcnow last_dates today_str dflt k coins plan0 = Ok plan ->
    exists ext,
      plan = plan0 ++ ext
      /\ map plan_symbol ext `sublist_of` map symbol coins
      /\ Forall (fun e => end_date e = today_str
                          /\ String.ltb today_str (start_date e) = false) ext.
Proof.
  induction coins as [|c coins IH]; intros k plan0 plan Hrun.
  - cbn in Hrun. injection Hrun as <-. exists []. rewrite app_nil_r.
    split; [reflexivity|]. split; [constructor|constructor].
  - cbn [plan_loop] in Hrun.
    destruct (start_date_of utcnow last_dates dflt k c) as [[sd k']|e];
      [|discriminate].
    destruct (String.ltb today_str sd) eqn:Elt.
    + destruct (IH _ _ _ Hrun) as (ext & -> & Hsub & Hall).
      exists ext. split; [reflexivity|]. split; [|exact Hall].
      cbn [map]. now apply sublist_cons.
    + destruct (IH _ _ _ Hrun) as (ext & -> & Hsub & Hall).
      exists (mkplan (symbol c) sd today_str :: ext).
      split; [now rewrite <- app_assoc|]. split.
      * cbn [map plan_symbol]. now apply sublist_skip.
      * constructor; [split; [reflexivity|exact Elt]|exact Hall].
Qed.

Lemma plan_loop_raises last_dates today_str dflt coins :
  forall k plan0 e,
    plan_loop utcnow last_dates today_str dflt k coins plan0 = Raise e ->
    e = OverflowError.
Proof.
  induction coins as [|c coins IH]; intros k plan0 e Hrun; [discriminate|].
  cbn [plan_loop] in Hrun.
  destruct (start_date_of utcnow last_dates dflt k c) as [[sd k']|e'] eqn:Es.
  - destruct (String.ltb today_str sd); now apply IH in Hrun.
  - injection Hrun as <-. now apply start_date_of_raises in Es.
Qed.

Lemma plan_loop_stops last_dates today_str dflt coins c :
  c ∈ coins ->
  (forall k, start_date_of utcnow last_dates dflt k c = Raise OverflowError) ->
  forall k plan0,
    plan_loop utcnow last_dates today_str dflt k coins plan0 = Raise OverflowError.
Proof.
  intros Hc Hbad. induction coins as [|c0 coins IH]; intros k plan0.
  - now apply elem_of_nil in Hc.
  - destruct (plan_loop utcnow last_dates today_str dflt k (c0 :: coins) plan0)
      as [plan|e] eqn:Hrun.
    + exfalso. cbn [plan_loop] in Hrun.
      destruct (start_date_of utcnow last_dates dflt k c0) as [[sd k']|e'] eqn:Es;
        [|discriminate].
      apply elem_of_cons in Hc as [->|Hc]; [rewrite Hbad in Es; discriminate|].
      specialize (IH Hc).
      destruct (String.ltb today_str sd); rewrite IH in Hrun; discriminate.
    + f_equal. now apply plan_loop_raises in Hrun.
Qed.

Lemma build_update_plan_symbols conn top_coins plan :
  build_update_plan cfg utcnow conn top_coins = Ok plan ->
  map plan_symbol plan `sublist_of` map symbol top_coins.
Proof.
  unfold build_update_plan. cbv zeta.
  destruct (_default_start_date_str cfg utcnow 1) as [dflt|e]; [|discriminate].
  cbn [bind]. intros Hrun.
  apply plan_loop_entries in Hrun as (ext & -> & Hsub & _). exact Hsub.
Qed.

Lemma build_update_plan_nil conn :
  build_update_plan cfg utcnow conn []
  = match _default_start_date_str cfg utcnow 1 with
    | Ok _ => Ok []
    | Raise e => Raise e
    end.
Proof.
  unfold build_update_plan. cbv zeta.
  destruct (_default_start_date_str cfg utcnow 1); reflexivity.
Qed.

Lemma default_start_any_clock :
  valid (utcnow 1%nat) = true ->
  _default_start_date_str cfg utcnow 1
  = if (0 <? toordinal (utcnow 1%nat) - HISTORY_DAYS cfg)
       && (toordinal (utcnow 1%nat) - HISTORY_DAYS cfg <=? _MAXORDINAL)
    then Ok (isoformat (fromordinal (toordinal (utcnow 1%nat) - HISTORY_DAYS cfg)))
    else Raise OverflowError.
Proof.
  intros V. pose proof (toordinal_range _ V) as R. unfold _MAXORDINAL in *.
  unfold _default_start_date_str, timedelta, date_sub, date_add. cbv zeta.
  replace (toordinal (utcnow 1%nat) + - HISTORY_DAYS cfg)
    with (toordinal (utcnow 1%nat) - HISTORY_DAYS cfg) by lia.
  destruct ((-999999999 <=? HISTORY_DAYS cfg) && (HISTORY_DAYS cfg <=? 999999999))
    eqn:Eb; cbn [bind].
  - destruct ((0 <? _) && (_ <=? _)); reflexivity.
  - replace ((0 <? toordinal (utcnow 1%nat) - HISTORY_DAYS cfg)
             && (toordinal (utcnow 1%nat) - HISTORY_DAYS cfg <=? 3652059))
      with false; [reflexivity|].
    symmetry. apply andb_false_iff in Eb. apply andb_false_iff.
    destruct Eb as [Eb|Eb]; [right|left].
    + apply Z.leb_gt in Eb. apply Z.leb_gt. lia.
    + apply Z.leb_gt in Eb. apply Z.ltb_ge. lia.
Qed.

(** X6. Whatever the clock returns, a plan that [build_update_plan]
    returns lists symbols of the given records in the order of the records,
    at most one entry per record; every entry ends on the day of the first
    clock reading and does not start after it. *)
Theorem build_update_plan_keeps_order
    (conn : connection) (top_coins : list coin) (plan : list plan_entry) :
  build_update_plan cfg utcnow conn top_coins = Ok plan ->
  map plan_symbol plan `sublist_of` map symbol top_coins
  /\ (length plan <= length top_coins)%nat
  /\ (NoDup (map symbol top_coins) -> NoDup (map plan_symbol plan))
  /\ Forall (fun e => end_date e = isoformat (utcnow 0%nat)
                      /\ String.ltb (end_date e) (start_date e) = false) plan.
Proof.
  unfold build_update_plan. cbv zeta.
  destruct (_default_start_date_str cfg utcnow 1) as [dflt|e]; [|discriminate].
  cbn [bind]. intros Hrun.
  apply plan_loop_entries in Hrun as (ext & -> & Hsub & Hall).
  rewrite app_nil_l. split; [exact Hsub|]. split; [|split].
  - apply sublist_length in Hsub. now rewrite !length_map in Hsub.
  - intros Hnd. eapply sublist_NoDup; [exact Hnd|exact Hsub].
  - eapply Forall_impl; [exact Hall|]. intros e [He Hs].
    split; [exact He|]. unfold _today_utc_date_str in *. now rewrite He.
Qed.

(** X7. The planner does not contain calendar overflow: when the
    default start, [HISTORY_DAYS] before the second clock reading, is not
    a date of the years 1 to 9999, [build_update_plan] raises
    OverflowError whatever the records are; and so it does when a listed
    symbol is covered until 9999-12-31. It raises nothing else. *)
Theorem build_update_plan_overflow (conn : connection) (top_coins : list coin) :
  (~ (0 < toordinal (utcnow 1%nat) - HISTORY_DAYS cfg <= _MAXORDINAL) ->
   build_update_plan cfg utcnow conn top_coins = Raise OverflowError)
  /\ (forall c, c ∈ top_coins ->
        get_last_dates conn !! symbol c = Some "9999-12-31" ->
        build_update_plan cfg utcnow conn top_coins = Raise OverflowError)
  /\ (forall e, build_update_plan cfg utcnow conn top_coins = Raise e ->
        e = OverflowError).
Proof.
  split; [|split].
  - intros Hout. unfold build_update_plan, _default_start_date_str, timedelta.
    cbv zeta.
    destruct ((-999999999 <=? HISTORY_DAYS cfg) && (HISTORY_DAYS cfg <=? 999999999));
      [|reflexivity].
    cbn [bind]. unfold date_sub, date_add.
    replace ((0 <? toordinal (utcnow 1%nat) + - HISTORY_DAYS cfg)
             && (toordinal (utcnow 1%nat) + - HISTORY_DAYS cfg <=? _MAXORDINAL))
      with false; [reflexivity|].
    symmetry. apply andb_false_iff.
    destruct (Z.ltb_spec 0 (toordinal (utcnow 1%nat) + - HISTORY_DAYS cfg));
      [|now left].
    right. apply Z.leb_gt. lia.
  - intros c Hc Hcov. unfold build_update_plan. cbv zeta.
    destruct (_default_start_date_str cfg utcnow 1) as [dflt|e] eqn:Ed.
    + cbn [bind]. apply (plan_loop_stops _ _ _ _ c Hc).
      intros k. unfold start_date_of. rewrite Hcov.
      reflexivity.
    + cbn [bind]. f_equal.
      unfold _default_start_date_str, timedelta in Ed.
      destruct ((-999999999 <=? HISTORY_DAYS cfg) && (HISTORY_DAYS cfg <=? 999999999));
        [|now injection Ed].
      cbn [bind] in Ed. unfold date_sub, date_add in Ed.
      destruct ((0 <? toordinal (utcnow 1%nat) + - HISTORY_DAYS cfg)
                && (toordinal (utcnow 1%nat) + - HISTORY_DAYS cfg <=? _MAXORDINAL));
        cbn in Ed; congruence.
  - intros e. unfold build_update_plan. cbv zeta.
    destruct (_default_start_date_str cfg utcnow 1) as [dflt|e'] eqn:Ed.
    + cbn [bind]. apply plan_loop_raises.
    + cbn [bind]. intros [= <-].
      unfold _default_start_date_str, timedelta in Ed.
      destruct ((-999999999 <=? HISTORY_DAYS cfg) && (HISTORY_DAYS cfg <=? 999999999));
        [|now injection Ed].
      cbn [bind] in Ed. unfold date_sub, date_add in Ed.
      destruct ((0 <? toordinal (utcnow 1%nat) + - HISTORY_DAYS cfg)
                && (toordinal (utcnow 1%nat) + - HISTORY_DAYS cfg <=? _MAXORDINAL));
        cbn in Ed; congruence.
Qed.

End PlannerAnyClock.

Lemma build_update_plan_keeps_order_witness :
  build_update_plan default_settings Sample.steady_clock Sample.covered_conn
    Sample.universe
  = Ok [mkplan "BTC-USD" "2024-06-08" "2024-06-10";
        mkplan "SOL-USD" "2014-06-13" "2024-06-10"]
  /\ map plan_symbol [mkplan "BTC-USD" "2024-06-08" "2024-06-10";
                      mkplan "SOL-USD" "2014-06-13" "2024-06-10"]
     `sublist_of` map symbol Sample.universe.
Proof.
  assert (H : build_update_plan default_settings Sample.steady_clock
                Sample.covered_conn Sample.universe
              = Ok [mkplan "BTC-USD" "2024-06-08" "2024-06-10";
                    mkplan "SOL-USD" "2014-06-13" "2024-06-10"])
    by (vm_compute; reflexivity).
  split; [exact H|].
  exact (proj1 (build_update_plan_keeps_order default_settings
                  Sample.steady_clock Sample.covered_conn Sample.universe _ H)).
Defined.

Example next_day_leap_february :
  next_day (mkdate 2024 2 28) = mkdate 2024 2 29
  /\ next_day (mkdate 2023 2 28) = mkdate 2023 3 1
  /\ next_day (mkdate 1900 2 28) = mkdate 1900 3 1
  /\ next_day (mkdate 2024 12 31) = mkdate 2025 1 1.
Proof. repeat split. Qed.

(** X8. The day arithmetic of the planner and of the fetchers is the
    calendar's: for a coverage date that [strptime] reads as [D], the start
    date of the symbol is the ISO text of the day after [D] (month ends,
    year ends and leap days included), and for a window that ends on a
    date [D] of the year 1000 or later the fetchers ask for data up to,
    and not including, the day after [D]. From 9999-12-31 both raise
    OverflowError. *)
Theorem next_day_arithmetic
    (utcnow : nat -> date) (last_dates : gmap string string) (dflt : string)
    (k : nat) (c : coin) (now : date) (v : string) (D : date) :
  strptime_Ymd v = Some D ->
  (last_dates !! symbol c = Some v ->
   start_date_of utcnow last_dates dflt k c
   = if toordinal D <? _MAXORDINAL then Ok (isoformat (next_day D), k)
     else Raise OverflowError)
  /\ (1000 <= year D ->
      end_plus_one_of now v
      = if toordinal D <? _MAXORDINAL then Ok (isoformat (next_day D))
        else Raise OverflowError)
  /\ ((toordinal D <? _MAXORDINAL) = false <-> D = mkdate 9999 12 31).
Proof.
  intros HD. pose proof (strptime_valid _ _ HD) as V.
  pose proof (toordinal_range D V) as R.
  assert (Hadd : date_add D 1
                 = if toordinal D <? _MAXORDINAL then Ok (next_day D)
                   else Raise OverflowError).
  { destruct (Z.ltb_spec (toordinal D) _MAXORDINAL) as [Hlt|Hge].
    - now apply date_add_next_day.
    - apply date_add_overflow. lia. }
  split; [|split].
  - intros Hcov. unfold start_date_of. rewrite Hcov, HD, Hadd.
    destruct (toordinal D <? _MAXORDINAL); reflexivity.
  - intros Hy. unfold end_plus_one_of. rewrite HD. cbv zeta. rewrite Hadd.
    destruct (Z.ltb_spec (toordinal D) _MAXORDINAL) as [Hlt|Hge];
      [|reflexivity].
    cbn [bind]. f_equal. apply strftime_isoformat.
    destruct (next_day_spec D V Hlt) as (V' & O').
    pose proof (year_mono D _ V V' ltac:(lia)). lia.
  - rewrite Z.ltb_ge. split.
    + intros Hge. apply toordinal_inj; [exact V|reflexivity|].
      change (toordinal (mkdate 9999 12 31)) with _MAXORDINAL. lia.
    + intros ->. vm_compute. discriminate.
Qed.

Lemma next_day_arithmetic_witness :
  strptime_Ymd "2024-02-28" = Some (mkdate 2024 2 28)
  /\ end_plus_one_of Sample.today "2024-02-28" = Ok "2024-02-29".
Proof.
  assert (H : strptime_Ymd "2024-02-28" = Some (mkdate 2024 2 28)) by reflexivity.
  assert (Hy : 1000 <= year (mkdate 2024 2 28)) by (vm_compute; discriminate).
  split; [exact H|].
  exact (proj1 (proj2 (next_day_arithmetic Sample.steady_clock ∅ "" 0
                         Sample.doge Sample.today _ _ H)) Hy).
Defined.

(** ** The planner and the stages around it *)

Lemma run_history_fetch_bulk `{rt : Runtime} cfg yf_download ticker_history
    utcnow order conn (plan : list plan_entry) :
  (1 < length plan)%nat ->
  (forall p q, p ∈ plan -> q ∈ plan ->
     (start_date p, end_date p) = (start_date q, end_date q)) ->
  run_history_fetch cfg yf_download ticker_history utcnow order conn plan
  = (BulkMode, bulk_download cfg yf_download (utcnow O) order conn plan).
Proof.
  intros Hlen Huni. unfold run_history_fetch. cbv zeta.
  replace (length plan =? 0)%nat with false
    by (symmetry; apply Nat.eqb_neq; lia).
  assert (Hs : size (list_to_set (map (fun p => (start_date p, end_date p)) plan)
                     : gset (string * string)) = 1%nat).
  { apply size_ranges_one. split; [|exact Huni].
    intros ->. cbn in Hlen. lia. }
  rewrite Hs. cbn [Nat.eqb andb].
  replace (1 <? length plan)%nat with true
    by (symmetry; apply Nat.ltb_lt; lia).
  reflexivity.
Qed.

Lemma buildPlan_uncovered l cov today depth :
  (forall s, s ∈ l -> cov s = None) -> 0 <= depth ->
  buildPlan l cov today depth = map (fun s => (s, today - depth, today)) l.
Proof.
  intros Hnone Hd. induction l as [|s l IH]; [reflexivity|].
  rewrite buildPlan_cons. cbv zeta. rewrite (Hnone s) by left.
  replace (today <? today - depth) with false by (symmetry; apply Z.ltb_ge; lia).
  cbn [map]. f_equal. apply IH. intros s' Hs'. apply Hnone. now right.
Qed.

Section PlannerStages.

Context {rt : Runtime}.
Variable cfg : Settings.
Variable utcnow : nat -> date.
Variable today : date.
Hypothesis clock_steady : forall k, utcnow k = today.
Hypothesis today_valid : valid today = true.

(** X9. A symbol that is covered until today is left out of the plan.
    When the table holds a bar of a listed symbol that is dated today or
    later, for instance after [insert_daily_history] has stored one, the
    plan that [build_update_plan] makes has no entry for the symbol,
    provided the dates stored for the symbol are ISO texts of dates. *)
Theorem build_update_plan_skips_synced_symbol
    (conn : connection) (top_coins : list coin) (c : coin) (d : date) :
  let stored := fun v =>
    (symbol c, v) ∈ map bar_key (daily_history (working conn)) in
  0 < toordinal today - HISTORY_DAYS cfg <= _MAXORDINAL ->
  (forall c' D, In c' top_coins ->
     coverage_day (get_last_dates conn) today (symbol c') = Some D ->
     D < _MAXORDINAL) ->
  (forall v, stored v -> exists d', valid d' = true /\ v = isoformat d') ->
  c ∈ top_coins ->
  valid d = true -> toordinal today <= toordinal d -> stored (isoformat d) ->
  exists plan,
    build_update_plan cfg utcnow conn top_coins = Ok plan
    /\ forall e, e ∈ plan -> plan_symbol e <> symbol c.
Proof.
  cbv zeta. intros Hdflt Hcov Hiso Hc Vd Hd Hkey.
  destruct (get_last_dates_covers conn _ _ Hkey (isoformat_nonempty d))
    as (v & Hv & Hle).
  pose proof Hv as Hspec. apply get_last_dates_spec in Hspec as (_ & Hex & _).
  apply elem_of_keys in Hex. destruct (Hiso v Hex) as (D & VD & ->).
  apply (isoformat_le d D Vd VD) in Hle.
  exists (map render_entry
            (buildPlan (map symbol top_coins)
               (coverage_day (get_last_dates conn) today)
               (toordinal today) (HISTORY_DAYS cfg))).
  split; [now apply build_update_plan_model|].
  intros e He Hs. apply elem_of_render_plan in He as (s & a & b & Hin & ->).
  cbn [plan_symbol] in Hs. subst s.
  apply elem_of_buildPlan in Hin as (_ & _ & Ha & Ea).
  unfold coverage_day in Ea. rewrite Hv, (strptime_isoformat D VD) in Ea. lia.
Qed.

(** X10. The first run on a database without history for the listed
    symbols plans every record, all with the same window from
    [HISTORY_DAYS] before today to today, and with two records or more the
    dispatcher then runs in bulk mode. *)
Theorem first_run_is_uniform_and_bulk
    yf_download ticker_history (order : list nat)
    (conn : connection) (top_coins : list coin) :
  0 <= HISTORY_DAYS cfg < toordinal today ->
  (forall c, c ∈ top_coins -> get_last_dates conn !! symbol c = None) ->
  let window_start := isoformat (fromordinal (toordinal today - HISTORY_DAYS cfg)) in
  let plan := map (fun c => mkplan (symbol c) window_start (isoformat today))
                top_coins in
  build_update_plan cfg utcnow conn top_coins = Ok plan
  /\ ((2 <= length top_coins)%nat ->
      run_history_fetch cfg yf_download ticker_history utcnow order conn plan
      = (BulkMode, bulk_download cfg yf_download today order conn plan)).
Proof.
  intros Hdepth Hnone. cbv zeta.
  pose proof (toordinal_range today today_valid) as R.
  split.
  - rewrite build_update_plan_model with (today := today); try assumption; try lia.
    + rewrite buildPlan_uncovered; try lia.
      * rewrite map_map. rewrite map_map. f_equal. apply map_ext. intros c.
        cbn [render_entry]. now rewrite fromordinal_toordinal.
      * intros s Hs. apply list_elem_of_fmap in Hs as (c & -> & Hc).
        unfold coverage_day. now rewrite Hnone.
    + intros c D Hc. apply list_elem_of_In in Hc. unfold coverage_day.
      now rewrite Hnone.
  - intros Hlen. rewrite run_history_fetch_bulk.
    + now rewrite clock_steady.
    + rewrite length_map. lia.
    + intros p q Hp Hq.
      apply list_elem_of_fmap in Hp as (cp & -> & _).
      apply list_elem_of_fmap in Hq as (cq & -> & _). reflexivity.
Qed.

End PlannerStages.

Lemma build_update_plan_skips_synced_symbol_witness :
  exists plan,
    build_update_plan default_settings Sample.steady_clock
      (insert_daily_history Sample.fresh_conn
         [Sample.flat_bar "BTC-USD" "2024-06-10"])
      Sample.universe = Ok plan
    /\ forall e, e ∈ plan -> plan_symbol e <> "BTC-USD".
Proof.
  assert (H1 : forall k, Sample.steady_clock k = Sample.today)
    by (intros k; reflexivity).
  assert (H2 : valid Sample.today = true) by reflexivity.
  assert (H3 : 0 < toordinal Sample.today - HISTORY_DAYS default_settings
               <= _MAXORDINAL) by (vm_compute; split; [reflexivity|discriminate]).
  assert (H4 : forall c' D, In c' Sample.universe ->
            coverage_day
              (get_last_dates
                 (insert_daily_history Sample.fresh_conn
                    [Sample.flat_bar "BTC-USD" "2024-06-10"]))
              Sample.today (symbol c') = Some D ->
            D < _MAXORDINAL).
  { intros c' D Hc. cbn in Hc.
    destruct Hc as [<-|[<-|[<-|[]]]]; intros HD; vm_compute in HD;
      try discriminate; injection HD as <-; vm_compute; reflexivity. }
  assert (H5 : forall v,
            (symbol (Sample.a_coin "BTC-USD" 100%float 1), v)
            ∈ map bar_key
                (daily_history
                   (working
                      (insert_daily_history Sample.fresh_conn
                         [Sample.flat_bar "BTC-USD" "2024-06-10"]))) ->
            exists d, valid d = true /\ v = isoformat d).
  { intros v Hv. vm_compute in Hv.
    apply elem_of_cons in Hv as [Hv|Hv]; [|now apply elem_of_nil in Hv].
    inversion Hv; subst. exists Sample.today. split; reflexivity. }
  assert (H6 : Sample.a_coin "BTC-USD" 100%float 1 ∈ Sample.universe) by left.
  assert (H7 : (symbol (Sample.a_coin "BTC-USD" 100%float 1),
                isoformat Sample.today)
               ∈ map bar_key
                   (daily_history
                      (working
                         (insert_daily_history Sample.fresh_conn
                            [Sample.flat_bar "BTC-USD" "2024-06-10"])))) by left.
  assert (H8 : toordinal Sample.today <= toordinal Sample.today) by lia.
  exact (build_update_plan_skips_synced_symbol default_settings
           Sample.steady_clock Sample.today H1 H2 _ Sample.universe _
           Sample.today H3 H4 H5 H6 H2 H8 H7).
Defined.

Lemma first_run_is_uniform_and_bulk_witness :
  build_update_plan Sample.ten_days Sample.steady_clock Sample.fresh_conn
    Sample.universe
  = Ok [mkplan "BTC-USD" "2024-05-31" "2024-06-10";
        mkplan "ETH-USD" "2024-05-31" "2024-06-10";
        mkplan "SOL-USD" "2024-05-31" "2024-06-10"].
Proof.
  assert (H1 : forall k, Sample.steady_clock k = Sample.today)
    by (intros k; reflexivity).
  assert (H2 : valid Sample.today = true) by reflexivity.
  assert (H3 : 0 <= HISTORY_DAYS Sample.ten_days < toordinal Sample.today)
    by (vm_compute; split; [discriminate|reflexivity]).
  assert (H4 : forall c, c ∈ Sample.universe ->
            get_last_dates Sample.fresh_conn !! symbol c = None).
  { intros c _. apply get_last_dates_none. intros b Hb.
    now apply elem_of_nil in Hb. }
  exact (proj1 (first_run_is_uniform_and_bulk (rt := Sample.runtime)
                  Sample.ten_days Sample.steady_clock Sample.today H1 H2
                  Sample.no_download Sample.no_history []
                  Sample.fresh_conn Sample.universe H3 H4)).
Defined.

(** ** What a run stores *)

Lemma persist_step conn (rows : list bar) :
  match rows with [] => conn | _ => insert_daily_history conn rows end
  = insert_daily_history conn rows.
Proof. destruct rows; reflexivity. Qed.

Lemma persist_completed_cons conn results j order :
  persist_completed conn results (j :: order)
  = match results !! j with
    | None => persist_completed conn results order
    | Some (Raise e) => (Raise e, conn)
    | Some (Ok rows) =>
        persist_completed (insert_daily_history conn rows) results order
    end.
Proof.
  cbn [persist_completed]. destruct (results !! j) as [[rows|e]|]; try reflexivity.
  now rewrite persist_step.
Qed.

Lemma persist_completed_coins conn results order :
  coins (working (snd (persist_completed conn results order)))
  = coins (working conn).
Proof.
  revert conn. induction order as [|j order IH]; intros conn; [reflexivity|].
  rewrite persist_completed_cons. destruct (results !! j) as [[rows|e]|];
    [|reflexivity|apply IH].
  rewrite IH. apply insert_daily_history_coins.
Qed.

Lemma persist_completed_keeps conn results order k :
  k ∈ map bar_key (daily_history (working conn)) ->
  k ∈ map bar_key
        (daily_history (working (snd (persist_completed conn results order)))).
Proof.
  revert conn. induction order as [|j order IH]; intros conn Hk; [exact Hk|].
  rewrite persist_completed_cons. destruct (results !! j) as [[rows|e]|];
    [|exact Hk|now apply IH].
  apply IH. rewrite insert_daily_history_table.
  now apply foldl_replace_keys_mono.
Qed.

Lemma persist_completed_keys_in conn results order k :
  k ∈ map bar_key
        (daily_history (working (snd (persist_completed conn results order)))) ->
  k ∈ map bar_key (daily_history (working conn))
  \/ exists j rows, j ∈ order /\ results !! j = Some (Ok rows)
                    /\ k ∈ map bar_key rows.
Proof.
  revert conn. induction order as [|j order IH]; intros conn Hk; [left; exact Hk|].
  rewrite persist_completed_cons in Hk.
  destruct (results !! j) as [[rows|e]|] eqn:Ej.
  - apply IH in Hk as [Hk|(j' & rows' & Hj' & E' & Hk)].
    + rewrite insert_daily_history_table in Hk.
      apply foldl_replace_keys_in in Hk as [Hk|Hk]; [left; exact Hk|].
      right. exists j, rows. split; [left|]. split; [exact Ej|exact Hk].
    + right. exists j', rows'. split; [now right|]. split; assumption.
  - left. exact Hk.
  - apply IH in Hk as [Hk|(j' & rows' & Hj' & E' & Hk)]; [left; exact Hk|].
    right. exists j', rows'. split; [now right|]. split; assumption.
Qed.

Lemma persist_completed_NoDup conn results order :
  NoDup (map bar_key (daily_history (working conn))) ->
  NoDup (map bar_key
           (daily_history (working (snd (persist_completed conn results order))))).
Proof.
  revert conn. induction order as [|j order IH]; intros conn Hnd; [exact Hnd|].
  rewrite persist_completed_cons. destruct (results !! j) as [[rows|e]|];
    [|exact Hnd|now apply IH].
  apply IH. rewrite insert_daily_history_table. now apply foldl_replace_NoDup.
Qed.

Lemma persist_completed_no_results conn order :
  persist_completed conn [] order = (Ok tt, conn).
Proof.
  induction order as [|j order IH]; [reflexivity|].
  rewrite persist_completed_cons. exact IH.
Qed.

Lemma py_slice_subset {A : Type} (l : list A) i j x :
  x ∈ py_slice l i j -> x ∈ l.
Proof.
  unfold py_slice. intros H.
  assert (Hsub : take (Z.to_nat j - Z.to_nat i) (drop (Z.to_nat i) l) `sublist_of` l)
    by (etransitivity; [apply sublist_take|apply sublist_drop]).
  exact (sublist_subseteq _ _ Hsub x H).
Qed.

Lemma make_batches_subset cfg symbols batches batch s :
  make_batches cfg symbols = Ok batches -> batch ∈ batches -> s ∈ batch ->
  s ∈ symbols.
Proof.
  unfold make_batches.
  destruct (py_range 0 (Z.of_nat (length symbols)) (BULK_BATCH_SIZE cfg))
    as [starts|e]; [|discriminate].
  cbn [bind]. intros [= <-] Hb Hs.
  apply list_elem_of_fmap in Hb as (i & -> & _).
  now apply py_slice_subset in Hs.
Qed.

Section RunStores.

Context {rt : Runtime}.
Variable cfg : Settings.
Variable yf_download :
  nat -> Z -> list string -> string -> string -> result dataframe.
Variable ticker_history :
  string -> string -> string -> option Z -> result (list frame_row).

Lemma parse_batch_df_symbols df batch rows :
  _parse_batch_df df batch = Ok rows ->
  Forall (fun b => bar_symbol b ∈ batch) rows.
Proof.
  destruct batch as [|s batch].
  - destruct df as [tickers|frows]; cbn; [|discriminate].
    intros [= <-]. constructor.
  - intros E. destruct (parse_batch_df_total df (s :: batch)) as (bs & E' & H);
      [discriminate|]. congruence.
Qed.

Lemma fetch_attempts_symbols start epo i batch remaining :
  forall attempt rows,
    fst (fetch_attempts yf_download start epo i batch remaining attempt) = Ok rows ->
    Forall (fun b => bar_symbol b ∈ batch) rows.
Proof.
  induction remaining as [|remaining IH]; intros attempt rows; cbn [fetch_attempts].
  - cbn. intros [= <-]. constructor.
  - destruct (yf_download i (attempt + 1) batch start epo) as [df|e].
    + destruct (df_empty df); cbn [fst].
      * intros [= <-]. constructor.
      * apply parse_batch_df_symbols.
    + destruct (fetch_attempts yf_download start epo i batch remaining (attempt + 1))
        as [r log] eqn:E.
      cbn [fst]. intros Hr. apply (IH (attempt + 1)). now rewrite E.
Qed.

Lemma fetch_symbol_rows_symbols now item rows :
  fst (fetch_symbol_rows cfg ticker_history now item) = Ok rows ->
  Forall (fun b => bar_symbol b = plan_symbol item) rows.
Proof.
  unfold fetch_symbol_rows. cbv zeta.
  destruct (end_plus_one_of now (end_date item)) as [epo|e]; [|discriminate].
  assert (Hrows : forall df rows',
            (if rows_empty df then Ok [] else bars_of_rows (plan_symbol item) df)
            = Ok rows' ->
            Forall (fun b => bar_symbol b = plan_symbol item) rows').
  { intros df rows'. destruct (rows_empty df).
    - intros [= <-]. constructor.
    - destruct (bars_of_rows_total (plan_symbol item) df) as (bs & E & _ & H).
      rewrite E. now intros [= <-]. }
  destruct (ticker_history _ _ _ (Some _)) as [df|e].
  - cbn [fst]. apply Hrows.
  - destruct e; cbn [fst]; try (intros [= <-]; constructor).
    destruct (ticker_history _ _ _ None) as [df|e]; cbn [fst];
      [apply Hrows|discriminate].
Qed.

(** What a run persists: the results of its workers, which are batch
    workers for batches of plan symbols or workers for plan entries. *)
Lemma run_history_fetch_workers utcnow order conn plan :
  exists results,
    snd (fst (snd (run_history_fetch cfg yf_download ticker_history utcnow
                     order conn plan)))
    = snd (persist_completed conn results order)
    /\ forall j rows, results !! j = Some (Ok rows) ->
         (exists sd epo batch remaining attempt,
             fst (fetch_attempts yf_download sd epo j batch remaining attempt)
             = Ok rows
             /\ forall s, s ∈ batch -> s ∈ map plan_symbol plan)
         \/ (exists now item,
               item ∈ plan
               /\ fst (fetch_symbol_rows cfg ticker_history now item) = Ok rows).
Proof.
  assert (Hnil : exists results : list (result (list bar)),
             conn = snd (persist_completed conn results order)
             /\ forall j rows, results !! j = Some (Ok rows) ->
                  (exists sd epo batch remaining attempt,
                      fst (fetch_attempts yf_download sd epo j batch remaining attempt)
                      = Ok rows
                      /\ forall s, s ∈ batch -> s ∈ map plan_symbol plan)
                  \/ (exists now item,
                        item ∈ plan
                        /\ fst (fetch_symbol_rows cfg ticker_history now item)
                           = Ok rows)).
  { exists []. rewrite persist_completed_no_results. split; [reflexivity|].
    intros j rows H. discriminate. }
  unfold run_history_fetch. cbv zeta.
  destruct (length plan =? 0)%nat; [exact Hnil|].
  destruct ((size _ =? 1)%nat && (1 <? length plan)%nat).
  - cbn [fst snd]. unfold bulk_download.
    destruct plan as [|first rest]; [exact Hnil|].
    destruct (end_plus_one_of (utcnow O) (end_date first)) as [epo|e];
      [|exact Hnil].
    destruct (make_batches cfg (map plan_symbol (first :: rest)))
      as [batches|e] eqn:Eb; [|exact Hnil].
    destruct (thread_pool (BULK_WORKERS cfg)); [|exact Hnil].
    cbn [fst snd]. eexists. split; [reflexivity|].
    intros j rows Hj. rewrite map_imap in Hj.
    rewrite list_lookup_imap in Hj.
    destruct (batches !! j) as [batch|] eqn:Ej; [|discriminate].
    cbn in Hj. injection Hj as Hj. left.
    exists (start_date first), epo, batch, (Z.to_nat (BULK_MAX_RETRIES cfg)), 0.
    split; [exact Hj|]. intros s Hs.
    apply (make_batches_subset cfg _ batches batch); [exact Eb| |exact Hs].
    now apply list_elem_of_lookup_2 in Ej.
  - destruct (thread_pool (MAX_WORKERS cfg)); [|exact Hnil].
    cbn [fst snd]. eexists. split; [reflexivity|].
    intros j rows Hj. rewrite map_imap in Hj.
    rewrite list_lookup_imap in Hj.
    destruct (plan !! j) as [item|] eqn:Ej; [|discriminate].
    cbn in Hj. injection Hj as Hj. right. exists (utcnow j), item.
    split; [now apply list_elem_of_lookup_2 in Ej|exact Hj].
Qed.

(** X11. Whatever the quote source answers and in whatever order the
    workers finish, also when the run ends with an exception,
    [run_history_fetch] leaves the table [coins] alone, keeps every
    stored (symbol, date) key, stores new keys only for symbols of the
    plan, and keeps the key unique. *)
Theorem run_history_fetch_only_adds_planned_history
    (utcnow : nat -> date) (order : list nat) (conn : connection)
    (plan : list plan_entry) :
  let after :=
    snd (fst (snd (run_history_fetch cfg yf_download ticker_history utcnow
                     order conn plan))) in
  let keys c := map bar_key (daily_history (working c)) in
  coins (working after) = coins (working conn)
  /\ (forall k, k ∈ keys conn -> k ∈ keys after)
  /\ (forall k, k ∈ keys after ->
        k ∈ keys conn \/ fst k ∈ map plan_symbol plan)
  /\ (NoDup (keys conn) -> NoDup (keys after)).
Proof.
  cbv zeta.
  destruct (run_history_fetch_workers utcnow order conn plan)
    as (results & -> & Hwork).
  split; [apply persist_completed_coins|]. split; [|split].
  - intros k. apply persist_completed_keeps.
  - intros k Hk.
    apply persist_completed_keys_in in Hk as [Hk|(j & rows & _ & Ej & Hk)];
      [left; exact Hk|].
    right. apply list_elem_of_fmap in Hk as (b & -> & Hb). cbn [bar_key fst].
    destruct (Hwork j rows Ej)
      as [(sd & epo & batch & rem & att & Hr & Hsub)|(now & item & Hin & Hr)].
    + apply fetch_attempts_symbols in Hr. rewrite Forall_forall in Hr.
      apply Hsub. now apply Hr.
    + apply fetch_symbol_rows_symbols in Hr. rewrite Forall_forall in Hr.
      rewrite (Hr b Hb). apply list_elem_of_fmap. exists item. auto.
  - apply persist_completed_NoDup.
Qed.

End RunStores.

(** ** The order in which the workers finish *)

Lemma persist_completed_rows_with conn results order k :
  Forall (fun r : result (list bar) => exists rows, r = Ok rows) results ->
  rows_with bar_key k
    (daily_history (working (snd (persist_completed conn results order))))
  = match last (omap (last_write results k) order) with
    | Some r => [r]
    | None => rows_with bar_key k (daily_history (working conn))
    end.
Proof.
  intros Hall. revert conn. induction order as [|j order IH]; intros conn;
    [reflexivity|].
  rewrite persist_completed_cons. cbn [omap list_omap].
  destruct (results !! j) as [[rows|e]|] eqn:Ej.
  - assert (Hlw : last_write results k j = last (rows_with bar_key k rows))
      by (unfold last_write; now rewrite Ej).
    rewrite Hlw, IH, insert_daily_history_table, rows_with_foldl_replace.
    destruct (last (rows_with bar_key k rows)) as [r|]; [|reflexivity].
    rewrite last_cons. destruct (last (omap (last_write results k) order));
      reflexivity.
  - exfalso. rewrite Forall_forall in Hall.
    destruct (Hall _ (list_elem_of_lookup_2 _ _ _ Ej)) as [rows Hr]. discriminate.
  - assert (Hlw : last_write results k j = None)
      by (unfold last_write; now rewrite Ej).
    rewrite Hlw. apply IH.
Qed.

Lemma last_omap_same_elements {A B : Type} (f : A -> option B) (l1 l2 : list A) :
  (forall x, x ∈ l1 <-> x ∈ l2) ->
  (forall x y b c, x ∈ l1 -> y ∈ l1 -> f x = Some b -> f y = Some c -> b = c) ->
  last (omap f l1) = last (omap f l2).
Proof.
  intros Hsame Hone.
  destruct (last (omap f l1)) as [b|] eqn:E1;
    destruct (last (omap f l2)) as [c|] eqn:E2; try reflexivity.
  - apply last_Some_elem_of, list_elem_of_omap in E1 as (x & Hx & Fx).
    apply last_Some_elem_of, list_elem_of_omap in E2 as (y & Hy & Fy).
    f_equal. apply (Hone x y b c); try assumption. now apply Hsame.
  - apply last_Some_elem_of, list_elem_of_omap in E1 as (x & Hx & Fx).
    apply last_None in E2.
    assert (Hb : b ∈ omap f l2)
      by (apply list_elem_of_omap; exists x; split; [now apply Hsame|exact Fx]).
    rewrite E2 in Hb. now apply elem_of_nil in Hb.
  - apply last_Some_elem_of, list_elem_of_omap in E2 as (y & Hy & Fy).
    apply last_None in E1.
    assert (Hc : c ∈ omap f l1)
      by (apply list_elem_of_omap; exists y; split; [now apply Hsame|exact Fy]).
    rewrite E1 in Hc. now apply elem_of_nil in Hc.
Qed.

Lemma last_write_row results k j r :
  last_write results k j = Some r ->
  exists rows, results !! j = Some (Ok rows) /\ r ∈ rows /\ bar_key r = k.
Proof.
  unfold last_write. destruct (results !! j) as [[rows|e]|]; try discriminate.
  intros Hl. apply last_Some_elem_of in Hl. unfold rows_with in Hl.
  apply list_elem_of_filter in Hl as [Hk Hr]. exists rows. auto.
Qed.

(** When no two futures return rows for one symbol, the rows that are
    stored at the end do not depend on the order of completion. *)
Lemma persist_completed_order conn results order1 order2 :
  Forall (fun r : result (list bar) => exists rows, r = Ok rows) results ->
  (forall i j rows rows' b b',
     results !! i = Some (Ok rows) -> results !! j = Some (Ok rows') ->
     b ∈ rows -> b' ∈ rows' -> bar_symbol b = bar_symbol b' -> i = j) ->
  order1 ≡ₚ order2 ->
  forall k,
    rows_with bar_key k
      (daily_history (working (snd (persist_completed conn results order1))))
    = rows_with bar_key k
        (daily_history (working (snd (persist_completed conn results order2)))).
Proof.
  intros Hall Hdisj Hperm k. rewrite !persist_completed_rows_with by assumption.
  rewrite (last_omap_same_elements (last_write results k) order1 order2);
    [reflexivity| |].
  - intros x. now rewrite Hperm.
  - intros x y b c _ _ Hb Hc.
    destruct (last_write_row _ _ _ _ Hb) as (rows & Ex & Hbr & Kb).
    destruct (last_write_row _ _ _ _ Hc) as (rows' & Ey & Hcr & Kc).
    assert (x = y).
    { apply (Hdisj x y rows rows' b c); try assumption.
      unfold bar_key in Kb, Kc. rewrite <- Kc in Kb. now inversion Kb. }
    subst y. congruence.
Qed.

Lemma chunks_disjoint {A : Type} (l : list A) (b i j : nat) (x : A) :
  NoDup l ->
  x ∈ take b (drop (i * b) l) -> x ∈ take b (drop (j * b) l) -> i = j.
Proof.
  intros Hnd Hi Hj.
  apply elem_of_take in Hi as (p & Hp & Hpb).
  apply elem_of_take in Hj as (q & Hq & Hqb).
  rewrite lookup_drop in Hp, Hq.
  pose proof (NoDup_lookup _ _ _ _ Hnd Hp Hq) as E. nia.
Qed.

Section BatchSize.

Variable cfg : Settings.

Lemma make_batches_zero (symbols : list string) :
  BULK_BATCH_SIZE cfg = 0 -> make_batches cfg symbols = Raise ValueError.
Proof. intros E. unfold make_batches, py_range. now rewrite E. Qed.

Lemma make_batches_negative (symbols : list string) :
  BULK_BATCH_SIZE cfg < 0 -> make_batches cfg symbols = Ok [].
Proof.
  intros Hneg. unfold make_batches, py_range.
  replace (BULK_BATCH_SIZE cfg =? 0) with false by (symmetry; apply Z.eqb_neq; lia).
  replace (0 <? BULK_BATCH_SIZE cfg) with false by (symmetry; apply Z.ltb_ge; lia).
  replace (Z.of_nat (length symbols) <? 0) with false
    by (symmetry; apply Z.ltb_ge; lia).
  reflexivity.
Qed.

End BatchSize.

Section CompletionOrder.

Context {rt : Runtime}.
Variable cfg : Settings.
Variable yf_download :
  nat -> Z -> list string -> string -> string -> result dataframe.

(** X12. In bulk mode the outcome does not depend on the order in which
    the batches finish: for a plan with distinct symbols, two runs that
    differ only in the order of completion return the same, make the same
    requests, and store the same rows under every (symbol, date) key. *)
Theorem bulk_download_ignores_completion_order
    (now : date) (order1 order2 : list nat) (conn : connection)
    (plan : list plan_entry) :
  NoDup (map plan_symbol plan) ->
  order1 ≡ₚ order2 ->
  let run := fun order => bulk_download cfg yf_download now order conn plan in
  fst (fst (run order1)) = fst (fst (run order2))
  /\ snd (run order1) = snd (run order2)
  /\ forall k,
       rows_with bar_key k (daily_history (working (snd (fst (run order1)))))
       = rows_with bar_key k (daily_history (working (snd (fst (run order2))))).
Proof.
  intros Hnd Hperm. cbv zeta.
  destruct plan as [|first rest]; [repeat split|].
  destruct (end_plus_one_of now (end_date first)) as [epo|e] eqn:Ee;
    [|unfold bulk_download; rewrite Ee; repeat split].
  destruct (Z.leb_spec (BULK_WORKERS cfg) 0) as [Hnw|Hw].
  { unfold bulk_download, thread_pool. rewrite Ee.
    replace (BULK_WORKERS cfg <=? 0) with true by (symmetry; apply Z.leb_le; lia).
    destruct (make_batches cfg (map plan_symbol (first :: rest)));
      repeat split. }
  destruct (Z.ltb_spec 0 (BULK_BATCH_SIZE cfg)) as [Hpos|Hle].
  - destruct (make_batches_chunks cfg (map plan_symbol (first :: rest)) Hpos)
      as (cnt & Eb & Hup & Hlow).
    set (b := Z.to_nat (BULK_BATCH_SIZE cfg)) in *.
    set (symbols := map plan_symbol (first :: rest)) in *.
    set (batches := map (fun k => take b (drop (k * b) symbols)) (seq 0 cnt)) in *.
    assert (Hbatch : forall i batch, batches !! i = Some batch ->
                       batch = take b (drop (i * b) symbols) /\ (i < cnt)%nat).
    { intros i batch Hi. unfold batches in Hi. rewrite lookup_map in Hi.
      destruct (seq 0 cnt !! i) as [k|] eqn:Ek; [|discriminate].
      apply lookup_seq in Ek as [-> Hlt]. cbn in Hi. injection Hi as <-. auto. }
    assert (Hne : Forall (fun batch : list string => batch <> []) batches).
    { apply Forall_forall. intros batch Hin.
      apply list_elem_of_lookup in Hin as [i Hi].
      apply Hbatch in Hi as [-> Hlt]. specialize (Hlow i Hlt).
      intros Hnil. apply (f_equal length) in Hnil.
      rewrite length_take, length_drop in Hnil.
      change (length (@nil string)) with 0%nat in Hnil.
      assert (0 < b)%nat by (unfold b; lia). lia. }
    pose proof (bulk_results_Ok cfg yf_download (start_date first) epo batches Hne)
      as Hok.
    rewrite !(bulk_download_unfold cfg yf_download now _ conn first rest epo batches
                Hw Ee Eb).
    cbn [fst snd]. split; [|split; [reflexivity|]].
    + now rewrite !persist_completed_completes.
    + apply persist_completed_order; [exact Hok| |exact Hperm].
      intros i j rows rows' x x' Hi Hj Hx Hx' Hsym.
      rewrite list_lookup_imap in Hi, Hj.
      destruct (batches !! i) as [bi|] eqn:Ebi; [|discriminate].
      destruct (batches !! j) as [bj|] eqn:Ebj; [|discriminate].
      cbn in Hi, Hj. injection Hi as Hi. injection Hj as Hj.
      apply fetch_attempts_symbols in Hi, Hj. rewrite Forall_forall in Hi, Hj.
      specialize (Hi x Hx). specialize (Hj x' Hx'). rewrite <- Hsym in Hj.
      apply Hbatch in Ebi as [-> _]. apply Hbatch in Ebj as [-> _].
      exact (chunks_disjoint symbols b i j (bar_symbol x) Hnd Hi Hj).
  - unfold bulk_download, thread_pool. rewrite Ee.
    replace (BULK_WORKERS cfg <=? 0) with false by (symmetry; apply Z.leb_gt; lia).
    destruct (Z.eq_dec (BULK_BATCH_SIZE cfg) 0) as [Hz|Hnz].
    + rewrite make_batches_zero by assumption. repeat split.
    + rewrite make_batches_negative by lia. cbn [imap map fst snd].
      rewrite !persist_completed_no_results. repeat split.
Qed.

(** X13. The batch size at its edges. With [BULK_BATCH_SIZE] equal to 0
    the bulk download raises ValueError, as [range] does for a step of 0,
    before any request is made and with nothing stored; with a negative
    [BULK_BATCH_SIZE] there is no batch: the call returns, requests
    nothing and stores nothing (the thread pool is created then, and
    needs a positive [BULK_WORKERS]). *)
Theorem bulk_download_batch_size_edges
    (now : date) (order : list nat) (conn : connection)
    (first : plan_entry) (rest : list plan_entry) (epo : string) :
  end_plus_one_of now (end_date first) = Ok epo ->
  (BULK_BATCH_SIZE cfg = 0 ->
   bulk_download cfg yf_download now order conn (first :: rest)
   = (Raise ValueError, conn, []))
  /\ (BULK_BATCH_SIZE cfg < 0 -> 0 < BULK_WORKERS cfg ->
      bulk_download cfg yf_download now order conn (first :: rest)
      = (Ok tt, conn, [])).
Proof.
  intros Ee. split; [intros Hb|intros Hb Hw];
    unfold bulk_download, thread_pool; rewrite Ee.
  - now rewrite make_batches_zero.
  - rewrite make_batches_negative by assumption.
    replace (BULK_WORKERS cfg <=? 0) with false by (symmetry; apply Z.leb_gt; lia).
    cbn [imap map].
    now rewrite persist_completed_no_results.
Qed.

End CompletionOrder.

(** ** The selector and the snapshot *)

Lemma executemany_coins_Ok now source cs db db' :
  executemany_coins now (map (coin_params source) cs) db = Ok db' ->
  db' = set_coins
          (fun t => foldl (fun t r => replace_into row_symbol r t) t
                      (map (coin_row_of now source) cs)) db.
Proof.
  intros E. destruct (forallb coin_bindable cs) eqn:Hb.
  - rewrite (executemany_coins_bindable _ _ _ _ Hb) in E. now injection E.
  - destruct (executemany_coins_unbindable now source cs db Hb) as [e He].
    congruence.
Qed.

Lemma insert_top_coins_Ok now conn cs source u conn' :
  cs <> [] -> NoDup (map symbol cs) ->
  insert_top_coins now conn cs source = (Ok u, conn') ->
  coins (committed conn') = map (coin_row_of now source) cs
  /\ working conn' = committed conn'
  /\ daily_history (committed conn') = daily_history (working conn)
  /\ journal conn' = committed conn :: journal conn.
Proof.
  intros Hne Hnd. destruct cs as [|c0 cs0]; [congruence|].
  set (cs := c0 :: cs0) in *. unfold insert_top_coins. fold cs.
  change (match cs with [] => (Ok tt, conn) | _ :: _ => ?x end) with x.
  cbv zeta.
  destruct (executemany_coins now (map (coin_params source) cs)
              (working (execute (set_coins (fun _ => [])) conn))) as [db|e] eqn:E;
    [|discriminate].
  apply executemany_coins_Ok in E. intros [= _ <-]. subst db.
  cbn [commit execute committed working journal set_coins coins daily_history].
  repeat split.
  rewrite foldl_replace_fresh; [reflexivity|].
  cbn [app]. rewrite map_map. erewrite map_ext; [exact Hnd|]. intros c. reflexivity.
Qed.

Lemma insert_top_coins_Raise now conn cs source e conn' :
  insert_top_coins now conn cs source = (Raise e, conn') ->
  committed conn' = committed conn /\ working conn' = committed conn
  /\ journal conn' = journal conn.
Proof.
  destruct cs as [|c0 cs0]; [discriminate|]. unfold insert_top_coins.
  cbv zeta.
  destruct (executemany_coins _ _ _) as [db|e']; [discriminate|].
  intros [= _ <-]. repeat split.
Qed.

Section SelectorSnapshot.

Context {rt : Runtime}.
Variable requests_get : string -> Z -> Z -> result json.
Variable sql_now : string.

Lemma pages_loop_NoDup collected :
  pages_loop requests_get max_pages 0 [] ∅ = Ok collected ->
  NoDup (map symbol
           (assign_ranks (take (Z.to_nat target_count) (sort_desc collected)))).
Proof.
  intros Ep.
  destruct (pages_loop_inv requests_get max_pages 0 [] ∅ collected
              (selector_inv_init requests_get) Ep) as (seen & ND & _ & _).
  rewrite assign_ranks_map by reflexivity.
  rewrite <- firstn_map.
  eapply sublist_NoDup; [|apply sublist_take].
  rewrite (Permutation_map symbol (sort_desc_perm collected)). exact ND.
Qed.

(** X14. The list that [run_filter1] returns and the snapshot that it
    stores agree. When a non-empty list is returned, the committed table
    [coins] holds exactly the rows of the returned records, in rank order,
    the row at position [i] with rank [i + 1]; nothing is left
    uncommitted and the history table is as it was. When the empty list
    is returned the connection is untouched, so an earlier snapshot
    stays. When [run_filter1] raises, the committed database is the one
    from before the call. *)
Theorem run_filter1_stores_what_it_returns (conn : connection) :
  let out := run_filter1 requests_get sql_now conn in
  (forall l, fst out = Ok l -> l <> [] ->
     coins (committed (snd out))
     = map (coin_row_of sql_now "yahoo_screener_api") l
     /\ (forall i row, coins (committed (snd out)) !! i = Some row ->
           row_rank row = Z.of_nat i + 1)
     /\ working (snd out) = committed (snd out)
     /\ daily_history (committed (snd out)) = daily_history (working conn)
     /\ journal (snd out) = committed conn :: journal conn)
  /\ (fst out = Ok [] -> snd out = conn)
  /\ (forall e, fst out = Raise e ->
        committed (snd out) = committed conn /\ journal (snd out) = journal conn).
Proof.
  cbv zeta. unfold run_filter1.
  destruct (pages_loop requests_get max_pages 0 [] ∅) as [collected|e] eqn:Ep.
  2:{ cbn [fst snd]. split; [discriminate|]. split; [discriminate|].
      intros e' _. split; reflexivity. }
  cbv zeta. pose proof (pages_loop_NoDup collected Ep) as Hnd.
  set (l := assign_ranks (take (Z.to_nat target_count) (sort_desc collected))) in *.
  destruct (insert_top_coins sql_now conn l "yahoo_screener_api")
    as [[u|e] conn'] eqn:Ei; cbn [fst snd].
  - split; [|split; [|discriminate]].
    + intros l' [= <-] Hne.
      destruct (insert_top_coins_Ok _ _ _ _ _ _ Hne Hnd Ei) as (Hc & Hw & Hh & Hj).
      split; [exact Hc|]. split; [|auto].
      intros i row Hrow. rewrite Hc, lookup_map in Hrow.
      destruct (l !! i) as [c|] eqn:Hl; [|discriminate].
      cbn in Hrow. injection Hrow as <-.
      apply assign_ranks_lookup in Hl as (c0 & _ & ->). cbn. lia.
    + intros [= Hl]. rewrite Hl in Ei. cbn in Ei. now injection Ei.
  - split; [discriminate|]. split; [discriminate|].
    intros e' _. apply insert_top_coins_Raise in Ei as (Hc & _ & Hj). auto.
Qed.

Lemma run_filter1_no_first_page conn :
  (forall quotes, fst (_fetch_page_json requests_get 0 page_size) = Ok quotes ->
     quotes = []) ->
  run_filter1 requests_get sql_now conn = (Ok [], conn).
Proof.
  intros Hnone. unfold run_filter1, max_pages. cbn [pages_loop].
  destruct (fst (_fetch_page_json requests_get 0 page_size)) as [quotes|e];
    [|reflexivity].
  rewrite (Hnone quotes eq_refl). reflexivity.
Qed.

Lemma fetch_page_all_down start count :
  (forall base, base ∈ YF_SCREENER_URLS ->
     exists e, requests_get base start count = Raise e) ->
  fst (_fetch_page_json requests_get start count) = Raise RuntimeError.
Proof.
  intros Hdown. unfold _fetch_page_json, YF_SCREENER_URLS, mirrors_loop.
  destruct (Hdown "https://query1.finance.yahoo.com/v1/finance/screener/predefined/saved")
    as [e1 ->]; [left|].
  destruct (Hdown "https://query2.finance.yahoo.com/v1/finance/screener/predefined/saved")
    as [e2 ->]; [right; left|].
  reflexivity.
Qed.

(** X15. When the first page of the ranking source cannot be had, or has
    no quote, [run_filter1] returns the empty list and leaves the
    connection as it was: the snapshot of an earlier run stays in the
    table. This is so, for instance, when every mirror raises. *)
Theorem run_filter1_without_first_page (conn : connection) :
  ((forall quotes, fst (_fetch_page_json requests_get 0 page_size) = Ok quotes ->
      quotes = []) ->
   run_filter1 requests_get sql_now conn = (Ok [], conn))
  /\ ((forall base, base ∈ YF_SCREENER_URLS ->
         exists e, requests_get base 0 page_size = Raise e) ->
      run_filter1 requests_get sql_now conn = (Ok [], conn)).
Proof.
  split; [apply run_filter1_no_first_page|].
  intros Hdown. apply run_filter1_no_first_page. intros quotes.
  rewrite (fetch_page_all_down 0 page_size Hdown). discriminate.
Qed.

Lemma quotes_loop_app st pre post :
  quotes_loop st (pre ++ post)
  = match quotes_loop st pre with
    | Ok st' => quotes_loop st' post
    | Raise e => Raise e
    end.
Proof.
  revert st. induction pre as [|q pre IH]; intros st; [reflexivity|].
  cbn [app quotes_loop]. destruct (add_quote st q) as [st'|e]; [apply IH|reflexivity].
Qed.

(** X16. A quote that is not an object is not contained: when a page
    that is served holds such a quote behind quotes that the selector can
    process, the loop over the page raises AttributeError; on the first
    page, [run_filter1] raises it and the connection is as it was,
    nothing is written. *)
Theorem run_filter1_malformed_quote (conn : connection)
    (pre post : list json) (bad : json) :
  (forall kv, bad <> JDict kv) ->
  Forall (fun q => quote_ok q = true) pre ->
  (forall st, quotes_loop st (pre ++ bad :: post) = Raise AttributeError)
  /\ (fst (_fetch_page_json requests_get 0 page_size) = Ok (pre ++ bad :: post) ->
      run_filter1 requests_get sql_now conn = (Raise AttributeError, conn)).
Proof.
  intros Hbad Hpre.
  assert (Hloop : forall st, quotes_loop st (pre ++ bad :: post) = Raise AttributeError).
  { intros st. rewrite quotes_loop_app.
    destruct (quotes_loop_total pre st Hpre) as [[[c1 s1] n1] ->].
    cbn [quotes_loop]. unfold add_quote.
    destruct bad; try reflexivity. exfalso. exact (Hbad _ eq_refl). }
  split; [exact Hloop|].
  intros Ep. unfold run_filter1, max_pages. cbn [pages_loop].
  rewrite Ep, Hloop. reflexivity.
Qed.

(** X17. A quote without a symbol is not skipped. [str] turns the
    missing symbol into the text "None", which is not empty, so the first
    such quote is collected under the symbol "None", and later ones
    count as repetitions of it. Only a quote whose symbol is the empty
    text is skipped by the emptiness test. *)
Theorem add_quote_missing_symbol
    (collected : list coin) (seen : gset string) (n : Z)
    (kv : list (string * json)) (cap : float) :
  dict_get kv "symbol" = None \/ dict_get kv "symbol" = Some JNull ->
  _extract_market_cap (JDict kv) = Ok cap ->
  ("None" ∉ seen ->
   exists nm,
     add_quote (collected, seen, n) (JDict kv)
     = Ok (collected ++ [mkcoin "None" nm cap None], {["None"]} ∪ seen, n + 1))
  /\ ("None" ∈ seen ->
      add_quote (collected, seen, n) (JDict kv) = Ok (collected, seen, n))
  /\ (forall kv', dict_get kv' "symbol" = Some (JStr "") ->
        add_quote (collected, seen, n) (JDict kv') = Ok (collected, seen, n)).
Proof.
  intros Hsym Hcap.
  assert (Es : py_str (default JNull (dict_get kv "symbol")) = "None").
  { destruct Hsym as [-> | ->]; reflexivity. }
  split; [|split].
  - intros Hfresh. unfold add_quote. cbn [py_get bind]. rewrite Es.
    cbn [String.eqb Ascii.eqb Bool.eqb orb].
    rewrite bool_decide_eq_false_2 by assumption.
    rewrite Hcap. cbn [bind]. eauto.
  - intros Hseen. unfold add_quote. cbn [py_get bind]. rewrite Es.
    rewrite bool_decide_eq_true_2 by assumption. now rewrite orb_true_r.
  - intros kv' E. unfold add_quote. cbn [py_get bind]. rewrite E. reflexivity.
Qed.

End SelectorSnapshot.

(** ** The rows that the workers build *)

Section WorkerRows.

Context {rt : Runtime}.
Variable cfg : Settings.
Variable yf_download :
  nat -> Z -> list string -> string -> string -> result dataframe.
Variable ticker_history :
  string -> string -> string -> option Z -> result (list frame_row).

Lemma safe_float_cell_value r column :
  safe_float (row_get r column) = Ok (cell r column).
Proof.
  unfold safe_float, row_get, cell. destruct (assoc column (cells r)); reflexivity.
Qed.

Lemma bar_of_row_value sym r : bar_of_row sym r = Ok (bar_from sym r).
Proof.
  unfold bar_of_row. rewrite !safe_float_cell_value. reflexivity.
Qed.

Lemma bars_of_rows_value sym rows :
  bars_of_rows sym rows = Ok (map (bar_from sym) rows).
Proof.
  induction rows as [|r rows IH]; [reflexivity|].
  cbn [bars_of_rows]. rewrite bar_of_row_value, IH. reflexivity.
Qed.

Lemma dropna_all_has_value rows : dropna_all rows = List.filter has_value rows.
Proof.
  unfold dropna_all. induction rows as [|r rows IH]; [reflexivity|].
  cbn [List.filter]. rewrite IH.
  assert (E : negb (forallb (fun kv : string * float => PrimFloat.is_nan (snd kv))
                      (cells r)) = has_value r).
  { unfold has_value. induction (cells r) as [|kv l IHl]; [reflexivity|].
    cbn [forallb existsb]. rewrite negb_andb, IHl. reflexivity. }
  now rewrite E.
Qed.

Lemma parse_tickers_value tickers batch :
  parse_tickers tickers batch
  = Ok (flat_map
          (fun s => match lookup_ticker s tickers with
                    | Some srows => map (bar_from s) (List.filter has_value srows)
                    | None => []
                    end) batch).
Proof.
  induction batch as [|s batch IH]; [reflexivity|].
  cbn [parse_tickers flat_map]. rewrite IH.
  destruct (lookup_ticker s tickers) as [srows|]; [|reflexivity].
  rewrite bars_of_rows_value, dropna_all_has_value. reflexivity.
Qed.

(** X18. The rows that the workers build from a frame that is not
    grouped by ticker. [_parse_batch_df] returns the bars of the rows that
    have a cell that is not NaN, all under the first symbol of the batch;
    with an empty batch it raises IndexError. A bar has the ISO date of
    the row, the five price columns by name, and 0.0 for a column that is
    missing. The worker of the per-symbol mode, when its first call
    answers, builds the bars of all rows of a frame that is not empty, and
    no bar from an empty one. *)
Theorem parse_rows_exactly
    (rows : list frame_row) (sym : string) (batch : list string)
    (now : date) (item : plan_entry) (epo : string) :
  _parse_batch_df (FlatFrame rows) (sym :: batch)
  = Ok (map (bar_from sym) (List.filter has_value rows))
  /\ _parse_batch_df (FlatFrame rows) [] = Raise IndexError
  /\ (end_plus_one_of now (end_date item) = Ok epo ->
      ticker_history (plan_symbol item) (start_date item) epo
        (Some (REQUEST_TIMEOUT cfg)) = Ok rows ->
      fst (fetch_symbol_rows cfg ticker_history now item)
      = Ok (if rows_empty rows then []
            else map (bar_from (plan_symbol item)) rows)).
Proof.
  split; [|split; [reflexivity|]].
  - cbn [_parse_batch_df]. now rewrite bars_of_rows_value, dropna_all_has_value.
  - intros Ee Eh. unfold fetch_symbol_rows. cbv zeta. rewrite Ee, Eh. cbn [fst].
    destruct (rows_empty rows); [reflexivity|apply bars_of_rows_value].
Qed.

Lemma backoff_bounds k : 1 <= k -> (0 < backoff k /\ backoff k <= 5)%Q.
Proof.
  intros Hk. unfold backoff. split.
  - apply Q.min_glb_lt; [reflexivity|].
    unfold Qlt, Qmult, inject_Z. cbn. lia.
  - apply Q.le_min_l.
Qed.

Lemma fetch_attempts_bound start epo i batch remaining :
  forall attempt, 0 <= attempt ->
  let log := snd (fetch_attempts yf_download start epo i batch remaining attempt) in
  (length (List.filter is_download log) <= remaining)%nat
  /\ ((length (List.filter is_sleep log) < length (List.filter is_download log))%nat
      \/ fst (fetch_attempts yf_download start epo i batch remaining attempt) = Ok []
         /\ length (List.filter is_sleep log) = remaining
         /\ length (List.filter is_download log) = remaining)
  /\ Forall (fun ev => match ev with
                       | Download i' b s e => i' = i /\ b = batch /\ s = start /\ e = epo
                       | Sleep w => (0 < w /\ w <= 5)%Q
                       | History _ _ _ _ => False
                       end) log.
Proof.
  induction remaining as [|remaining IH]; intros attempt Ha; cbv zeta.
  - cbn. split; [lia|]. split; [right; auto|constructor].
  - cbn [fetch_attempts].
    destruct (yf_download i (attempt + 1) batch start epo) as [df|e].
    + destruct (df_empty df); cbn [fst snd List.filter is_download is_sleep length];
        (split; [lia|]); (split; [left; lia|]);
        (constructor; [auto|constructor]).
    + specialize (IH (attempt + 1) ltac:(lia)). cbv zeta in IH.
      destruct (fetch_attempts yf_download start epo i batch remaining (attempt + 1))
        as [r log]. cbn [fst snd] in *.
      destruct IH as (Hd & Hs & Hall).
      cbn [List.filter is_download is_sleep length].
      split; [lia|]. split.
      * destruct Hs as [Hs|(Hr & Hs1 & Hs2)]; [left; lia|right].
        split; [exact Hr|]. lia.
      * constructor; [auto|]. constructor; [|exact Hall].
        apply backoff_bounds. lia.
Qed.

(** X19. Whatever the quote source does, [fetch_batch_rows] asks at
    most [BULK_MAX_RETRIES] times for a batch, always for the tickers and
    the window of the batch, waits only after a request that failed and
    never longer than 5 seconds at a time; it waits after every request
    only when all [BULK_MAX_RETRIES] requests failed, and then returns no
    row. With [BULK_MAX_RETRIES] at 0 or below it makes no request at
    all. *)
Theorem fetch_batch_rows_request_bound
    (start epo : string) (i : nat) (batch : list string) :
  let out := fetch_batch_rows cfg yf_download start epo i batch in
  let requests := length (List.filter is_download (snd out)) in
  let waits := length (List.filter is_sleep (snd out)) in
  (Z.of_nat requests <= Z.max 0 (BULK_MAX_RETRIES cfg))
  /\ (waits <= requests)%nat
  /\ (waits = requests ->
      fst out = Ok [] /\ Z.of_nat requests = Z.max 0 (BULK_MAX_RETRIES cfg))
  /\ Forall (fun ev => match ev with
                       | Download i' b s e => i' = i /\ b = batch /\ s = start /\ e = epo
                       | Sleep w => (0 < w /\ w <= 5)%Q
                       | History _ _ _ _ => False
                       end) (snd out)
  /\ (BULK_MAX_RETRIES cfg <= 0 -> out = (Ok [], [])).
Proof.
  cbv zeta. unfold fetch_batch_rows.
  pose proof (fetch_attempts_bound start epo i batch
                (Z.to_nat (BULK_MAX_RETRIES cfg)) 0 ltac:(lia)) as H.
  cbv zeta in H. destruct H as (Hd & Hs & Hall).
  split; [lia|]. split; [lia|]. split; [|split; [exact Hall|]].
  - intros E. destruct Hs as [Hs|(Hr & Hs1 & Hs2)]; [lia|].
    split; [exact Hr|]. lia.
  - intros Hle. replace (Z.to_nat (BULK_MAX_RETRIES cfg)) with 0%nat by lia.
    reflexivity.
Qed.

End WorkerRows.

(** ** Pages without data *)

Section PageOutcomes.

Variable requests_get : string -> Z -> Z -> result json.
Variables start count : Z.

(** X20. A page without data from any mirror. When every mirror answers
    without a quote list, [_fetch_page_json] returns the empty page after
    asking all of them. When no mirror gives a quote list and one of them
    failed, it raises RuntimeError after asking all of them, also when a
    mirror asked after the failing one answered without data. *)
Theorem fetch_page_without_quotes :
  let out := _fetch_page_json requests_get start count in
  let outcome := fun u => mirror requests_get u start count in
  (Forall (fun u => outcome u = NoData) YF_SCREENER_URLS ->
   out = (Ok [], YF_SCREENER_URLS))
  /\ (Forall (yields_nothing requests_get start count) YF_SCREENER_URLS ->
      Exists (fun u => exists e, outcome u = Failed e) YF_SCREENER_URLS ->
      out = (Raise RuntimeError, YF_SCREENER_URLS))
  /\ (forall e, outcome "https://query1.finance.yahoo.com/v1/finance/screener/predefined/saved"
                = Failed e ->
        outcome "https://query2.finance.yahoo.com/v1/finance/screener/predefined/saved"
        = NoData ->
        out = (Raise RuntimeError, YF_SCREENER_URLS)).
Proof.
  cbv zeta. unfold _fetch_page_json.
  pose proof (mirrors_loop_spec requests_get start count YF_SCREENER_URLS None)
    as [Hr Ho]. cbv zeta in Hr, Ho.
  assert (Hraise : Forall (yields_nothing requests_get start count) YF_SCREENER_URLS ->
            Exists (fun u => exists e, mirror requests_get u start count = Failed e)
              YF_SCREENER_URLS ->
            mirrors_loop requests_get YF_SCREENER_URLS start count None
            = (Raise RuntimeError, YF_SCREENER_URLS)).
  { intros Hnone Hfail.
    destruct (mirrors_loop requests_get YF_SCREENER_URLS start count None)
      as [[quotes|e] log]; cbn [fst snd] in *.
    - exfalso. destruct (Ho quotes eq_refl)
        as [(pre & u & post & E & _ & Hu & _)|(_ & _ & Hall & _)].
      + rewrite Forall_forall in Hnone.
        assert (Hin : u ∈ YF_SCREENER_URLS)
          by (rewrite E; apply elem_of_app; right; left).
        exact (Hnone u Hin quotes Hu).
      + apply Exists_exists in Hfail as (u & Hin & e & He).
        rewrite Forall_forall in Hall. rewrite (Hall u Hin) in He. discriminate.
    - destruct (Hr e eq_refl) as (-> & _ & _ & ->). reflexivity. }
  split; [|split; [exact Hraise|]].
  - intros Hall.
    destruct (mirrors_loop requests_get YF_SCREENER_URLS start count None)
      as [[quotes|e] log]; cbn [fst snd] in *.
    + destruct (Ho quotes eq_refl)
        as [(pre & u & post & E & _ & Hu & _)|(-> & _ & _ & ->)];
        [|reflexivity].
      exfalso. rewrite Forall_forall in Hall.
      rewrite (Hall u) in Hu; [discriminate|].
      rewrite E. apply elem_of_app. right. left.
    + exfalso. destruct (Hr e eq_refl) as (_ & _ & [[x Hx]|Hfail] & _);
        [discriminate|].
      apply Exists_exists in Hfail as (u & Hin & e' & He).
      rewrite Forall_forall in Hall. rewrite (Hall u Hin) in He. discriminate.
  - intros e E1 E2. apply Hraise.
    + unfold YF_SCREENER_URLS. repeat constructor; intros q Hq; congruence.
    + unfold YF_SCREENER_URLS. apply Exists_cons_hd. eauto.
Qed.

End PageOutcomes.

(** ** Exceptions that are not contained *)

(** X21. When the result of a future raises, the loop over the completed
    futures ends there with that exception: the rows of the futures that
    completed before are stored, as if the run had ended with them, and
    the rows of the futures that complete later are not stored. *)
Theorem persist_completed_stops_at_exception
    (conn : connection) (results : list (result (list bar)))
    (before after : list nat) (i : nat) (e : exn) :
  results !! i = Some (Raise e) ->
  Forall (fun j => forall e', results !! j <> Some (Raise e')) before ->
  persist_completed conn results (before ++ i :: after)
  = (Raise e, snd (persist_completed conn results before))
  /\ fst (persist_completed conn results before) = Ok tt.
Proof.
  intros Hi Hbefore. revert conn.
  induction before as [|j before IH]; intros conn.
  - cbn [app]. rewrite persist_completed_cons, Hi. split; reflexivity.
  - apply Forall_cons in Hbefore as [Hj Hbefore]. specialize (IH Hbefore).
    cbn [app]. rewrite !persist_completed_cons.
    destruct (results !! j) as [[rows|e']|]; [apply IH| |apply IH].
    exfalso. exact (Hj e' eq_refl).
Qed.

Section ConversionErrors.

Context {rt : Runtime}.

(** X22. What the two float readers let through. [_extract_market_cap]
    and [safe_float] never raise TypeError or ValueError; [safe_float]
    raises only OverflowError, for an integer that no float holds, and
    [_extract_market_cap] raises that or AttributeError, for a quote that
    is not an object. A float, NaN included, is returned as it is. *)
Theorem float_readers_errors (q x : json) (e : exn) (f : float) :
  (safe_float x = Raise e ->
   e = OverflowError /\ exists z, x = JInt z /\ float_of_int z = None)
  /\ (_extract_market_cap q = Raise e ->
      (e = AttributeError /\ forall kv, q <> JDict kv)
      \/ (e = OverflowError /\ exists kv, q = JDict kv))
  /\ safe_float (JFloat f) = Ok f
  /\ (forall kv, dict_get kv "marketCap" = Some (JFloat f) ->
        _extract_market_cap (JDict kv) = Ok f)
  /\ (forall kv d, dict_get kv "marketCap" = Some (JDict d) ->
        dict_get d "raw" = Some (JFloat f) ->
        _extract_market_cap (JDict kv) = Ok f).
Proof.
  assert (Hsafe : forall v e0, match py_float v with
                               | Ok f0 => Ok f0
                               | Raise TypeError => Ok 0%float
                               | Raise ValueError => Ok 0%float
                               | Raise e1 => Raise e1
                               end = Raise e0 ->
                    e0 = OverflowError /\ exists z, v = JInt z /\ float_of_int z = None).
  { intros v e0. destruct v as [|b|z|f0|s|l|kv]; cbn; try discriminate.
    - destruct (float_of_int z) eqn:Ez; [discriminate|].
      intros [= <-]. eauto.
    - destruct (float_of_str s); discriminate. }
  split; [apply Hsafe|]. split; [|split; [reflexivity|split]].
  - unfold _extract_market_cap. destruct q; cbn [py_get bind];
      try (intros [= <-]; left; split; [reflexivity|discriminate]).
    intros H. right.
    assert (He : e = OverflowError).
    { destruct (default JNull (dict_get kv "marketCap")) as [| | | | | |d];
        cbn [py_get bind] in H; try (now apply Hsafe in H as [-> _]). }
    subst e. eauto.
  - intros kv E. unfold _extract_market_cap. cbn [py_get bind]. rewrite E.
    reflexivity.
  - intros kv d E1 E2. unfold _extract_market_cap. cbn [py_get bind].
    rewrite E1. cbn [from_option id py_get bind]. rewrite E2. reflexivity.
Qed.

End ConversionErrors.

(** ** The date column *)

Section ReplaceElements.

Context {R K : Type} `{EqDecision K}.
Variable key : R -> K.

Lemma foldl_replace_elements (rows tbl : list R) x :
  x ∈ foldl (fun t r => replace_into key r t) tbl rows -> x ∈ tbl \/ x ∈ rows.
Proof.
  revert tbl. induction rows as [|r rows IH]; intros tbl Hx; [left; exact Hx|].
  cbn [foldl] in Hx. apply IH in Hx as [Hx|Hx]; [|right; now right].
  unfold replace_into in Hx. apply elem_of_app in Hx as [Hx|Hx].
  - left. now apply list_elem_of_filter in Hx as [_ Hx].
  - right. apply list_elem_of_singleton in Hx as ->. left.
Qed.

End ReplaceElements.

Lemma persist_completed_elements conn results order b :
  b ∈ daily_history (working (snd (persist_completed conn results order))) ->
  b ∈ daily_history (working conn)
  \/ exists j rows, results !! j = Some (Ok rows) /\ b ∈ rows.
Proof.
  revert conn. induction order as [|j order IH]; intros conn Hb; [left; exact Hb|].
  rewrite persist_completed_cons in Hb.
  destruct (results !! j) as [[rows|e]|] eqn:Ej.
  - apply IH in Hb as [Hb|Hb]; [|right; exact Hb].
    rewrite insert_daily_history_table in Hb.
    apply foldl_replace_elements in Hb as [Hb|Hb]; [left; exact Hb|].
    right. eauto.
  - left. exact Hb.
  - now apply IH.
Qed.

Lemma lookup_ticker_elem s tickers srows :
  lookup_ticker s tickers = Some srows -> (s, srows) ∈ tickers.
Proof.
  induction tickers as [|[s' rows'] tickers IH]; [discriminate|].
  cbn [lookup_ticker]. destruct (String.eqb s' s) eqn:E.
  - apply String.eqb_eq in E as ->. intros [= <-]. left.
  - intros H. right. now apply IH.
Qed.

Section DateColumn.

Context {rt : Runtime}.
Variable cfg : Settings.
Variable yf_download :
  nat -> Z -> list string -> string -> string -> result dataframe.
Variable ticker_history :
  string -> string -> string -> option Z -> result (list frame_row).

Hypothesis downloads_valid :
  forall i k tickers start_ end_ df,
    yf_download i k tickers start_ end_ = Ok df -> frame_valid df.
Hypothesis histories_valid :
  forall sym start_ end_ timeout rows,
    ticker_history sym start_ end_ timeout = Ok rows -> frame_rows_valid rows.

Lemma bars_iso sym rows :
  frame_rows_valid rows -> iso_dates (map (bar_from sym) rows).
Proof.
  intros Hv. unfold iso_dates. rewrite Forall_fmap. eapply Forall_impl; [exact Hv|].
  intros r Hr. exists (idx r). split; [exact Hr|reflexivity].
Qed.

Lemma frame_rows_valid_filter rows :
  frame_rows_valid rows -> frame_rows_valid (List.filter has_value rows).
Proof.
  unfold frame_rows_valid. rewrite !Forall_forall. intros Hv r Hr.
  apply Hv. apply list_elem_of_In in Hr. apply filter_In in Hr as [Hr _].
  now apply list_elem_of_In.
Qed.

Lemma parse_batch_df_iso df batch rows :
  frame_valid df -> _parse_batch_df df batch = Ok rows -> iso_dates rows.
Proof.
  intros Hv. destruct df as [tickers|frows]; cbn [_parse_batch_df].
  - rewrite parse_tickers_value.
    intros [= <-]. unfold iso_dates. apply Forall_forall. intros b Hb.
    apply list_elem_of_In, in_flat_map in Hb as (s & _ & Hb).
    destruct (lookup_ticker s tickers) as [srows|] eqn:El; [|destruct Hb].
    apply lookup_ticker_elem in El. cbn [frame_valid] in Hv.
    rewrite Forall_forall in Hv. specialize (Hv _ El). cbn [snd] in Hv.
    pose proof (bars_iso s _ (frame_rows_valid_filter _ Hv)) as Hiso.
    unfold iso_dates in Hiso. rewrite Forall_forall in Hiso.
    apply Hiso. now apply list_elem_of_In.
  - destruct batch as [|sym batch]; [discriminate|].
    rewrite bars_of_rows_value, dropna_all_has_value.
    intros [= <-]. apply bars_iso. now apply frame_rows_valid_filter.
Qed.

Lemma fetch_attempts_iso start epo i batch remaining :
  forall attempt rows,
    fst (fetch_attempts yf_download start epo i batch remaining attempt) = Ok rows ->
    iso_dates rows.
Proof.
  induction remaining as [|remaining IH]; intros attempt rows; cbn [fetch_attempts].
  - cbn. intros [= <-]. constructor.
  - destruct (yf_download i (attempt + 1) batch start epo) as [df|e] eqn:Ed.
    + destruct (df_empty df); cbn [fst].
      * intros [= <-]. constructor.
      * apply parse_batch_df_iso. exact (downloads_valid _ _ _ _ _ _ Ed).
    + destruct (fetch_attempts yf_download start epo i batch remaining (attempt + 1))
        as [r log] eqn:E.
      cbn [fst]. intros Hr. apply (IH (attempt + 1)). now rewrite E.
Qed.

Lemma fetch_symbol_rows_iso now item rows :
  fst (fetch_symbol_rows cfg ticker_history now item) = Ok rows ->
  iso_dates rows.
Proof.
  unfold fetch_symbol_rows. cbv zeta.
  destruct (end_plus_one_of now (end_date item)) as [epo|e]; [|discriminate].
  assert (Hrows : forall df rows',
            frame_rows_valid df ->
            (if rows_empty df then Ok [] else bars_of_rows (plan_symbol item) df)
            = Ok rows' -> iso_dates rows').
  { intros df rows' Hv. destruct (rows_empty df).
    - intros [= <-]. constructor.
    - rewrite bars_of_rows_value. intros [= <-]. now apply bars_iso. }
  destruct (ticker_history _ _ _ (Some _)) as [df|e] eqn:E1.
  - cbn [fst]. apply Hrows. exact (histories_valid _ _ _ _ _ E1).
  - destruct e; cbn [fst]; try (intros [= <-]; constructor).
    destruct (ticker_history _ _ _ None) as [df|e] eqn:E2; cbn [fst];
      [|discriminate].
    apply Hrows. exact (histories_valid _ _ _ _ _ E2).
Qed.

(** X23. The date column stays canonical. When the frames of the quote
    source are indexed by dates and the stored dates are ISO texts of
    dates, the dates stored after [run_history_fetch] are ISO texts of
    dates: the planner of the next run reads every one of them with
    [strptime], and their order as texts is their order in time. *)
Theorem run_history_fetch_keeps_iso_dates
    (utcnow : nat -> date) (order : list nat) (conn : connection)
    (plan : list plan_entry) :
  iso_dates (daily_history (working conn)) ->
  let after :=
    snd (fst (snd (run_history_fetch cfg yf_download ticker_history utcnow
                     order conn plan))) in
  iso_dates (daily_history (working after))
  /\ (forall b, b ∈ daily_history (working after) ->
        exists d, strptime_Ymd (bar_date b) = Some d /\ bar_date b = isoformat d)
  /\ (forall a b, a ∈ daily_history (working after) ->
        b ∈ daily_history (working after) ->
        forall da db, strptime_Ymd (bar_date a) = Some da ->
          strptime_Ymd (bar_date b) = Some db ->
          (String.ltb (bar_date a) (bar_date b) = true
           <-> toordinal da < toordinal db)).
Proof.
  intros Hiso. cbv zeta.
  destruct (run_history_fetch_workers cfg yf_download ticker_history utcnow
              order conn plan) as (results & -> & Hwork).
  assert (Hafter : iso_dates
            (daily_history (working (snd (persist_completed conn results order))))).
  { unfold iso_dates. apply Forall_forall. intros b Hb.
    apply persist_completed_elements in Hb as [Hb|(j & rows & Ej & Hb)].
    - unfold iso_dates in Hiso. rewrite Forall_forall in Hiso. now apply Hiso.
    - assert (Hrows : iso_dates rows).
      { destruct (Hwork j rows Ej)
          as [(sd & epo & batch & rem & att & Hr & _)|(now & item & _ & Hr)].
        - now apply fetch_attempts_iso in Hr.
        - now apply fetch_symbol_rows_iso in Hr. }
      unfold iso_dates in Hrows. rewrite Forall_forall in Hrows. now apply Hrows. }
  split; [exact Hafter|].
  unfold iso_dates in Hafter. rewrite Forall_forall in Hafter. split.
  - intros b Hb. destruct (Hafter b Hb) as (d & Vd & E). exists d.
    split; [|exact E]. rewrite E. now apply strptime_isoformat.
  - intros a b Ha Hb da db Pa Pb.
    destruct (Hafter a Ha) as (d1 & V1 & E1). destruct (Hafter b Hb) as (d2 & V2 & E2).
    rewrite E1 in Pa. rewrite E2 in Pb.
    rewrite strptime_isoformat in Pa, Pb by assumption.
    injection Pa as <-. injection Pb as <-.
    rewrite E1, E2, isoformat_ltb by assumption. apply Z.ltb_lt.
Qed.

End DateColumn.

(** ** The run *)

Lemma insert_top_coins_history now conn cs source :
  working conn = committed conn ->
  daily_history (working (snd (insert_top_coins now conn cs source)))
  = daily_history (working conn).
Proof.
  intros Hs. destruct cs as [|c0 cs0]; [reflexivity|].
  unfold insert_top_coins. cbv zeta.
  destruct (executemany_coins now (map (coin_params source) (c0 :: cs0))
              (working (execute (set_coins (fun _ => [])) conn))) as [db|e] eqn:E.
  - apply executemany_coins_Ok in E. subst db. reflexivity.
  - cbn. now rewrite Hs.
Qed.

Section Run.

Context {rt : Runtime}.
Variable cfg : Settings.
Variable requests_get : string -> Z -> Z -> result json.
Variable sql_now : string.
Variable plan_clock : nat -> date.
Variable fetch_clock : nat -> date.
Variable yf_download :
  nat -> Z -> list string -> string -> string -> result dataframe.
Variable ticker_history :
  string -> string -> string -> option Z -> result (list frame_row).
Variable order : list nat.

Lemma run_filter1_history conn :
  working conn = committed conn ->
  daily_history (working (snd (run_filter1 requests_get sql_now conn)))
  = daily_history (working conn).
Proof.
  intros Hs. unfold run_filter1.
  destruct (pages_loop requests_get max_pages 0 [] ∅) as [collected|e];
    [|reflexivity].
  cbv zeta.
  pose proof (insert_top_coins_history sql_now conn
                (assign_ranks (take (Z.to_nat target_count) (sort_desc collected)))
                "yahoo_screener_api" Hs) as Hh.
  destruct (insert_top_coins _ _ _ _) as [[u|e] conn']; exact Hh.
Qed.

(** X24. A run without a ranking source. When every mirror fails for the
    first page, [main] selects nothing and plans nothing: with a default
    start that is a date it ends in the state "no updates", the connection
    is as it was and the quote source is not asked; with a default start
    outside the calendar it ends with the OverflowError of the planner,
    and the connection is as it was. *)
Theorem main_without_ranking_source (conn : connection) :
  (forall base, base ∈ YF_SCREENER_URLS ->
     exists e, requests_get base 0 page_size = Raise e) ->
  valid (plan_clock 1%nat) = true ->
  main cfg requests_get sql_now plan_clock fetch_clock yf_download
    ticker_history order conn
  = if (0 <? toordinal (plan_clock 1%nat) - HISTORY_DAYS cfg)
       && (toordinal (plan_clock 1%nat) - HISTORY_DAYS cfg <=? _MAXORDINAL)
    then (Ok NoUpdates, conn, [])
    else (Raise OverflowError, conn, []).
Proof.
  intros Hdown V. unfold main.
  rewrite run_filter1_no_first_page.
  2:{ intros quotes. rewrite (fetch_page_all_down requests_get 0 page_size Hdown).
      discriminate. }
  rewrite build_update_plan_nil, default_start_any_clock by assumption.
  destruct ((0 <? _) && (_ <=? _)); reflexivity.
Qed.

(** X25. What a run does to the history. From a connection without
    uncommitted changes, [main] keeps every stored (symbol, date) key,
    however it ends, and the keys that it adds belong to symbols that
    [run_filter1] returned in this run. *)
Theorem main_adds_history_of_selected_symbols (conn : connection) :
  working conn = committed conn ->
  let after :=
    snd (fst (main cfg requests_get sql_now plan_clock fetch_clock yf_download
                ticker_history order conn)) in
  let keys := fun c => map bar_key (daily_history (working c)) in
  (forall k, k ∈ keys conn -> k ∈ keys after)
  /\ (forall k, k ∈ keys after ->
        k ∈ keys conn
        \/ exists l, fst (run_filter1 requests_get sql_now conn) = Ok l
                     /\ fst k ∈ map symbol l).
Proof.
  intros Hs. cbv zeta. unfold main.
  pose proof (run_filter1_history conn Hs) as Hh.
  destruct (run_filter1 requests_get sql_now conn) as [[l|e] conn1];
    cbn [fst snd] in *.
  2:{ rewrite Hh. split; [auto|]. intros k Hk. now left. }
  destruct (build_update_plan cfg plan_clock conn1 l) as [plan|e] eqn:Ep;
    cbn [fst snd].
  2:{ rewrite Hh. split; [auto|]. intros k Hk. now left. }
  apply build_update_plan_symbols in Ep.
  destruct (run_history_fetch_workers cfg yf_download ticker_history fetch_clock
              order conn1 plan) as (results & Hafter & Hwork).
  destruct (run_history_fetch cfg yf_download ticker_history fetch_clock order
              conn1 plan) as [m [[r conn2] reqs]]. cbn [fst snd] in *.
  subst conn2. rewrite <- Hh. split.
  - intros k. apply persist_completed_keeps.
  - intros k Hk.
    apply persist_completed_keys_in in Hk as [Hk|(j & rows & _ & Ej & Hk)];
      [left; exact Hk|].
    right. exists l. split; [reflexivity|].
    apply (sublist_subseteq _ _ Ep).
    apply list_elem_of_fmap in Hk as (b & -> & Hb). cbn [bar_key fst].
    destruct (Hwork j rows Ej)
      as [(sd & epo & batch & rem & att & Hr & Hsub)|(now & item & Hin & Hr)].
    + apply fetch_attempts_symbols in Hr. rewrite Forall_forall in Hr.
      apply Hsub. now apply Hr.
    + apply fetch_symbol_rows_symbols in Hr. rewrite Forall_forall in Hr.
      rewrite (Hr b Hb). apply list_elem_of_fmap. exists item. auto.
Qed.

End Run.

(** ** The order of completion in per-symbol mode *)

Section PerSymbolOrder.

Context {rt : Runtime}.
Variable cfg : Settings.
Variable yf_download :
  nat -> Z -> list string -> string -> string -> result dataframe.
Variable ticker_history :
  string -> string -> string -> option Z -> result (list frame_row).

Lemma run_history_fetch_order utcnow order1 order2 conn plan :
  fst (run_history_fetch cfg yf_download ticker_history utcnow order1 conn plan)
  = fst (run_history_fetch cfg yf_download ticker_history utcnow order2 conn plan)
  /\ (fst (run_history_fetch cfg yf_download ticker_history utcnow order1
             conn plan) = PerSymbolMode ->
      snd (snd (run_history_fetch cfg yf_download ticker_history utcnow order1
                  conn plan))
      = snd (snd (run_history_fetch cfg yf_download ticker_history utcnow order2
                    conn plan))).
Proof.
  unfold run_history_fetch. cbv zeta.
  destruct (length plan =? 0)%nat; [split; [reflexivity|discriminate]|].
  destruct ((size _ =? 1)%nat && (1 <? length plan)%nat);
    [split; [reflexivity|discriminate]|].
  destruct (thread_pool (MAX_WORKERS cfg)); split; reflexivity.
Qed.

(** X26. In per-symbol mode too the outcome does not depend on the order
    in which the workers finish, as long as no worker raises: for a plan
    with distinct symbols, two runs that differ only in the order of
    completion end in the same way, make the same requests, and store the
    same rows under every (symbol, date) key. *)
Theorem per_symbol_mode_ignores_completion_order
    (utcnow : nat -> date) (order1 order2 : list nat) (conn : connection)
    (plan : list plan_entry) :
  NoDup (map plan_symbol plan) ->
  order1 ≡ₚ order2 ->
  (forall i item, plan !! i = Some item ->
     exists rows,
       fst (fetch_symbol_rows cfg ticker_history (utcnow i) item) = Ok rows) ->
  let run := fun order =>
    run_history_fetch cfg yf_download ticker_history utcnow order conn plan in
  fst (run order1) = PerSymbolMode ->
  fst (fst (snd (run order1))) = fst (fst (snd (run order2)))
  /\ snd (snd (run order1)) = snd (snd (run order2))
  /\ forall k,
       rows_with bar_key k
         (daily_history (working (snd (fst (snd (run order1))))))
       = rows_with bar_key k
           (daily_history (working (snd (fst (snd (run order2)))))).
Proof.
  intros Hnd Hperm Hret run Hmode. subst run. cbv beta in Hmode |- *.
  destruct (run_history_fetch_order utcnow order1 order2 conn plan)
    as [Hm Hlogs].
  pose proof Hmode as Hmode2. rewrite Hm in Hmode2.
  destruct (Z.leb_spec (MAX_WORKERS cfg) 0) as [Hnw|Hw].
  { rewrite (run_history_fetch_no_pool cfg ticker_history yf_download utcnow
               order1 conn plan Hmode Hnw).
    rewrite (run_history_fetch_no_pool cfg ticker_history yf_download utcnow
               order2 conn plan Hmode2 Hnw).
    repeat split. }
  rewrite (run_history_fetch_per_symbol cfg ticker_history yf_download utcnow
             order1 conn plan Hmode Hw).
  rewrite (run_history_fetch_per_symbol cfg ticker_history yf_download utcnow
             order2 conn plan Hmode2 Hw).
  set (results :=
         imap (fun i item =>
                 fst (fetch_symbol_rows cfg ticker_history (utcnow i) item)) plan).
  assert (Hok : Forall (fun r : result (list bar) => exists rows, r = Ok rows)
                  results).
  { apply Forall_forall. intros r Hr. apply list_elem_of_lookup in Hr as [i Hi].
    unfold results in Hi. rewrite list_lookup_imap in Hi.
    destruct (plan !! i) as [item|] eqn:Ei; [|discriminate].
    cbn in Hi. injection Hi as <-. exact (Hret i item Ei). }
  split; [|split; [exact (Hlogs Hmode)|]].
  - now rewrite !persist_completed_completes.
  - apply persist_completed_order; [exact Hok| |exact Hperm].
    intros i j rows rows' b b' Hi Hj Hb Hb' Hsym.
    unfold results in Hi, Hj. rewrite list_lookup_imap in Hi, Hj.
    destruct (plan !! i) as [item|] eqn:Ei; [|discriminate].
    destruct (plan !! j) as [item'|] eqn:Ej; [|discriminate].
    cbn in Hi, Hj. injection Hi as Hi. injection Hj as Hj.
    apply fetch_symbol_rows_symbols in Hi, Hj. rewrite Forall_forall in Hi, Hj.
    apply (NoDup_lookup (map plan_symbol plan) i j (bar_symbol b) Hnd).
    + rewrite lookup_map, Ei. cbn. f_equal. symmetry. now apply Hi.
    + rewrite lookup_map, Ej. cbn. f_equal. rewrite Hsym. symmetry. now apply Hj.
Qed.

End PerSymbolOrder.

(** ** The further properties on sample data *)

Example plan_overflow_depth :
  build_update_plan Edge.deep_history Sample.steady_clock Sample.fresh_conn []
  = Raise OverflowError.
Proof. vm_compute. reflexivity. Qed.

Example plan_overflow_last_day :
  build_update_plan default_settings Sample.steady_clock Edge.last_day_conn
    Sample.universe
  = Raise OverflowError.
Proof. vm_compute. reflexivity. Qed.

Example main_on_sample_sources :
  fst (main (rt := Sample.runtime) Sample.ten_days Sample.repeating_source
         "2024-06-10 00:00:00" Sample.steady_clock Sample.steady_clock
         Sample.no_download Sample.retried_history [0; 1; 2; 3]%nat
         Sample.fresh_conn)
  = (Ok BulkMode,
     mkconn
       (mkdb (map (coin_row_of "2024-06-10 00:00:00" "yahoo_screener_api")
                [mkcoin "BTC-USD" (JStr "BTC-USD") 100%float (Some 1);
                 mkcoin "ETH-USD" (JStr "ETH-USD") 50%float (Some 2);
                 mkcoin "SOL-USD" (JStr "SOL-USD") 25%float (Some 3);
                 mkcoin "XRP-USD" (JStr "XRP-USD") 0%float (Some 4)]) [])
       (mkdb (map (coin_row_of "2024-06-10 00:00:00" "yahoo_screener_api")
                [mkcoin "BTC-USD" (JStr "BTC-USD") 100%float (Some 1);
                 mkcoin "ETH-USD" (JStr "ETH-USD") 50%float (Some 2);
                 mkcoin "SOL-USD" (JStr "SOL-USD") 25%float (Some 3);
                 mkcoin "XRP-USD" (JStr "XRP-USD") 0%float (Some 4)]) [])
       [Sample.empty_db]).
Proof. vm_compute. reflexivity. Qed.

Lemma bulk_download_ignores_completion_order_witness :
  NoDup (map plan_symbol Sample.uniform_plan)
  /\ [0; 1]%nat ≡ₚ [1; 0]%nat
  /\ forall k,
       rows_with bar_key k
         (daily_history
            (working
               (snd (fst (bulk_download (rt := Sample.runtime)
                            Sample.one_per_batch Sample.flaky_download
                            Sample.today [0; 1]%nat Sample.fresh_conn
                            Sample.uniform_plan)))))
       = rows_with bar_key k
           (daily_history
              (working
                 (snd (fst (bulk_download (rt := Sample.runtime)
                              Sample.one_per_batch Sample.flaky_download
                              Sample.today [1; 0]%nat Sample.fresh_conn
                              Sample.uniform_plan))))).
Proof.
  assert (H1 : NoDup (map plan_symbol Sample.uniform_plan)).
  { apply (bool_decide_unpack _). vm_compute. exact I. }
  assert (H2 : [0; 1]%nat ≡ₚ [1; 0]%nat) by apply perm_swap.
  split; [exact H1|]. split; [exact H2|].
  exact (proj2 (proj2 (bulk_download_ignores_completion_order
                         (rt := Sample.runtime) Sample.one_per_batch
                         Sample.flaky_download Sample.today _ _
                         Sample.fresh_conn Sample.uniform_plan H1 H2))).
Defined.

Lemma bulk_download_batch_size_edges_witness :
  end_plus_one_of Sample.today "2024-06-10" = Ok "2024-06-11"
  /\ bulk_download (rt := Sample.runtime) Edge.zero_batch Sample.no_download
       Sample.today [] Sample.fresh_conn Sample.uniform_plan
     = (Raise ValueError, Sample.fresh_conn, []).
Proof.
  assert (H : end_plus_one_of Sample.today "2024-06-10" = Ok "2024-06-11")
    by reflexivity.
  split; [exact H|].
  exact (proj1 (bulk_download_batch_size_edges (rt := Sample.runtime)
                  Edge.zero_batch Sample.no_download Sample.today []
                  Sample.fresh_conn
                  (mkplan "BTC-USD" "2024-06-08" "2024-06-10")
                  [mkplan "ETH-USD" "2024-06-08" "2024-06-10"]
                  "2024-06-11" H) eq_refl).
Defined.

Lemma run_filter1_malformed_quote_witness :
  quotes_loop (rt := Sample.runtime) ([], ∅, 0)
    ([Sample.quote "BTC-USD" (JFloat 100%float)] ++ [JStr "oops"])
  = Raise AttributeError.
Proof.
  assert (H1 : forall kv, JStr "oops" <> JDict kv) by discriminate.
  assert (H2 : Forall (fun q => quote_ok (rt := Sample.runtime) q = true)
                 [Sample.quote "BTC-USD" (JFloat 100%float)]).
  { constructor; [vm_compute; reflexivity|constructor]. }
  exact (proj1 (run_filter1_malformed_quote (rt := Sample.runtime)
                  Edge.all_down "2024-06-10 00:00:00" Sample.fresh_conn
                  _ [] _ H1 H2) ([], ∅, 0)).
Defined.

Lemma add_quote_missing_symbol_witness :
  dict_get Edge.nameless "symbol" = None
  /\ exists nm,
       add_quote (rt := Sample.runtime) ([], ∅, 0) (JDict Edge.nameless)
       = Ok ([mkcoin "None" nm 0%float None], {["None"]} ∪ ∅, 0 + 1).
Proof.
  assert (H1 : dict_get Edge.nameless "symbol" = None) by reflexivity.
  assert (H2 : _extract_market_cap (rt := Sample.runtime) (JDict Edge.nameless)
               = Ok 0%float) by reflexivity.
  split; [exact H1|].
  exact (proj1 (add_quote_missing_symbol (rt := Sample.runtime) [] ∅ 0
                  Edge.nameless 0%float (or_introl H1) H2)
           (not_elem_of_empty _)).
Defined.

Lemma persist_completed_stops_at_exception_witness :
  persist_completed Sample.fresh_conn Edge.second_raises [0; 1; 2]%nat
  = (Raise (OtherError "ConnectionError"),
     snd (persist_completed Sample.fresh_conn Edge.second_raises [0]%nat)).
Proof.
  assert (H1 : Edge.second_raises !! 1%nat
               = Some (Raise (OtherError "ConnectionError"))) by reflexivity.
  assert (H2 : Forall (fun j => forall e', Edge.second_raises !! j <> Some (Raise e'))
                 [0]%nat).
  { constructor; [intros e'; discriminate|constructor]. }
  exact (proj1 (persist_completed_stops_at_exception Sample.fresh_conn
                  Edge.second_raises [0]%nat [2]%nat 1 _ H1 H2)).
Defined.

Lemma run_history_fetch_keeps_iso_dates_witness :
  iso_dates
    (daily_history
       (working
          (snd (fst (snd (run_history_fetch (rt := Sample.runtime)
                            Sample.one_per_batch Sample.flaky_download
                            Sample.retried_history Sample.steady_clock
                            [0; 1]%nat Sample.fresh_conn
                            Sample.uniform_plan)))))).
Proof.
  assert (H1 : forall i k tickers start_ end_ df,
            Sample.flaky_download i k tickers start_ end_ = Ok df ->
            frame_valid df).
  { intros i k tickers start_ end_ df. unfold Sample.flaky_download.
    destruct i; [discriminate|]. destruct (k <? 3); [discriminate|].
    intros [= <-]. repeat constructor. }
  assert (H2 : forall sym start_ end_ timeout rows,
            Sample.retried_history sym start_ end_ timeout = Ok rows ->
            frame_rows_valid rows).
  { intros sym start_ end_ timeout rows. unfold Sample.retried_history.
    destruct timeout; [discriminate|]. intros [= <-]. repeat constructor. }
  assert (H3 : iso_dates (daily_history (working Sample.fresh_conn)))
    by constructor.
  exact (proj1 (run_history_fetch_keeps_iso_dates (rt := Sample.runtime)
                  Sample.one_per_batch Sample.flaky_download
                  Sample.retried_history H1 H2 Sample.steady_clock
                  [0; 1]%nat Sample.fresh_conn Sample.uniform_plan H3)).
Defined.

Lemma main_without_ranking_source_witness :
  main (rt := Sample.runtime) default_settings Edge.all_down
    "2024-06-10 00:00:00" Sample.steady_clock Sample.steady_clock
    Sample.no_download Sample.no_history [] Sample.stale_conn
  = (Ok NoUpdates, Sample.stale_conn, []).
Proof.
  assert (H1 : forall base, base ∈ YF_SCREENER_URLS ->
            exists e, Edge.all_down base 0 page_size = Raise e)
    by (intros base _; eexists; reflexivity).
  assert (H2 : valid (Sample.steady_clock 1%nat) = true) by reflexivity.
  exact (main_without_ranking_source (rt := Sample.runtime) default_settings
           Edge.all_down "2024-06-10 00:00:00" Sample.steady_clock
           Sample.steady_clock Sample.no_download Sample.no_history []
           Sample.stale_conn H1 H2).
Defined.

Lemma main_adds_history_of_selected_symbols_witness :
  working Sample.covered_conn = committed Sample.covered_conn
  /\ forall k,
    k ∈ map bar_key (daily_history (working Sample.covered_conn)) ->
    k ∈ map bar_key
          (daily_history
             (working
                (snd (fst (main (rt := Sample.runtime) default_settings
                             Sample.repeating_source "2024-06-10 00:00:00"
                             Sample.steady_clock Sample.steady_clock
                             Sample.no_download Sample.retried_history
                             [0; 1; 2]%nat Sample.covered_conn))))).
Proof.
  assert (H : working Sample.covered_conn = committed Sample.covered_conn)
    by reflexivity.
  split; [exact H|].
  exact (proj1 (main_adds_history_of_selected_symbols (rt := Sample.runtime)
                  default_settings Sample.repeating_source
                  "2024-06-10 00:00:00" Sample.steady_clock Sample.steady_clock
                  Sample.no_download Sample.retried_history [0; 1; 2]%nat
                  Sample.covered_conn H)).
Defined.

Lemma per_symbol_mode_ignores_completion_order_witness :
  NoDup (map plan_symbol Sample.mixed_plan)
  /\ [0; 1]%nat ≡ₚ [1; 0]%nat
  /\ fst (run_history_fetch (rt := Sample.runtime) default_settings
            Sample.no_download Sample.retried_history Sample.steady_clock
            [0; 1]%nat Sample.fresh_conn Sample.mixed_plan) = PerSymbolMode
  /\ forall k,
       rows_with bar_key k
         (daily_history
            (working
               (snd (fst (snd (run_history_fetch (rt := Sample.runtime)
                                 default_settings Sample.no_download
                                 Sample.retried_history Sample.steady_clock
                                 [0; 1]%nat Sample.fresh_conn
                                 Sample.mixed_plan))))))
       = rows_with bar_key k
           (daily_history
              (working
                 (snd (fst (snd (run_history_fetch (rt := Sample.runtime)
                                   default_settings Sample.no_download
                                   Sample.retried_history Sample.steady_clock
                                   [1; 0]%nat Sample.fresh_conn
                                   Sample.mixed_plan)))))).
Proof.
  assert (H1 : NoDup (map plan_symbol Sample.mixed_plan)).
  { apply (bool_decide_unpack _). vm_compute. exact I. }
  assert (H2 : [0; 1]%nat ≡ₚ [1; 0]%nat) by apply perm_swap.
  assert (H3 : forall i item, Sample.mixed_plan !! i = Some item ->
            exists rows,
              fst (fetch_symbol_rows (rt := Sample.runtime) default_settings
                     Sample.retried_history (Sample.steady_clock i) item)
              = Ok rows).
  { intros i item Hi. destruct i as [|[|i]]; cbn in Hi; try discriminate;
      injection Hi as <-; eexists; vm_compute; reflexivity. }
  assert (H4 : fst (run_history_fetch (rt := Sample.runtime) default_settings
                      Sample.no_download Sample.retried_history
                      Sample.steady_clock [0; 1]%nat Sample.fresh_conn
                      Sample.mixed_plan) = PerSymbolMode)
    by (vm_compute; reflexivity).
  split; [exact H1|]. split; [exact H2|]. split; [exact H4|].
  exact (proj2 (proj2 (per_symbol_mode_ignores_completion_order
                         (rt := Sample.runtime) default_settings
                         Sample.no_download Sample.retried_history
                         Sample.steady_clock _ _ Sample.fresh_conn
                         Sample.mixed_plan H1 H2 H3 H4))).
Defined.
